(** * Résumé extraction and query matching: a shallow embedding

    This development embeds the extraction-and-matching engine of the
    repository (the value objects of [curriculum_values.py], the entities
    of [curriculum.py], the rule-based intelligence service of
    [transformers_service.py] and the dispatch of the text extractor of
    [tesseract_extractor.py]) and proves properties of it.

    Modelling conventions.
    - A Python [str] is a [string] whose characters are the code points
      U+0000..U+00FF; every literal of the source (taxonomy, patterns,
      keyword lists, messages) lies in that range.  The character classes
      below are CPython's for that range.
    - A Python [int] is a [Z]; [int()] of a digit string is total (no
      limit is put on the number of digits).
    - A Python [float] is an exact rational [Q]: the weights 0.4, 0.3, 0.2
      and 0.1 are the rationals of the same decimal writing.
    - A raised exception is the [Raise] outcome of the [res] type.
    - A Python [set] is a [gset]. *)

From Stdlib Require Import ZArith QArith Ascii String List Bool Lia Lqa.
From Stdlib Require Import Permutation Sorted.
From stdpp Require Import gmap strings.

Local Open Scope Z_scope.

(** ** Outcomes of fallible code *)

Inductive exn : Type :=
  | ValueError (msg : string)
  | AttributeError (msg : string).

Inductive res (A : Type) : Type :=
  | Ok (a : A)
  | Raise (e : exn).

Arguments Ok {A} a.
Arguments Raise {A} e.

Definition rbind {A B : Type} (r : res A) (k : A -> res B) : res B :=
  match r with
  | Ok a => k a
  | Raise e => Raise e
  end.

(** [try: body except: handler] with a bare [except]. *)
Definition try_except {A : Type} (body : res A) (handler : A) : A :=
  match body with
  | Ok a => a
  | Raise _ => handler
  end.

(** ** The Python runtime: characters, strings, regular expressions *)

Module Py.

Definition code (c : ascii) : N := N_of_ascii c.
Definition chr (n : N) : ascii := ascii_of_N n.

Definition in_range (lo hi : N) (c : ascii) : bool :=
  ((lo <=? code c) && (code c <=? hi))%N.

Definition is_code (n : N) (c : ascii) : bool := (code c =? n)%N.

(** [\d] of [re] on [str]: the decimal digits. *)
Definition isdecimal (c : ascii) : bool := in_range 48 57 c.

(** [str.isspace] and [\s]: TAB..CR, FS..US, SPACE, NEL, NBSP. *)
Definition isspace (c : ascii) : bool :=
  in_range 9 13 c || in_range 28 32 c || is_code 133 c || is_code 160 c.

(** Upper-case letters: A-Z, U+00C0..U+00D6, U+00D8..U+00DE. *)
Definition isupper (c : ascii) : bool :=
  in_range 65 90 c || in_range 192 214 c || in_range 216 222 c.

(** Lower-case letters with an upper-case partner in the range:
    a-z, U+00E0..U+00F6, U+00F8..U+00FE. *)
Definition islower (c : ascii) : bool :=
  in_range 97 122 c || in_range 224 246 c || in_range 248 254 c.

(** [\w]: alphanumeric characters and the underscore. *)
Definition isword (c : ascii) : bool :=
  in_range 48 57 c || in_range 65 90 c || is_code 95 c || in_range 97 122 c
  || is_code 170 c || in_range 178 179 c || is_code 181 c
  || in_range 185 186 c || in_range 188 190 c
  || in_range 192 214 c || in_range 216 246 c || in_range 248 255 c.

Definition lower_char (c : ascii) : ascii :=
  if isupper c then chr (code c + 32) else c.

Definition upper_char (c : ascii) : ascii :=
  if islower c then chr (code c - 32) else c.

(** [s.lower()] *)
Fixpoint lower (s : string) : string :=
  match s with
  | EmptyString => EmptyString
  | String c r => String (lower_char c) (lower r)
  end.

(** Cased characters: the letters, with U+00AA, U+00B5, U+00BA, U+00DF
    and U+00FF. *)
Definition iscased (c : ascii) : bool :=
  in_range 65 90 c || in_range 97 122 c
  || is_code 170 c || is_code 181 c || is_code 186 c
  || in_range 192 214 c || in_range 216 246 c || in_range 248 255 c.

(** [s.title()]: the first letter of every run of cased characters in
    upper case, the others in lower case.  (U+00B5, U+00DF and U+00FF,
    whose title case leaves the range, are kept as they are.) *)
Fixpoint title_from (previous_is_cased : bool) (s : string) : string :=
  match s with
  | EmptyString => EmptyString
  | String c r =>
      String (if previous_is_cased then lower_char c else upper_char c)
             (title_from (iscased c) r)
  end.

Definition title (s : string) : string := title_from false s.

(** Truth value of a string in a condition. *)
Definition truthy (s : string) : bool :=
  match s with
  | EmptyString => false
  | String _ _ => true
  end.

Fixpoint lstrip (s : string) : string :=
  match s with
  | EmptyString => EmptyString
  | String c r => if isspace c then lstrip r else s
  end.

Fixpoint rstrip (s : string) : string :=
  match s with
  | EmptyString => EmptyString
  | String c r =>
      match rstrip r with
      | EmptyString => if isspace c then EmptyString else String c EmptyString
      | String d t => String c (String d t)
      end
  end.

(** [s.strip()] *)
Definition strip (s : string) : string := rstrip (lstrip s).

Fixpoint startswith (p s : string) : bool :=
  match p, s with
  | EmptyString, _ => true
  | String _ _, EmptyString => false
  | String a p', String b s' => Ascii.eqb a b && startswith p' s'
  end.

(** [needle in hay] *)
Fixpoint str_in (needle hay : string) : bool :=
  startswith needle hay ||
  match hay with
  | EmptyString => false
  | String _ r => str_in needle r
  end.

(** [x in l] for a list of strings *)
Definition list_in (x : string) (l : list string) : bool :=
  existsb (String.eqb x) l.

(** [sep.join(l)] *)
Fixpoint join (sep : string) (l : list string) : string :=
  match l with
  | [] => EmptyString
  | [x] => x
  | x :: r => x +:+ sep +:+ join sep r
  end.

(** [s.split()]: the maximal runs of non-space characters. *)
Fixpoint split_from (cur : string) (s : string) : list string :=
  match s with
  | EmptyString => if truthy cur then [cur] else []
  | String c r =>
      if isspace c
      then (if truthy cur then cur :: split_from EmptyString r
            else split_from EmptyString r)
      else split_from (cur +:+ String c EmptyString) r
  end.

Definition split (s : string) : list string := split_from EmptyString s.

(** [int(s)] on a string of decimal digits. *)
Definition digit_value (c : ascii) : Z := Z.of_N (code c) - 48.

Fixpoint int_from (acc : Z) (s : string) : Z :=
  match s with
  | EmptyString => acc
  | String c r => int_from (acc * 10 + digit_value c) r
  end.

Definition int (s : string) : Z := int_from 0 s.

(** [str(n)] on an integer: its decimal digits, most significant first.
    [fuel] bounds the number of digits. *)
Definition digit_char (d : Z) : ascii := chr (Z.to_N (48 + d)).

Fixpoint digits_of (fuel : nat) (n : Z) (acc : string) : string :=
  match fuel with
  | O => acc
  | S fuel' =>
      let acc' := String (digit_char (n mod 10)) acc in
      if n <? 10 then acc' else digits_of fuel' (n / 10) acc'
  end.

Definition digits_fuel (n : Z) : nat := S (Z.to_nat (Z.log2 n)).

Definition str_int (n : Z) : string :=
  if n <? 0 then String "-" (digits_of (digits_fuel (- n)) (- n) EmptyString)
  else digits_of (digits_fuel n) n EmptyString.

(** [s.split(sep)] for a one-character separator: the pieces between the
    separators, empty pieces included; [cur] is the piece being read. *)
Fixpoint split_on (sep : ascii) (cur s : string) : list string :=
  match s with
  | EmptyString => [cur]
  | String c r =>
      if Ascii.eqb c sep then cur :: split_on sep EmptyString r
      else split_on sep (cur +:+ String c EmptyString) r
  end.

(** [char.isdigit()]: the decimal digits and the superscripts U+00B2,
    U+00B3, U+00B9. *)
Definition isdigit (c : ascii) : bool :=
  in_range 48 57 c || in_range 178 179 c || is_code 185 c.

(** [any(f(char) for char in s)] *)
Fixpoint any_char (f : ascii -> bool) (s : string) : bool :=
  match s with
  | EmptyString => false
  | String c r => f c || any_char f r
  end.

End Py.

(** ** A backtracking matcher for the regular expressions of the source

    The patterns of the source are sequences of single characters and of
    the classes [\d] and [\s], taken once or under the greedy quantifiers
    [?], [*] and [+], with the word boundary [\b] and one capturing group.
    [run] follows the backtracking order of [re]: a greedy quantifier
    takes as much as it can and gives back one character at a time. *)

Module Re.

Inductive atom : Type :=
  | Chr (c : ascii)
  | Digit
  | Space.

Inductive item : Type :=
  | One (a : atom)
  | Opt (a : atom)
  | Star (a : atom)
  | Plus (a : atom)
  | Boundary
  | Open
  | Close.

Definition atom_ok (a : atom) (c : ascii) : bool :=
  match a with
  | Chr d => Ascii.eqb d c
  | Digit => Py.isdecimal c
  | Space => Py.isspace c
  end.

(** The matcher's position: the character before it, the text after it,
    whether group 1 is open, and the text group 1 has captured. *)
Record mstate : Type := MState {
  prev : option ascii;
  rest : string;
  inside : bool;
  buf : string
}.

Definition eat (c : ascii) (r : string) (st : mstate) : mstate :=
  {| prev := Some c;
     rest := r;
     inside := inside st;
     buf := if inside st then buf st +:+ String c EmptyString else buf st |}.

Definition word_opt (o : option ascii) : bool :=
  match o with
  | Some c => Py.isword c
  | None => false
  end.

Definition head (s : string) : option ascii :=
  match s with
  | EmptyString => None
  | String c _ => Some c
  end.

(** [\b]: exactly one of the two neighbours is a word character. *)
Definition at_boundary (st : mstate) : bool :=
  xorb (word_opt (prev st)) (word_opt (head (rest st))).

Fixpoint star (a : atom) (k : mstate -> option string) (s : string)
    (st : mstate) : option string :=
  match s with
  | String c r =>
      if atom_ok a c then
        match star a k r (eat c r st) with
        | Some m => Some m
        | None => k st
        end
      else k st
  | EmptyString => k st
  end.

(** [run p st]: the text of group 1 when [p] matches at [st]. *)
Fixpoint run (p : list item) (st : mstate) : option string :=
  match p with
  | [] => Some (buf st)
  | One a :: p' =>
      match rest st with
      | String c r => if atom_ok a c then run p' (eat c r st) else None
      | EmptyString => None
      end
  | Opt a :: p' =>
      match rest st with
      | String c r =>
          if atom_ok a c then
            match run p' (eat c r st) with
            | Some m => Some m
            | None => run p' st
            end
          else run p' st
      | EmptyString => run p' st
      end
  | Star a :: p' => star a (run p') (rest st) st
  | Plus a :: p' =>
      match rest st with
      | String c r =>
          if atom_ok a c then star a (run p') r (eat c r st) else None
      | EmptyString => None
      end
  | Boundary :: p' => if at_boundary st then run p' st else None
  | Open :: p' =>
      run p' {| prev := prev st; rest := rest st;
                inside := true; buf := EmptyString |}
  | Close :: p' =>
      run p' {| prev := prev st; rest := rest st;
                inside := false; buf := buf st |}
  end.

Definition start (before : option ascii) (s : string) : mstate :=
  {| prev := before; rest := s; inside := false; buf := EmptyString |}.

Fixpoint search_from (p : list item) (before : option ascii) (s : string)
    : option string :=
  match run p (start before s) with
  | Some m => Some m
  | None =>
      match s with
      | String c r => search_from p (Some c) r
      | EmptyString => None
      end
  end.

(** [re.search(p, s)]: the leftmost match; the result is [group(1)]. *)
Definition search (p : list item) (s : string) : option string :=
  search_from p None s.

(** Truth value of the result of [re.search] in a condition. *)
Definition found (m : option string) : bool :=
  match m with
  | Some _ => true
  | None => false
  end.

(** [re.escape(s)] as a pattern: every character stands for itself. *)
Fixpoint lit (s : string) : list item :=
  match s with
  | EmptyString => []
  | String c r => One (Chr c) :: lit r
  end.

End Re.

(** A one-character string, for the letters outside ASCII. *)
Definition ch (n : N) : string := String (Py.chr n) EmptyString.

Definition a_acute : string := ch 225.   (* U+00E1 *)
Definition a_tilde : string := ch 227.   (* U+00E3 *)
Definition c_cedil : string := ch 231.   (* U+00E7 *)
Definition e_circ : string := ch 234.    (* U+00EA *)
Definition i_acute : string := ch 237.   (* U+00ED *)
Definition u_acute : string := ch 250.   (* U+00FA *)
Definition e_acute : string := ch 233.   (* U+00E9 *)
Definition o_acute : string := ch 243.   (* U+00F3 *)
Definition A_acute : string := ch 193.   (* U+00C1 *)

(** ** Value objects ([curriculum_values.py]) *)

Module ProfessionalLevel.

Inductive t : Type :=
  | JUNIOR
  | PLENO
  | SENIOR
  | ESPECIALISTA
  | UNKNOWN.

Definition eqb (a b : t) : bool :=
  match a, b with
  | JUNIOR, JUNIOR | PLENO, PLENO | SENIOR, SENIOR
  | ESPECIALISTA, ESPECIALISTA | UNKNOWN, UNKNOWN => true
  | _, _ => false
  end.

Definition value (l : t) : string :=
  match l with
  | JUNIOR => "J" +:+ u_acute +:+ "nior"
  | PLENO => "Pleno"
  | SENIOR => "S" +:+ e_circ +:+ "nior"
  | ESPECIALISTA => "Especialista"
  | UNKNOWN => "Desconhecido"
  end.

Definition members : list t := [JUNIOR; PLENO; SENIOR; ESPECIALISTA; UNKNOWN].

(** [ProfessionalLevel(v)]: the member whose value is [v]; a [ValueError]
    when there is none. *)
Definition of_value (v : string) : res t :=
  match find (fun l => String.eqb (value l) v) members with
  | Some l => Ok l
  | None => Raise (ValueError ("'" +:+ v +:+ "' is not a valid ProfessionalLevel"))
  end.

Definition from_text (text : string) : t :=
  if negb (Py.truthy text) then UNKNOWN
  else
    let text_lower := Py.lower text in
    if existsb (fun word => Py.str_in word text_lower)
         ["senior"; "s" +:+ e_circ +:+ "nior"; "lead";
          "l" +:+ i_acute +:+ "der"; "arquiteto"]
    then SENIOR
    else if existsb (fun word => Py.str_in word text_lower)
         ["junior"; "j" +:+ u_acute +:+ "nior"; "trainee";
          "estagi" +:+ a_acute +:+ "rio"]
    then JUNIOR
    else if Py.str_in "pleno" text_lower then PLENO
    else if Py.str_in "especialista" text_lower then ESPECIALISTA
    else UNKNOWN.

End ProfessionalLevel.

Module TechnicalSkill.

Record t : Type := Make { name : string; category : string }.

#[global] Instance eq_dec : EqDecision t.
Proof. solve_decision. Defined.

#[global] Instance countable : Countable t.
Proof.
  refine (inj_countable' (fun s => (name s, category s))
            (fun p => Make (fst p) (snd p)) _).
  intros []; reflexivity.
Defined.

(** The constructor with its [__post_init__] check. *)
Definition new (name category : string) : res t :=
  if negb (Py.truthy name) || negb (Py.truthy (Py.strip name))
  then Raise (ValueError ("Nome da habilidade n" +:+ a_tilde +:+ "o pode ser vazio"))
  else Ok (Make name category).

Definition matches (self : t) (other_skill : string) : bool :=
  String.eqb (Py.lower (name self)) (Py.lower other_skill).

End TechnicalSkill.

Module TechnicalSkillSet.

Record t : Type := Make { skills : gset TechnicalSkill.t }.

Definition languages : list string :=
  ["python"; "java"; "javascript"; "typescript"; "c++"; "c#"; "go"; "rust";
   "php"; "ruby"].
Definition frameworks : list string :=
  ["react"; "angular"; "vue"; "django"; "flask"; "fastapi"; "spring";
   "express"].
Definition databases : list string :=
  ["postgresql"; "mysql"; "mongodb"; "redis"; "elasticsearch"; "sqlite"].
Definition devops : list string :=
  ["docker"; "kubernetes"; "aws"; "azure"; "gcp"; "terraform"; "jenkins"].

Definition _categorize_skill (skill : string) : string :=
  let skill_lower := Py.lower skill in
  if existsb (fun lang => Py.str_in lang skill_lower) languages
  then "Linguagem de Programa" +:+ c_cedil +:+ a_tilde +:+ "o"
  else if existsb (fun fw => Py.str_in fw skill_lower) frameworks
  then "Framework"
  else if existsb (fun db => Py.str_in db skill_lower) databases
  then "Banco de Dados"
  else if existsb (fun devops_tool => Py.str_in devops_tool skill_lower) devops
  then "DevOps"
  else "Geral".

(** The loop of [__init__]: [skill_objects] is the set built so far. *)
Fixpoint init_loop (todo : list string) (skill_objects : gset TechnicalSkill.t)
    : res (gset TechnicalSkill.t) :=
  match todo with
  | [] => Ok skill_objects
  | skill :: todo' =>
      if Py.truthy skill && Py.truthy (Py.strip skill) then
        let category := _categorize_skill skill in
        rbind (TechnicalSkill.new (Py.strip skill) category)
          (fun sk => init_loop todo' ({[ sk ]} ∪ skill_objects))
      else init_loop todo' skill_objects
  end.

(** [TechnicalSkillSet(skills)] *)
Definition init (skills : list string) : res t :=
  rbind (init_loop skills ∅) (fun skill_objects => Ok (Make skill_objects)).

Definition has_skill (self : t) (skill_name : string) : bool :=
  existsb (fun skill => TechnicalSkill.matches skill skill_name)
          (elements (skills self)).

Definition count (self : t) : Z := Z.of_nat (size (skills self)).

Definition to_list (self : t) : list string :=
  map TechnicalSkill.name (elements (skills self)).

Definition get_skills_by_category (self : t) (category : string)
    : list TechnicalSkill.t :=
  List.filter (fun skill => String.eqb (TechnicalSkill.category skill) category)
              (elements (skills self)).

End TechnicalSkillSet.

Module ExperienceYears.

Record t : Type := Make { years : Z }.

(** The constructor with its [__post_init__] check. *)
Definition new (years : Z) : res t :=
  if years <? 0
  then Raise (ValueError ("Anos de experi" +:+ e_circ +:+ "ncia n" +:+ a_tilde
                          +:+ "o pode ser negativo"))
  else Ok (Make years).

Import Re.

Definition experiencia : string := "experi" +:+ e_circ +:+ "ncia".

(** The four patterns of [from_text], in the order of the source. *)
Definition patterns : list (list item) :=
  [ (* (\d+)\s*anos?\s*de\s*experiência *)
    [Open; Plus Digit; Close; Star Space] ++ lit "ano" ++ [Opt (Chr "s"); Star Space]
      ++ lit "de" ++ [Star Space] ++ lit experiencia;
    (* experiência\s*de\s*(\d+)\s*anos? *)
    lit experiencia ++ [Star Space] ++ lit "de"
      ++ [Star Space; Open; Plus Digit; Close; Star Space] ++ lit "ano"
      ++ [Opt (Chr "s")];
    (* (\d+)\s*years?\s*of\s*experience *)
    [Open; Plus Digit; Close; Star Space] ++ lit "year" ++ [Opt (Chr "s"); Star Space]
      ++ lit "of" ++ [Star Space] ++ lit "experience";
    (* (\d+)\+\s*anos? *)
    [Open; Plus Digit; Close; One (Chr "+"); Star Space] ++ lit "ano"
      ++ [Opt (Chr "s")] ].

(** The [for pattern in patterns] loop. *)
Fixpoint scan (ps : list (list item)) (text : string) : res t :=
  match ps with
  | [] => new 0
  | pattern :: ps' =>
      match Re.search pattern (Py.lower text) with
      | Some group1 => new (Py.int group1)
      | None => scan ps' text
      end
  end.

Definition from_text (text : string) : res t :=
  if negb (Py.truthy text) then new 0 else scan patterns text.

Definition get_level_suggestion (self : t) : ProfessionalLevel.t :=
  if years self >=? 5 then ProfessionalLevel.SENIOR
  else if years self >=? 2 then ProfessionalLevel.PLENO
  else if years self >? 0 then ProfessionalLevel.JUNIOR
  else ProfessionalLevel.UNKNOWN.

(** [__str__] *)
Definition str (self : t) : string := Py.str_int (years self) +:+ " anos".

End ExperienceYears.

(** ** Counting, clamping and sorting *)

(** [sum(1 for x in l if f x)] *)
Definition count_if {A : Type} (f : A -> bool) (l : list A) : Z :=
  Z.of_nat (length (List.filter f l)).

(** [len(l)] *)
Definition len {A : Type} (l : list A) : Z := Z.of_nat (length l).

(** Truth value of a list in a condition. *)
Definition nonempty {A : Type} (l : list A) : bool :=
  match l with
  | [] => false
  | _ :: _ => true
  end.

(** Truth value of an [Optional[str]] in a condition. *)
Definition opt_truthy (o : option string) : bool :=
  match o with
  | Some s => Py.truthy s
  | None => false
  end.

(** [min(a, b)] *)
Definition fmin (a b : Q) : Q := if Qle_bool a b then a else b.

(** [m / n] on two integers: true division. *)
Definition true_div (m n : Z) : Q := (inject_Z m / inject_Z n)%Q.

(** [x] may stand before [y] in descending order of [key]. *)
Definition ge_key {A : Type} (key : A -> Q) (x y : A) : Prop :=
  (key y <= key x)%Q.

(** The elements of a list whose key is [v], in the order of the list. *)
Definition having {A : Type} (key : A -> Q) (v : Q) (l : list A) : list A :=
  List.filter (fun m => Qeq_bool (key m) v) l.

(** [l.sort(key=key, reverse=True)]: the stable sort into descending
    order of [key].  An element is put before the first element of the
    sorted tail whose key is not greater than its own, so that elements
    with equal keys keep the order they had. *)
Fixpoint insert_desc {A : Type} (key : A -> Q) (x : A) (l : list A) : list A :=
  match l with
  | [] => [x]
  | y :: l' =>
      if Qle_bool (key y) (key x) then x :: y :: l'
      else y :: insert_desc key x l'
  end.

Fixpoint sort_reverse {A : Type} (key : A -> Q) (l : list A) : list A :=
  match l with
  | [] => []
  | x :: l' => insert_desc key x (sort_reverse key l')
  end.

Module MatchScore.

Record t : Type := Make { value : Q }.

(** The constructor with its [__post_init__] check. *)
Definition new (value : Q) : res t :=
  if Qle_bool 0 value && Qle_bool value 1 then Ok (Make value)
  else Raise (ValueError "Score deve estar entre 0.0 e 1.0").

(** [level_scores.get(level, 0)] *)
Definition level_scores (l : ProfessionalLevel.t) : Z :=
  match l with
  | ProfessionalLevel.JUNIOR => 1
  | ProfessionalLevel.PLENO => 2
  | ProfessionalLevel.SENIOR => 3
  | ProfessionalLevel.ESPECIALISTA => 4
  | ProfessionalLevel.UNKNOWN => 0
  end.

Definition skills_term (required_skills : list string)
    (candidate_skills : TechnicalSkillSet.t) : Q :=
  if nonempty required_skills then
    let matched_skills :=
      count_if (fun skill => TechnicalSkillSet.has_skill candidate_skills skill)
               required_skills in
    let skills_score := true_div matched_skills (len required_skills) in
    (skills_score * (5 # 10))%Q
  else 0%Q.

Definition experience_term (required_experience : Z)
    (candidate_experience : ExperienceYears.t) : Q :=
  if required_experience >? 0 then
    if ExperienceYears.years candidate_experience >=? required_experience
    then (3 # 10)%Q
    else
      let ratio :=
        true_div (ExperienceYears.years candidate_experience)
                 required_experience in
      (ratio * (3 # 10))%Q
  else 0%Q.

Definition level_term (required_level candidate_level : ProfessionalLevel.t)
    : Q :=
  if negb (ProfessionalLevel.eqb required_level ProfessionalLevel.UNKNOWN) then
    let req_score := level_scores required_level in
    let cand_score := level_scores candidate_level in
    if cand_score >=? req_score then (2 # 10)%Q
    else if Z.abs (cand_score - req_score) <=? 1 then (1 # 10)%Q
    else 0%Q
  else 0%Q.

Definition calculate (required_skills : list string)
    (candidate_skills : TechnicalSkillSet.t)
    (required_experience : Z) (candidate_experience : ExperienceYears.t)
    (required_level candidate_level : ProfessionalLevel.t) : res t :=
  let score :=
    (0 + skills_term required_skills candidate_skills
       + experience_term required_experience candidate_experience
       + level_term required_level candidate_level)%Q in
  new (fmin score 1).

Definition is_excellent (self : t) : bool := Qle_bool (8 # 10) (value self).

Definition is_good (self : t) : bool := Qle_bool (6 # 10) (value self).

Definition is_poor (self : t) : bool := negb (Qle_bool (4 # 10) (value self)).

End MatchScore.

Module FileType.

Inductive t : Type :=
  | PDF
  | JPEG
  | JPG
  | PNG
  | BMP
  | TIFF
  | GIF
  | WEBP
  | UNKNOWN.

Definition eqb (a b : t) : bool :=
  match a, b with
  | PDF, PDF | JPEG, JPEG | JPG, JPG | PNG, PNG | BMP, BMP
  | TIFF, TIFF | GIF, GIF | WEBP, WEBP | UNKNOWN, UNKNOWN => true
  | _, _ => false
  end.

Definition value (f : t) : string :=
  match f with
  | PDF => "application/pdf"
  | JPEG => "image/jpeg"
  | JPG => "image/jpg"
  | PNG => "image/png"
  | BMP => "image/bmp"
  | TIFF => "image/tiff"
  | GIF => "image/gif"
  | WEBP => "image/webp"
  | UNKNOWN => "unknown"
  end.

(** The dictionary [extension_map] of [from_filename]. *)
Definition extension_map : list (string * t) :=
  [ ("pdf", PDF); ("jpg", JPG); ("jpeg", JPEG); ("png", PNG); ("bmp", BMP);
    ("tiff", TIFF); ("gif", GIF); ("webp", WEBP) ].

(** [extension_map.get(extension, cls.UNKNOWN)] *)
Definition extension_map_get (extension : string) : t :=
  match find (fun entry => String.eqb (fst entry) extension) extension_map with
  | Some entry => snd entry
  | None => UNKNOWN
  end.

Definition from_filename (filename : string) : t :=
  if negb (Py.truthy filename) || negb (Py.str_in "." filename) then UNKNOWN
  else
    let extension :=
      Py.lower (List.last (Py.split_on "." EmptyString filename) EmptyString) in
    extension_map_get extension.

Definition is_image (self : t) : bool :=
  existsb (eqb self) [JPEG; JPG; PNG; BMP; TIFF; GIF; WEBP].

Definition is_pdf (self : t) : bool := eqb self PDF.

Definition is_supported (self : t) : bool := negb (eqb self UNKNOWN).

End FileType.

(** ** Entities ([curriculum.py]) *)

Module CurriculumDocument.

(** The fields of a document; a time stamp is an integer. *)
Record t : Type := Make {
  id : string;
  file_name : string;
  file_type : FileType.t;
  file_size : Z;
  extracted_text : string;
  upload_timestamp : Z;
  processed : bool;
  processing_timestamp : option Z;
  error_message : option string
}.

Definition is_valid (self : t) : bool :=
  Py.truthy (file_name self) && (file_size self >? 0)
  && negb (FileType.eqb (file_type self) FileType.UNKNOWN).

Definition get_file_extension (self : t) : string :=
  if Py.str_in "." (file_name self)
  then Py.lower (List.last (Py.split_on "." EmptyString (file_name self))
                   EmptyString)
  else EmptyString.

(** [mark_as_processed], at the time [now]. *)
Definition mark_as_processed (now : Z) (self : t) (text : string) : t :=
  {| id := id self; file_name := file_name self; file_type := file_type self;
     file_size := file_size self; extracted_text := text;
     upload_timestamp := upload_timestamp self; processed := true;
     processing_timestamp := Some now; error_message := None |}.

(** [mark_as_failed], at the time [now]. *)
Definition mark_as_failed (now : Z) (self : t) (message : string) : t :=
  {| id := id self; file_name := file_name self; file_type := file_type self;
     file_size := file_size self; extracted_text := extracted_text self;
     upload_timestamp := upload_timestamp self; processed := false;
     processing_timestamp := Some now; error_message := Some message |}.

End CurriculumDocument.

Module CurriculumAnalysis.

(** The fields the matching engine reads. *)
Record t : Type := Make {
  document_id : string;
  summary : string;
  skills : list string;
  experience_years : option string;
  position_level : option string;
  education : option string
}.

(** [add_skill]: the record with its skill list after the call. *)
Definition add_skill (self : t) (skill : string) : t :=
  if Py.truthy skill && negb (Py.list_in skill (skills self))
  then {| document_id := document_id self; summary := summary self;
          skills := skills self ++ [skill];
          experience_years := experience_years self;
          position_level := position_level self;
          education := education self |}
  else self.

Definition has_skill (self : t) (skill : string) : bool :=
  Py.list_in (Py.lower skill) (map Py.lower (skills self)).

End CurriculumAnalysis.

Module AnalysisRequest.

Record t : Type := Make {
  id : string;
  user_id : string;
  query : option string;
  documents : list CurriculumDocument.t
}.

Definition add_document (self : t) (document : CurriculumDocument.t) : t :=
  if CurriculumDocument.is_valid document
  then {| id := id self; user_id := user_id self; query := query self;
          documents := documents self ++ [document] |}
  else self.

Definition get_document_count (self : t) : Z := len (documents self).

Definition has_query (self : t) : bool :=
  match query self with
  | Some q => Py.truthy q && Py.truthy (Py.strip q)
  | None => false
  end.

End AnalysisRequest.

Module QueryMatch.

Record t : Type := Make {
  document_id : string;
  score : Q;
  reasons : list string
}.

Definition add_reason (self : t) (reason : string) : t :=
  if Py.truthy reason && negb (Py.list_in reason (reasons self))
  then {| document_id := document_id self; score := score self;
          reasons := reasons self ++ [reason] |}
  else self.

End QueryMatch.

(** [max(l, key=key)] on a list with first element [best]: the first of
    the elements whose key is greatest. *)
Fixpoint max_from {A : Type} (key : A -> Q) (best : A) (l : list A) : A :=
  match l with
  | [] => best
  | x :: l' =>
      if Qle_bool (key x) (key best) then max_from key best l'
      else max_from key x l'
  end.

Module AnalysisResult.

Record t : Type := Make {
  request_id : string;
  analyses : list CurriculumAnalysis.t;
  query_matches : list QueryMatch.t;
  processing_time : Q;
  success : bool;
  error_message : option string
}.

Definition add_analysis (self : t) (analysis : CurriculumAnalysis.t) : t :=
  {| request_id := request_id self; analyses := analyses self ++ [analysis];
     query_matches := query_matches self;
     processing_time := processing_time self; success := success self;
     error_message := error_message self |}.

Definition add_query_match (self : t) (m : QueryMatch.t) : t :=
  {| request_id := request_id self; analyses := analyses self;
     query_matches := query_matches self ++ [m];
     processing_time := processing_time self; success := success self;
     error_message := error_message self |}.

Definition get_best_match (self : t) : option QueryMatch.t :=
  match query_matches self with
  | [] => None
  | m :: others => Some (max_from QueryMatch.score m others)
  end.

Definition mark_as_failed (self : t) (error : string) : t :=
  {| request_id := request_id self; analyses := analyses self;
     query_matches := query_matches self;
     processing_time := processing_time self; success := false;
     error_message := Some error |}.

End AnalysisResult.

(** ** Text extraction ([tesseract_extractor.py]) *)

Module TesseractTextExtractor.

(** What a call raises: [ValueError(msg)] or a plain [Exception(msg)]. *)
Inductive raised : Type :=
  | ValueError (msg : string)
  | Exception (msg : string).

(** [str(e)] *)
Definition str_of (e : raised) : string :=
  match e with
  | ValueError msg => msg
  | Exception msg => msg
  end.

Definition supported_image_types : list FileType.t :=
  [ FileType.JPEG; FileType.JPG; FileType.PNG; FileType.BMP; FileType.TIFF;
    FileType.GIF; FileType.WEBP ].

Definition supported_pdf_types : list FileType.t := [ FileType.PDF ].

(** [file_type in types] *)
Definition type_in (file_type : FileType.t) (types : list FileType.t) : bool :=
  existsb (FileType.eqb file_type) types.

Definition is_supported_type (file_type : FileType.t) : bool :=
  type_in file_type (supported_image_types ++ supported_pdf_types).

(** [text += page.extract_text() + "\n"] over the pages. *)
Definition pages_text (pages : list string) : string :=
  fold_left (fun text page => text +:+ (page +:+ "010")) pages EmptyString.

Section Extraction.

(** The file content, and the two libraries: [image_to_string] stands for
    opening the image and running the character recognition on it,
    [pdf_pages] for reading the document and extracting the text of each
    page; either returns its result or the exception it raised. *)
Variable bytes : Type.
Variable image_to_string : bytes -> string + raised.
Variable pdf_pages : bytes -> list string + raised.

Definition _extract_from_image_bytes (content : bytes) : string + raised :=
  match image_to_string content with
  | inl text => inl (Py.strip text)
  | inr e => inr (Exception ("Erro no OCR da imagem: " +:+ str_of e))
  end.

Definition _extract_from_pdf_bytes (content : bytes) : string + raised :=
  match pdf_pages content with
  | inl pages => inl (Py.strip (pages_text pages))
  | inr e =>
      inr (Exception ("Erro na extra" +:+ c_cedil +:+ a_tilde +:+ "o de PDF: "
                      +:+ str_of e))
  end.

Definition extract_from_bytes (content : bytes) (file_type : FileType.t)
  : string + raised :=
  if negb (is_supported_type file_type)
  then inr (ValueError ("Tipo de arquivo n" +:+ a_tilde +:+ "o suportado: "
                        +:+ FileType.value file_type))
  else
    match
      (if type_in file_type supported_image_types
       then _extract_from_image_bytes content
       else if type_in file_type supported_pdf_types
       then _extract_from_pdf_bytes content
       else inr (ValueError ("Tipo n" +:+ a_tilde +:+ "o implementado: "
                             +:+ FileType.value file_type)))
    with
    | inl text => inl text
    | inr e =>
        inr (Exception ("Erro na extra" +:+ c_cedil +:+ a_tilde
                        +:+ "o de texto: " +:+ str_of e))
    end.

End Extraction.

End TesseractTextExtractor.

(** ** The intelligence service ([transformers_service.py]) *)

Module TransformersIntelligenceService.

Import Re.

Definition technical_skills_patterns : list string :=
  [ "python"; "java"; "javascript"; "typescript"; "c++"; "c#"; "go"; "rust";
    "php"; "ruby"; "swift"; "kotlin"; "scala"; "r"; "matlab"; "sql";
    "react"; "angular"; "vue"; "django"; "flask"; "fastapi"; "spring";
    "express"; "nodejs"; "laravel"; "rails"; "next.js"; "nuxt";
    "postgresql"; "mysql"; "mongodb"; "redis"; "elasticsearch";
    "sqlite"; "oracle"; "sql server"; "cassandra"; "dynamodb";
    "docker"; "kubernetes"; "aws"; "azure"; "gcp"; "terraform";
    "jenkins"; "gitlab ci"; "github actions"; "ansible"; "chef";
    "git"; "linux"; "nginx"; "apache"; "microservices"; "api rest";
    "graphql"; "machine learning"; "data science"; "big data";
    "pandas"; "numpy"; "tensorflow"; "pytorch" ].

(** [r'\b' + re.escape(skill) + r'\b'] *)
Definition word_pattern (skill : string) : list item :=
  [Boundary] ++ lit skill ++ [Boundary].

(** The two tests of the loop of [extract_skills]. *)
Definition skill_hit (skill text_lower : string) : bool :=
  Py.str_in skill text_lower
  && Re.found (Re.search (word_pattern skill) text_lower).

(** The loop of [extract_skills]: the title-cased hits, in taxonomy order. *)
Fixpoint found_skills (todo : list string) (text_lower : string) : list string :=
  match todo with
  | [] => []
  | skill :: todo' =>
      if skill_hit skill text_lower
      then Py.title skill :: found_skills todo' text_lower
      else found_skills todo' text_lower
  end.

Definition extract_skills (text : string) : res TechnicalSkillSet.t :=
  if negb (Py.truthy text) then TechnicalSkillSet.init []
  else
    let text_lower := Py.lower text in
    TechnicalSkillSet.init (found_skills technical_skills_patterns text_lower).

Definition extract_experience (text : string) : res ExperienceYears.t :=
  ExperienceYears.from_text text.

(** The record that [analyze_curriculum] builds from the facts it has
    extracted: the experience is stored as its display string, or not at
    all when it is zero, and the level as its value, or not at all when it
    is unknown. *)
Definition analysis_record (document_id summary : string)
    (skills : TechnicalSkillSet.t) (experience : ExperienceYears.t)
    (level : ProfessionalLevel.t) (education : option string)
    : CurriculumAnalysis.t :=
  {| CurriculumAnalysis.document_id := document_id;
     CurriculumAnalysis.summary := summary;
     CurriculumAnalysis.skills := TechnicalSkillSet.to_list skills;
     CurriculumAnalysis.experience_years :=
       if ExperienceYears.years experience >? 0
       then Some (ExperienceYears.str experience) else None;
     CurriculumAnalysis.position_level :=
       if negb (ProfessionalLevel.eqb level ProfessionalLevel.UNKNOWN)
       then Some (ProfessionalLevel.value level) else None;
     CurriculumAnalysis.education := education |}.

(** The [requirements] dictionary. *)
Record requirements : Type := Requirements {
  req_skills : list string;
  req_experience_years : Z;
  req_level : ProfessionalLevel.t;
  req_keywords : list string
}.

(** [(\d+)\+?\s*anos?] *)
Definition exp_pattern : list item :=
  [Open; Plus Digit; Close; Opt (Chr "+"); Star Space] ++ lit "ano"
    ++ [Opt (Chr "s")].

Definition _parse_query_requirements (query : string) : requirements :=
  let query_lower := Py.lower query in
  {| req_skills :=
       List.filter (fun skill => Py.str_in skill query_lower)
                   technical_skills_patterns;
     req_experience_years :=
       match Re.search exp_pattern query_lower with
       | Some group1 => Py.int group1
       | None => 0
       end;
     req_level :=
       if existsb (fun word => Py.str_in word query_lower)
            ["senior"; "s" +:+ e_circ +:+ "nior"]
       then ProfessionalLevel.SENIOR
       else if existsb (fun word => Py.str_in word query_lower)
            ["junior"; "j" +:+ u_acute +:+ "nior"]
       then ProfessionalLevel.JUNIOR
       else if Py.str_in "pleno" query_lower then ProfessionalLevel.PLENO
       else ProfessionalLevel.UNKNOWN;
     req_keywords := Py.split query |}.

(** *** The four terms of [_calculate_match_score] *)

Definition skills_term (analysis : CurriculumAnalysis.t)
    (requirements : requirements) : Q :=
  if nonempty (req_skills requirements) then
    let analysis_skills := map Py.lower (CurriculumAnalysis.skills analysis) in
    let matched_skills :=
      count_if (fun skill => Py.list_in skill analysis_skills)
               (req_skills requirements) in
    let skills_score := true_div matched_skills (len (req_skills requirements)) in
    (skills_score * (4 # 10))%Q
  else 0%Q.

(** [int(re.search(r'(\d+)', s).group(1))]: without a match, [re.search]
    returns [None] and [.group] raises. *)
Definition first_int (s : string) : res Z :=
  match Re.search [Open; Plus Digit; Close] s with
  | Some group1 => Ok (Py.int group1)
  | None => Raise (AttributeError "'NoneType' object has no attribute 'group'")
  end.

Definition experience_term (analysis : CurriculumAnalysis.t)
    (requirements : requirements) : Q :=
  match CurriculumAnalysis.experience_years analysis with
  | Some s =>
      if (req_experience_years requirements >? 0) && Py.truthy s then
        try_except
          (rbind (first_int s) (fun analysis_years =>
             if analysis_years >=? req_experience_years requirements
             then Ok (3 # 10)%Q
             else
               let ratio :=
                 true_div analysis_years (req_experience_years requirements) in
               Ok (ratio * (3 # 10))%Q))
          0%Q
      else 0%Q
  | None => 0%Q
  end.

Definition level_term (analysis : CurriculumAnalysis.t)
    (requirements : requirements) : res Q :=
  match CurriculumAnalysis.position_level analysis with
  | Some s =>
      if negb (ProfessionalLevel.eqb (req_level requirements)
                 ProfessionalLevel.UNKNOWN)
         && Py.truthy s
      then
        rbind (ProfessionalLevel.of_value s) (fun l =>
          if ProfessionalLevel.eqb l (req_level requirements)
          then Ok (2 # 10)%Q
          else Ok 0%Q)
      else Ok 0%Q
  | None => Ok 0%Q
  end.

Definition keyword_term (analysis : CurriculumAnalysis.t)
    (requirements : requirements) : Q :=
  if nonempty (req_keywords requirements)
     && Py.truthy (CurriculumAnalysis.summary analysis)
  then
    let summary_lower := Py.lower (CurriculumAnalysis.summary analysis) in
    let keyword_matches :=
      count_if (fun kw => Py.str_in (Py.lower kw) summary_lower)
               (req_keywords requirements) in
    if len (req_keywords requirements) >? 0 then
      let keyword_score :=
        true_div keyword_matches (len (req_keywords requirements)) in
      (keyword_score * (1 # 10))%Q
    else 0%Q
  else 0%Q.

Definition _calculate_match_score (analysis : CurriculumAnalysis.t)
    (requirements : requirements) : res Q :=
  rbind (level_term analysis requirements) (fun level =>
    let score :=
      (0 + skills_term analysis requirements
         + experience_term analysis requirements
         + level
         + keyword_term analysis requirements)%Q in
    Ok (fmin score 1)).

Definition _generate_match_reasons (analysis : CurriculumAnalysis.t)
    (requirements : requirements) : list string :=
  (if nonempty (req_skills requirements) then
     let analysis_skills := map Py.lower (CurriculumAnalysis.skills analysis) in
     let matched_skills :=
       List.filter (fun skill => Py.list_in skill analysis_skills)
                   (req_skills requirements) in
     if nonempty matched_skills
     then ["Dom" +:+ i_acute +:+ "nio em: " +:+ Py.join ", " matched_skills]
     else []
   else [])
  ++ (match CurriculumAnalysis.experience_years analysis with
      | Some s => if Py.truthy s
                  then ["Experi" +:+ e_circ +:+ "ncia: " +:+ s] else []
      | None => []
      end)
  ++ (match CurriculumAnalysis.position_level analysis with
      | Some s => if Py.truthy s
                  then ["N" +:+ i_acute +:+ "vel: " +:+ s] else []
      | None => []
      end)
  ++ (match CurriculumAnalysis.education analysis with
      | Some s => if Py.truthy s
                  then ["Forma" +:+ c_cedil +:+ a_tilde +:+ "o: " +:+ s] else []
      | None => []
      end).

(** An entry of the [matches] list. *)
Record match_entry : Type := MatchEntry {
  m_document_id : string;
  m_score : Q;
  m_match_reasons : list string;
  m_summary : string
}.

(** The dictionary returned by [analyze_query_match]. *)
Record match_result : Type := MatchResult {
  r_query : string;
  best_matches : list match_entry;
  analysis_reasoning : string
}.

Definition no_profiles : string :=
  "Nenhum curr" +:+ i_acute +:+ "culo processado para an" +:+ a_acute
  +:+ "lise.".

Definition recomendacao : string :=
  "Recomenda" +:+ c_cedil +:+ a_tilde +:+ "o: ".

(** The loop of [analyze_query_match]. *)
Fixpoint match_loop (analyses : list CurriculumAnalysis.t)
    (query_requirements : requirements) : res (list match_entry) :=
  match analyses with
  | [] => Ok []
  | analysis :: analyses' =>
      rbind (_calculate_match_score analysis query_requirements) (fun score =>
        let reasons := _generate_match_reasons analysis query_requirements in
        rbind (match_loop analyses' query_requirements) (fun matches =>
          Ok ({| m_document_id := CurriculumAnalysis.document_id analysis;
                 m_score := score;
                 m_match_reasons := reasons;
                 m_summary := CurriculumAnalysis.summary analysis |}
              :: matches)))
  end.

Section Reasoning.

(** [f"{x:.2f}"]: the runtime's rendering of a float with two decimals. *)
Variable format_2f : Q -> string.

Definition _generate_analysis_reasoning (matches : list match_entry)
    (query : string) : string :=
  match matches with
  | [] => no_profiles
  | best_match :: others =>
      let reasoning :=
        "Baseado na an" +:+ a_acute +:+ "lise da query '" +:+ query +:+ "', " in
      let reasoning :=
        reasoning +:+ "o candidato mais adequado apresenta score de "
        +:+ format_2f (m_score best_match) +:+ " " in
      let reasoning :=
        if nonempty (m_match_reasons best_match)
        then reasoning +:+ "devido a: "
             +:+ Py.join "; " (m_match_reasons best_match) +:+ ". "
        else reasoning in
      let reasoning :=
        match others with
        | second_best :: _ =>
            reasoning +:+ "O segundo colocado tem score "
            +:+ format_2f (m_score second_best) +:+ ". "
        | [] => reasoning
        end in
      let score := m_score best_match in
      if Qle_bool (8 # 10) score then
        reasoning +:+ recomendacao +:+ "Excelente candidato para a posi"
        +:+ c_cedil +:+ a_tilde +:+ "o."
      else if Qle_bool (6 # 10) score then
        reasoning +:+ recomendacao +:+ "Bom candidato, recomendo entrevista."
      else if Qle_bool (4 # 10) score then
        reasoning +:+ recomendacao
        +:+ "Candidato adequado, avaliar outros fatores."
      else
        reasoning +:+ recomendacao
        +:+ "Match parcial, considerar requisitos alternativos."
  end.

Definition analyze_query_match (analyses : list CurriculumAnalysis.t)
    (query : string) : res match_result :=
  let query_requirements := _parse_query_requirements query in
  rbind (match_loop analyses query_requirements) (fun matches =>
    let matches := sort_reverse m_score matches in
    let reasoning := _generate_analysis_reasoning matches query in
    Ok {| r_query := query;
          best_matches := matches;
          analysis_reasoning := reasoning |}).

End Reasoning.

(** *** Building the analysis of a document *)

Definition determine_level (text : string) (skills : TechnicalSkillSet.t)
    (experience : ExperienceYears.t) : ProfessionalLevel.t :=
  let level_from_text := ProfessionalLevel.from_text text in
  if negb (ProfessionalLevel.eqb level_from_text ProfessionalLevel.UNKNOWN)
  then level_from_text
  else
    let level_from_experience :=
      ExperienceYears.get_level_suggestion experience in
    if negb (ProfessionalLevel.eqb level_from_experience
               ProfessionalLevel.UNKNOWN)
    then level_from_experience
    else
      let skill_count := TechnicalSkillSet.count skills in
      if skill_count >=? 10 then ProfessionalLevel.SENIOR
      else if skill_count >=? 5 then ProfessionalLevel.PLENO
      else if skill_count >? 0 then ProfessionalLevel.JUNIOR
      else ProfessionalLevel.UNKNOWN.

Definition education_keywords : list string :=
  [ "bacharelado"; "bacharel"; "gradua" +:+ c_cedil +:+ a_tilde +:+ "o";
    "graduado"; "mestrado"; "mestre"; "doutorado"; "doutor"; "phd";
    "t" +:+ e_acute +:+ "cnico"; "tecn" +:+ o_acute +:+ "logo"; "superior";
    "universidade"; "faculdade"; "instituto"; "engenharia";
    "ci" +:+ e_circ +:+ "ncia da computa" +:+ c_cedil +:+ a_tilde +:+ "o";
    "sistemas de informa" +:+ c_cedil +:+ a_tilde +:+ "o";
    "an" +:+ a_acute +:+ "lise de sistemas" ].

(** The loop of [_extract_education]: the title-cased keywords found. *)
Fixpoint found_education (todo : list string) (text_lower : string)
    : list string :=
  match todo with
  | [] => []
  | keyword :: todo' =>
      if Py.str_in keyword text_lower
      then Py.title keyword :: found_education todo' text_lower
      else found_education todo' text_lower
  end.

(** The test of [_extract_candidate_name] on a stripped line. *)
Definition name_like (line : string) : bool :=
  (2 <=? len (Py.split line)) && (len (Py.split line) <=? 4)
  && (Z.of_nat (String.length line) <? 50)
  && negb (Py.any_char Py.isdigit line)
  && negb (existsb (fun word => Py.str_in word (Py.lower line))
             ["cv"; "curriculum"; "resumo"; "email"; "@"]).

(** The loop of [_extract_candidate_name]. *)
Fixpoint first_name_like (lines : list string) : option string :=
  match lines with
  | [] => None
  | line :: lines' =>
      let line := Py.strip line in
      if name_like line then Some line else first_name_like lines'
  end.

Definition _extract_candidate_name (text : string) : option string :=
  first_name_like (firstn 5 (Py.split_on "010" EmptyString text)).

(** The dictionary [areas] of [_identify_work_area], in its order. *)
Definition areas : list (string * list string) :=
  [ ("Desenvolvimento de Software",
     ["desenvolvedor"; "programador"; "software"; "frontend"; "backend"]);
    ("Ci" +:+ e_circ +:+ "ncia de Dados",
     ["dados"; "data"; "analytics"; "scientist"; "analyst"]);
    ("DevOps/Infraestrutura",
     ["devops"; "infraestrutura"; "cloud"; "sysadmin"; "sre"]);
    ("Mobile", ["mobile"; "android"; "ios"; "app"; "aplicativo"]);
    ("UI/UX", ["designer"; "ui"; "ux"; "design"; "interface"]) ].

Definition _identify_work_area (text : string) : option string :=
  let text_lower := Py.lower text in
  match find (fun entry =>
                existsb (fun keyword => Py.str_in keyword text_lower)
                        (snd entry)) areas with
  | Some entry => Some (fst entry)
  | None => None
  end.

Definition no_text : string :=
  "N" +:+ a_tilde +:+ "o foi poss" +:+ i_acute
  +:+ "vel extrair texto significativo de ".

Section Analysis.

(** [list(set(l))]: the distinct elements of [l], in the order in which
    the set gives them. *)
Variable set_order : list string -> list string.

Definition _extract_education (text : string) : option string :=
  let text_lower := Py.lower text in
  let found := found_education education_keywords text_lower in
  if nonempty found
  then Some (Py.join ", " (firstn 3 (set_order found)))
  else None.

Definition generate_summary (text file_name : string) : res string :=
  if negb (Py.truthy (Py.strip text)) then Ok (no_text +:+ file_name)
  else
    rbind (extract_skills text) (fun skills =>
    rbind (extract_experience text) (fun experience =>
      let level := determine_level text skills experience in
      let education := _extract_education text in
      let summary_parts :=
        [ match _extract_candidate_name text with
          | Some candidate_name =>
              if Py.truthy candidate_name
              then "Perfil de " +:+ candidate_name +:+ ":"
              else "Perfil do candidato:"
          | None => "Perfil do candidato:"
          end ]
        ++ (if negb (ProfessionalLevel.eqb level ProfessionalLevel.UNKNOWN)
            then ["Profissional de n" +:+ i_acute +:+ "vel "
                  +:+ ProfessionalLevel.value level]
            else [])
        ++ (if TechnicalSkillSet.count skills >? 0
            then
              ["com experi" +:+ e_circ +:+ "ncia em "
               +:+ Py.join ", " (firstn 5 (TechnicalSkillSet.to_list skills))]
              ++ (if TechnicalSkillSet.count skills >? 5
                  then ["e outras "
                        +:+ Py.str_int (TechnicalSkillSet.count skills - 5)
                        +:+ " tecnologias"]
                  else [])
            else [])
        ++ (if ExperienceYears.years experience >? 0
            then ["(" +:+ ExperienceYears.str experience +:+ " de experi"
                  +:+ e_circ +:+ "ncia)"]
            else [])
        ++ (match education with
            | Some e => if Py.truthy e
                        then ["Forma" +:+ c_cedil +:+ a_tilde +:+ "o: " +:+ e]
                        else []
            | None => []
            end)
        ++ (match _identify_work_area text with
            | Some area => if Py.truthy area
                           then [A_acute +:+ "rea: " +:+ area] else []
            | None => []
            end) in
      Ok (Py.join ". " summary_parts +:+ "."))).

Definition analyze_curriculum (document : CurriculumDocument.t)
    : res CurriculumAnalysis.t :=
  let text := CurriculumDocument.extracted_text document in
  rbind (extract_skills text) (fun skills =>
  rbind (extract_experience text) (fun experience =>
    let level := determine_level text skills experience in
    rbind (generate_summary text (CurriculumDocument.file_name document))
      (fun summary =>
         let education := _extract_education text in
         Ok (analysis_record (CurriculumDocument.id document) summary skills
               experience level education)))).

End Analysis.

End TransformersIntelligenceService.

(** ** The wording of the specification

    Definitions that follow the words of the specification, to be compared
    with the code above. *)

Module Spec.

Import TransformersIntelligenceService.

(** The total order on levels: Unknown=0 < Junior=1 < Mid=2 < Senior=3
    < Specialist=4. *)
Definition rank (l : ProfessionalLevel.t) : Z :=
  match l with
  | ProfessionalLevel.UNKNOWN => 0
  | ProfessionalLevel.JUNIOR => 1
  | ProfessionalLevel.PLENO => 2
  | ProfessionalLevel.SENIOR => 3
  | ProfessionalLevel.ESPECIALISTA => 4
  end.

(** The level term as the specification words it: the full weight when the
    record's level is at least the required one, half of it at rank
    distance exactly one, nothing otherwise. *)
Definition claimed_level_term (record required : ProfessionalLevel.t) : Q :=
  if rank record >=? rank required then (2 # 10)%Q
  else if Z.abs (rank record - rank required) =? 1 then (1 # 10)%Q
  else 0%Q.

(** The level a record carries: absent stands for Unknown. *)
Definition record_level (a : CurriculumAnalysis.t) : ProfessionalLevel.t :=
  match CurriculumAnalysis.position_level a with
  | Some s =>
      match ProfessionalLevel.of_value s with
      | Ok l => l
      | Raise _ => ProfessionalLevel.UNKNOWN
      end
  | None => ProfessionalLevel.UNKNOWN
  end.

(** The years a record carries: the number of its display string; absent
    or without a number stands for zero. *)
Definition record_years (a : CurriculumAnalysis.t) : Z :=
  match CurriculumAnalysis.experience_years a with
  | Some s =>
      match first_int s with
      | Ok y => y
      | Raise _ => 0
      end
  | None => 0
  end.

(** The level string of a record is absent, empty or the value of a
    member of [ProfessionalLevel]. *)
Definition level_wellformed (a : CurriculumAnalysis.t) : bool :=
  match CurriculumAnalysis.position_level a with
  | Some s =>
      negb (Py.truthy s)
      || existsb (fun l => String.eqb (ProfessionalLevel.value l) s)
                 ProfessionalLevel.members
  | None => true
  end.

(** A required skill is matched by a record. *)
Definition matched_by (a : CurriculumAnalysis.t) (skill : string) : bool :=
  Py.list_in skill (map Py.lower (CurriculumAnalysis.skills a)).

(** Descending order of score. *)
Definition descending (l : list match_entry) : Prop :=
  StronglySorted (ge_key m_score) l.

(** The entries of a list whose score is [v], in the order of the list. *)
Definition with_score (v : Q) (l : list match_entry) : list match_entry :=
  having m_score v l.

(** An entry of the match list stands for a record: it carries the
    record's document id and summary, its score and its reasons. *)
Definition entry_of (r : requirements) (a : CurriculumAnalysis.t)
    (m : match_entry) : Prop :=
  m_document_id m = CurriculumAnalysis.document_id a
  /\ m_summary m = CurriculumAnalysis.summary a
  /\ _calculate_match_score a r = Ok (m_score m)
  /\ m_match_reasons m = _generate_match_reasons a r.

(** The level of a record can be read against the requirements: no level
    is required, or the record's level string is well formed. *)
Definition level_readable (r : requirements) (a : CurriculumAnalysis.t) : bool :=
  ProfessionalLevel.eqb (req_level r) ProfessionalLevel.UNKNOWN
  || level_wellformed a.

(** The experience display string of a record is absent or has no number. *)
Definition experience_unreadable (a : CurriculumAnalysis.t) : Prop :=
  match CurriculumAnalysis.experience_years a with
  | Some s => Re.search [Re.Open; Re.Plus Re.Digit; Re.Close] s = None
  | None => True
  end.

(** The character that follows the first [length tok] characters. *)
Fixpoint char_after (tok s : string) : option ascii :=
  match tok, s with
  | EmptyString, _ => Re.head s
  | String _ _, EmptyString => None
  | String _ t, String _ r => char_after t r
  end.

(** The token occurs as a whole word: an occurrence with no word character
    right before it and none right after it, so that it is not a part of a
    longer token. *)
Fixpoint whole_word_from (before : option ascii) (tok s : string) : bool :=
  (negb (Re.word_opt before) && Py.startswith tok s
   && negb (Re.word_opt (char_after tok s)))
  || match s with
     | EmptyString => false
     | String c r => whole_word_from (Some c) tok r
     end.

Definition whole_word (tok text : string) : bool :=
  whole_word_from None tok text.

End Spec.

(** ** Auxiliary notions of the proofs *)

Section Auxiliary.

Import TransformersIntelligenceService.

(** A string of decimal digits. *)
Fixpoint all_digits (s : string) : bool :=
  match s with
  | EmptyString => true
  | String c r => Py.isdecimal c && all_digits r
  end.

(** The string begins with a decimal digit. *)
Definition digit_head (s : string) : bool :=
  match s with
  | EmptyString => false
  | String c _ => Py.isdecimal c
  end.

(** The atom [\d]. *)
Definition digit_atom (a : Re.atom) : bool :=
  match a with
  | Re.Digit => true
  | _ => false
  end.

(** Inside the group the pattern takes nothing but digits. *)
Fixpoint captures_digits (inside : bool) (p : list Re.item) : bool :=
  match p with
  | [] => true
  | Re.One a :: p' | Re.Opt a :: p' | Re.Star a :: p' | Re.Plus a :: p' =>
      (negb inside || digit_atom a) && captures_digits inside p'
  | Re.Boundary :: p' => captures_digits inside p'
  | Re.Open :: p' => captures_digits true p'
  | Re.Close :: p' => captures_digits false p'
  end.

(** A string that does not begin with a space. *)
Definition starts_clean (s : string) : bool :=
  match s with
  | EmptyString => true
  | String c _ => negb (Py.isspace c)
  end.

(** A string that is not empty and does not end with a space. *)
Fixpoint ends_clean (s : string) : bool :=
  match s with
  | EmptyString => false
  | String c EmptyString => negb (Py.isspace c)
  | String _ r => ends_clean r
  end.

(** A search token: not empty, with no space at either end. *)
Definition token (s : string) : bool := starts_clean s && ends_clean s.

(** A string of spaces. *)
Fixpoint all_space (s : string) : bool :=
  match s with
  | EmptyString => true
  | String c r => Py.isspace c && all_space r
  end.

(** The entries that [TechnicalSkillSet.__init__] keeps. *)
Definition kept (raw : string) : bool :=
  Py.truthy raw && Py.truthy (Py.strip raw).

(** The member a kept entry becomes. *)
Definition member_of (raw : string) : TechnicalSkill.t :=
  TechnicalSkill.Make (Py.strip raw) (TechnicalSkillSet._categorize_skill raw).

(** The set of the members of the kept entries. *)
Definition members_of (raw_skills : list string) : gset TechnicalSkill.t :=
  list_to_set (map member_of (List.filter kept raw_skills)).

(** The state after the matcher has taken the characters of [tok]. *)
Fixpoint after_lit (tok : string) (st : Re.mstate) : Re.mstate :=
  match tok with
  | EmptyString => st
  | String c t =>
      match Re.rest st with
      | String d r => after_lit t (Re.eat d r st)
      | EmptyString => st
      end
  end.

(** The character before the position reached after taking [tok]. *)
Fixpoint last_char (before : option ascii) (tok : string) : option ascii :=
  match tok with
  | EmptyString => before
  | String c t => last_char (Some c) t
  end.

(** A token that begins and ends with a word character. *)
Definition wordy (tok : string) : bool :=
  Re.word_opt (Re.head tok) && Re.word_opt (last_char None tok).

(** The name under which a taxonomy token enters the skill set. *)
Definition title_name (tok : string) : string := Py.strip (Py.title tok).

(** A list of strings without repetition. *)
Fixpoint distinct (l : list string) : bool :=
  match l with
  | [] => true
  | x :: r => negb (Py.list_in x r) && distinct r
  end.

(** The five categories of [_categorize_skill]. *)
Definition linguagem : string :=
  "Linguagem de Programa" +:+ c_cedil +:+ a_tilde +:+ "o".

Definition categories : list string :=
  [linguagem; "Framework"; "Banco de Dados"; "DevOps"; "Geral"].

(** [len]gth of the skills of a list that have a category. *)
Definition in_category (category : string) (l : list TechnicalSkill.t) : Z :=
  len (List.filter
         (fun skill => String.eqb (TechnicalSkill.category skill) category) l).

(** An atom that no space matches. *)
Definition atom_solid (a : Re.atom) : bool :=
  match a with
  | Re.Chr c => negb (Py.isspace c)
  | Re.Digit => true
  | Re.Space => false
  end.

(** A pattern that has to take a character that is not a space. *)
Fixpoint solid (p : list Re.item) : bool :=
  match p with
  | [] => false
  | Re.One a :: p' => atom_solid a || solid p'
  | Re.Plus a :: p' => atom_solid a || solid p'
  | _ :: p' => solid p'
  end.

End Auxiliary.

(** ** Sample data *)

Section Samples.

Import TransformersIntelligenceService.

(** Requirements that ask for the Senior level and nothing else. *)
Definition senior_requirements : requirements :=
  {| req_skills := []; req_experience_years := 0;
     req_level := ProfessionalLevel.SENIOR; req_keywords := [] |}.

(** A record with the given level string and nothing else. *)
Definition record_of_level (level : option string) : CurriculumAnalysis.t :=
  {| CurriculumAnalysis.document_id := "doc";
     CurriculumAnalysis.summary := "";
     CurriculumAnalysis.skills := [];
     CurriculumAnalysis.experience_years := None;
     CurriculumAnalysis.position_level := level;
     CurriculumAnalysis.education := None |}.

(** Requirements that ask for two skills and three years. *)
Definition python_docker_requirements : requirements :=
  {| req_skills := ["python"; "docker"]; req_experience_years := 3;
     req_level := ProfessionalLevel.UNKNOWN; req_keywords := [] |}.

(** A record with the given skills and experience string. *)
Definition record_of_skills (skills : list string) (experience : option string)
    : CurriculumAnalysis.t :=
  {| CurriculumAnalysis.document_id := "doc";
     CurriculumAnalysis.summary := "";
     CurriculumAnalysis.skills := skills;
     CurriculumAnalysis.experience_years := experience;
     CurriculumAnalysis.position_level := None;
     CurriculumAnalysis.education := None |}.

(** The skill set of the given names. *)
Definition skill_set_of (names : list string) : TechnicalSkillSet.t :=
  TechnicalSkillSet.Make
    (list_to_set (map (fun n => TechnicalSkill.Make n "Geral") names)).

(** A rendering of floats, to run the examples with. *)
Definition render_blank (x : Q) : string := "?".

(** Four records: one with an experience string without a number and an
    empty level, one with an empty skill list. *)
Definition tied_records : list CurriculumAnalysis.t :=
  [ {| CurriculumAnalysis.document_id := "a";
       CurriculumAnalysis.summary := "";
       CurriculumAnalysis.skills := ["Java"];
       CurriculumAnalysis.experience_years := None;
       CurriculumAnalysis.position_level := None;
       CurriculumAnalysis.education := None |};
    {| CurriculumAnalysis.document_id := "b";
       CurriculumAnalysis.summary := "";
       CurriculumAnalysis.skills := ["Python"];
       CurriculumAnalysis.experience_years := Some "abc";
       CurriculumAnalysis.position_level := Some "";
       CurriculumAnalysis.education := None |};
    {| CurriculumAnalysis.document_id := "c";
       CurriculumAnalysis.summary := "";
       CurriculumAnalysis.skills := ["PYTHON"; "Docker"];
       CurriculumAnalysis.experience_years := Some "2 anos";
       CurriculumAnalysis.position_level :=
         Some (ProfessionalLevel.value ProfessionalLevel.PLENO);
       CurriculumAnalysis.education := None |};
    {| CurriculumAnalysis.document_id := "d";
       CurriculumAnalysis.summary := "";
       CurriculumAnalysis.skills := [];
       CurriculumAnalysis.experience_years := None;
       CurriculumAnalysis.position_level := None;
       CurriculumAnalysis.education := None |} ].

(** A text in which the fourth pattern matches before the first one does. *)
Definition five_years_text : string :=
  "10+ anos em TI, 5 anos de experi" +:+ e_circ +:+ "ncia em Python".

(** A processed PDF document with the given id and text. *)
Definition document_of (id text : string) : CurriculumDocument.t :=
  {| CurriculumDocument.id := id;
     CurriculumDocument.file_name := "cv.pdf";
     CurriculumDocument.file_type := FileType.PDF;
     CurriculumDocument.file_size := 1024;
     CurriculumDocument.extracted_text := text;
     CurriculumDocument.upload_timestamp := 0;
     CurriculumDocument.processed := true;
     CurriculumDocument.processing_timestamp := Some 0;
     CurriculumDocument.error_message := None |}.

End Samples.

(** * Properties *)

Import TransformersIntelligenceService.

(** ** Levels *)

Lemma level_eqb_eq (a b : ProfessionalLevel.t) :
  ProfessionalLevel.eqb a b = true <-> a = b.
Proof. destruct a, b; simpl; split; congruence. Qed.

Lemma level_eqb_neq (a b : ProfessionalLevel.t) :
  ProfessionalLevel.eqb a b = false <-> a <> b.
Proof. destruct a, b; simpl; split; congruence. Qed.

(** The enum call gives back the member whose value it is given. *)
Lemma of_value_value (l : ProfessionalLevel.t) :
  ProfessionalLevel.of_value (ProfessionalLevel.value l) = Ok l.
Proof. destruct l; vm_compute; reflexivity. Qed.

Lemma value_truthy (l : ProfessionalLevel.t) :
  Py.truthy (ProfessionalLevel.value l) = true.
Proof. destruct l; reflexivity. Qed.

(** The enum call succeeds only on the value of a member. *)
Lemma of_value_Ok (s : string) (l : ProfessionalLevel.t) :
  ProfessionalLevel.of_value s = Ok l -> s = ProfessionalLevel.value l.
Proof.
  unfold ProfessionalLevel.of_value.
  destruct (find _ _) as [l'|] eqn:Hf; [|discriminate].
  intros [= <-]. apply find_some in Hf. destruct Hf as [_ Hf].
  apply String.eqb_eq in Hf. congruence.
Qed.

(** The order of the specification is the table of [MatchScore.calculate]. *)
Lemma rank_level_scores (l : ProfessionalLevel.t) :
  Spec.rank l = MatchScore.level_scores l.
Proof. destruct l; reflexivity. Qed.

(** The scorer of [MatchScore.calculate] has the rule the specification
    words: full weight at or above the required level, half at distance
    one below, nothing otherwise. *)
Lemma general_level_term_claimed (required candidate : ProfessionalLevel.t) :
  required <> ProfessionalLevel.UNKNOWN ->
  MatchScore.level_term required candidate
  = Spec.claimed_level_term candidate required.
Proof.
  intros Hreq. destruct required, candidate; try congruence; reflexivity.
Qed.

(** C1 (as amended): in query-match scoring, for every requirements with a
    non-Unknown required level, the level term is 0 for a record without a
    level, and for a record whose level is a member [l] of
    [ProfessionalLevel] it is the full weight 0.2 when [l] is the required
    level and 0 otherwise: the levels are compared for equality, not on
    the order. *)
Theorem C1_level_term_by_equality
    (a : CurriculumAnalysis.t) (r : requirements) (l : ProfessionalLevel.t) :
  req_level r <> ProfessionalLevel.UNKNOWN ->
  (CurriculumAnalysis.position_level a = None -> level_term a r = Ok 0%Q)
  /\ (CurriculumAnalysis.position_level a = Some (ProfessionalLevel.value l) ->
      level_term a r
      = Ok (if ProfessionalLevel.eqb l (req_level r) then (2 # 10)%Q else 0%Q)).
Proof.
  intros Hreq. unfold level_term. split; intros ->; [reflexivity|].
  apply level_eqb_neq in Hreq. rewrite Hreq, value_truthy, of_value_value.
  simpl. destruct (ProfessionalLevel.eqb l (req_level r)); reflexivity.
Qed.

Lemma C1_level_term_by_equality_witness :
  level_term (record_of_level None) senior_requirements = Ok 0%Q
  /\ level_term
       (record_of_level (Some (ProfessionalLevel.value ProfessionalLevel.SENIOR)))
       senior_requirements
     = Ok (2 # 10)%Q.
Proof.
  split.
  - apply (C1_level_term_by_equality (record_of_level None) senior_requirements
             ProfessionalLevel.SENIOR); [discriminate | reflexivity].
  - apply (C1_level_term_by_equality
             (record_of_level (Some (ProfessionalLevel.value ProfessionalLevel.SENIOR)))
             senior_requirements ProfessionalLevel.SENIOR);
      [discriminate | reflexivity].
Defined.

(** C1 fails as stated: a Specialist record against a required Senior is
    above the required level, and a Mid record is at rank distance one, yet
    the level term of the query scorer is 0 for both, where the claim gives
    0.2 and 0.1. *)
Lemma C1_counterexample :
  let specialist :=
    record_of_level (Some (ProfessionalLevel.value ProfessionalLevel.ESPECIALISTA)) in
  let mid :=
    record_of_level (Some (ProfessionalLevel.value ProfessionalLevel.PLENO)) in
  req_level senior_requirements <> ProfessionalLevel.UNKNOWN
  /\ Spec.record_level specialist = ProfessionalLevel.ESPECIALISTA
  /\ level_term specialist senior_requirements = Ok 0%Q
  /\ Spec.claimed_level_term (Spec.record_level specialist)
       (req_level senior_requirements) = (2 # 10)%Q
  /\ Spec.record_level mid = ProfessionalLevel.PLENO
  /\ level_term mid senior_requirements = Ok 0%Q
  /\ Spec.claimed_level_term (Spec.record_level mid)
       (req_level senior_requirements) = (1 # 10)%Q
  /\ ~ (0 == 2 # 10)%Q /\ ~ (0 == 1 # 10)%Q.
Proof.
  cbv zeta. repeat split; try (vm_compute; reflexivity); try discriminate.
Qed.

(** ** Experience years *)

(** C7: for every non-negative integer [n], [ExperienceYears(n)] is
    constructed, and its level suggestion is Unknown for [n = 0], Junior
    for [1 <= n < 2], Mid for [2 <= n < 5] and Senior for [n >= 5]; for
    every negative integer the construction fails with a validation
    error. *)
Theorem C7_experience_years_levels (n : Z) :
  (0 <= n ->
   exists e, ExperienceYears.new n = Ok e
     /\ ExperienceYears.years e = n
     /\ (n = 0 ->
         ExperienceYears.get_level_suggestion e = ProfessionalLevel.UNKNOWN)
     /\ (1 <= n < 2 ->
         ExperienceYears.get_level_suggestion e = ProfessionalLevel.JUNIOR)
     /\ (2 <= n < 5 ->
         ExperienceYears.get_level_suggestion e = ProfessionalLevel.PLENO)
     /\ (5 <= n ->
         ExperienceYears.get_level_suggestion e = ProfessionalLevel.SENIOR))
  /\ (n < 0 -> exists msg, ExperienceYears.new n = Raise (ValueError msg)).
Proof.
  unfold ExperienceYears.new. split; intros Hn.
  - exists (ExperienceYears.Make n).
    destruct (Z.ltb_spec n 0) as [?|_]; [lia|].
    unfold ExperienceYears.get_level_suggestion. simpl.
    repeat split; intros ?;
      destruct (Z.geb_spec n 5), (Z.geb_spec n 2), (Z.gtb_spec n 0);
      try reflexivity; lia.
  - destruct (Z.ltb_spec n 0) as [_|?]; [|lia]. eexists. reflexivity.
Qed.

Lemma C7_experience_years_levels_witness :
  (exists e, ExperienceYears.new 3 = Ok e
     /\ ExperienceYears.get_level_suggestion e = ProfessionalLevel.PLENO)
  /\ (exists msg, ExperienceYears.new (-1) = Raise (ValueError msg)).
Proof.
  split.
  - destruct (proj1 (C7_experience_years_levels 3))
      as [e [He [_ [_ [_ [Hmid _]]]]]]; [lia|].
    exists e. split; [exact He|]. apply Hmid. lia.
  - apply (C7_experience_years_levels (-1)). lia.
Defined.

(** ** The empty profile list *)


(** ** What the matcher captures *)

Lemma all_digits_snoc (s : string) (c : ascii) :
  all_digits (s +:+ String c EmptyString) = all_digits s && Py.isdecimal c.
Proof.
  induction s as [|d s IH]; simpl.
  - apply andb_true_r.
  - rewrite IH. apply andb_assoc.
Qed.

Lemma eat_digits (a : Re.atom) (c : ascii) (r : string) (st : Re.mstate) :
  negb (Re.inside st) || digit_atom a = true ->
  Re.atom_ok a c = true ->
  all_digits (Re.buf st) = true ->
  all_digits (Re.buf (Re.eat c r st)) = true.
Proof.
  intros Ha Hc Hb. unfold Re.eat. simpl.
  destruct (Re.inside st); [|exact Hb].
  rewrite all_digits_snoc, Hb. destruct a; try discriminate. exact Hc.
Qed.

Lemma star_digits (a : Re.atom) (k : Re.mstate -> option string) (i : bool)
    (g : string) :
  negb i || digit_atom a = true ->
  (forall st, Re.inside st = i -> all_digits (Re.buf st) = true ->
              k st = Some g -> all_digits g = true) ->
  forall s st, Re.inside st = i -> all_digits (Re.buf st) = true ->
               Re.star a k s st = Some g -> all_digits g = true.
Proof.
  intros Ha Hk. induction s as [|c s IH]; intros st Hi Hb; simpl.
  - apply Hk; assumption.
  - destruct (Re.atom_ok a c) eqn:Hc; [|apply Hk; assumption].
    destruct (Re.star a k s (Re.eat c s st)) as [m|] eqn:Hs.
    + intros [= ->]. apply (IH (Re.eat c s st)); [exact Hi| |exact Hs].
      apply (eat_digits a); [rewrite Hi; exact Ha|exact Hc|exact Hb].
    + apply Hk; assumption.
Qed.

Lemma run_digits (p : list Re.item) :
  forall st g, captures_digits (Re.inside st) p = true ->
               all_digits (Re.buf st) = true ->
               Re.run p st = Some g -> all_digits g = true.
Proof.
  induction p as [|it p IH]; intros st g Hp Hb; simpl.
  - intros [= <-]. exact Hb.
  - destruct it; simpl in Hp; try (apply andb_prop in Hp; destruct Hp as [Ha Hp]).
    + destruct (Re.rest st) as [|c r]; [discriminate|].
      destruct (Re.atom_ok a c) eqn:Hc; [|discriminate].
      apply IH; [exact Hp|]. apply (eat_digits a); assumption.
    + destruct (Re.rest st) as [|c r]; [apply IH; assumption|].
      destruct (Re.atom_ok a c) eqn:Hc; [|apply IH; assumption].
      destruct (Re.run p (Re.eat c r st)) as [m|] eqn:Hr.
      * intros [= ->]. apply (IH (Re.eat c r st)); [exact Hp| |exact Hr].
        apply (eat_digits a); assumption.
      * apply IH; assumption.
    + apply (star_digits a (Re.run p) (Re.inside st)); try assumption; try reflexivity.
      intros st' Hi Hb'. apply IH; [rewrite Hi; exact Hp|exact Hb'].
    + destruct (Re.rest st) as [|c r]; [discriminate|].
      destruct (Re.atom_ok a c) eqn:Hc; [|discriminate].
      apply (star_digits a (Re.run p) (Re.inside st)); try assumption; try reflexivity.
      * intros st' Hi Hb'. apply IH; [rewrite Hi; exact Hp|exact Hb'].
      * apply (eat_digits a); assumption.
    + destruct (Re.at_boundary st); [|discriminate]. apply IH; assumption.
    + apply IH; [exact Hp|reflexivity].
    + apply IH; [exact Hp|exact Hb].
Qed.

Lemma search_from_digits (p : list Re.item) :
  captures_digits false p = true ->
  forall s before g, Re.search_from p before s = Some g -> all_digits g = true.
Proof.
  intros Hp. induction s as [|c s IH]; intros before g; simpl.
  - destruct (Re.run p (Re.start before EmptyString)) as [m|] eqn:Hr; [|discriminate].
    intros [= ->].
    apply (run_digits p (Re.start before EmptyString) g Hp eq_refl Hr).
  - destruct (Re.run p (Re.start before (String c s))) as [m|] eqn:Hr.
    + intros [= ->].
      apply (run_digits p (Re.start before (String c s)) g Hp eq_refl Hr).
    + apply IH.
Qed.

(** The group of a pattern that takes only digits inside it is a string
    of digits. *)
Lemma search_digits (p : list Re.item) (s g : string) :
  captures_digits false p = true ->
  Re.search p s = Some g -> all_digits g = true.
Proof. intros Hp. apply search_from_digits. exact Hp. Qed.

Lemma digit_value_range (c : ascii) :
  Py.isdecimal c = true -> 0 <= Py.digit_value c <= 9.
Proof.
  unfold Py.isdecimal, Py.in_range, Py.digit_value. intros H.
  apply andb_prop in H. destruct H as [H1 H2].
  apply N.leb_le in H1. apply N.leb_le in H2. lia.
Qed.

Lemma int_from_nonneg (s : string) :
  forall acc, 0 <= acc -> all_digits s = true -> 0 <= Py.int_from acc s.
Proof.
  induction s as [|c s IH]; intros acc Hacc Hs; simpl.
  - exact Hacc.
  - simpl in Hs. apply andb_prop in Hs. destruct Hs as [Hc Hs].
    apply IH; [|exact Hs]. pose proof (digit_value_range c Hc). lia.
Qed.

(** [int()] of a string of digits is not negative. *)
Lemma int_nonneg (s : string) : all_digits s = true -> 0 <= Py.int s.
Proof. apply int_from_nonneg. lia. Qed.

Lemma first_int_nonneg (s : string) (y : Z) : first_int s = Ok y -> 0 <= y.
Proof.
  unfold first_int.
  destruct (Re.search _ s) as [g|] eqn:Hs; [|discriminate].
  intros [= <-]. apply int_nonneg.
  apply (search_digits [Re.Open; Re.Plus Re.Digit; Re.Close] s g); [reflexivity|exact Hs].
Qed.

Lemma record_years_nonneg (a : CurriculumAnalysis.t) : 0 <= Spec.record_years a.
Proof.
  unfold Spec.record_years.
  destruct (CurriculumAnalysis.experience_years a) as [s|]; [|lia].
  destruct (first_int s) as [y|] eqn:Hy; [|lia].
  apply (first_int_nonneg s y Hy).
Qed.

(** ** Arithmetic of the score terms *)

Lemma true_div_nonneg (m n : Z) : 0 <= m -> 0 < n -> (0 <= true_div m n)%Q.
Proof.
  intros Hm Hn. unfold true_div. destruct n as [|p|p]; try lia.
  unfold Qle, Qdiv, Qmult, Qinv, inject_Z. simpl. lia.
Qed.

Lemma true_div_le_1 (m n : Z) : m <= n -> 0 < n -> (true_div m n <= 1)%Q.
Proof.
  intros Hm Hn. unfold true_div. destruct n as [|p|p]; try lia.
  unfold Qle, Qdiv, Qmult, Qinv, inject_Z. simpl. lia.
Qed.

Lemma true_div_mono (m m' n : Z) :
  m <= m' -> 0 < n -> (true_div m n <= true_div m' n)%Q.
Proof.
  intros Hm Hn. unfold true_div. destruct n as [|p|p]; try lia.
  unfold Qle, Qdiv, Qmult, Qinv, inject_Z. simpl. nia.
Qed.

Lemma true_div_zero (n : Z) : (true_div 0 n == 0)%Q.
Proof. unfold true_div, Qdiv. apply Qmult_0_l. Qed.

(** A weighted fraction lies between 0 and its weight. *)
Lemma weighted_bounds (q w : Q) :
  (0 <= q)%Q -> (q <= 1)%Q -> (0 <= w)%Q -> (0 <= q * w /\ q * w <= w)%Q.
Proof.
  intros H0 H1 Hw. split.
  - apply Qmult_le_0_compat; assumption.
  - rewrite <- (Qmult_1_l w) at 2. apply Qmult_le_compat_r; assumption.
Qed.

Lemma count_if_bounds {A : Type} (f : A -> bool) (l : list A) :
  0 <= count_if f l <= len l.
Proof.
  unfold count_if, len. pose proof (List.filter_length_le f l). lia.
Qed.

Lemma count_if_mono {A : Type} (f g : A -> bool) (l : list A) :
  (forall x, In x l -> f x = true -> g x = true) ->
  count_if f l <= count_if g l.
Proof.
  unfold count_if. intros H. apply inj_le.
  induction l as [|x l IH]; simpl; [lia|].
  assert (IH' : (length (List.filter f l) <= length (List.filter g l))%nat).
  { apply IH. intros y Hy. apply H. right. exact Hy. }
  destruct (f x) eqn:Hf.
  - rewrite (H x (or_introl eq_refl) Hf). simpl. lia.
  - destruct (g x); simpl; lia.
Qed.

Lemma len_pos {A : Type} (l : list A) : l <> [] -> 0 < len l.
Proof. destruct l; [congruence|]. unfold len. simpl. lia. Qed.

Lemma nonempty_true {A : Type} (l : list A) : l <> [] -> nonempty l = true.
Proof. destruct l; [congruence|reflexivity]. Qed.

Lemma fmin_le_r (a b : Q) : (fmin a b <= b)%Q.
Proof.
  unfold fmin. destruct (Qle_bool a b) eqn:H.
  - apply Qle_bool_iff. exact H.
  - apply Qle_refl.
Qed.

Lemma fmin_nonneg (a b : Q) : (0 <= a)%Q -> (0 <= b)%Q -> (0 <= fmin a b)%Q.
Proof. unfold fmin. destruct (Qle_bool a b); auto. Qed.

(** ** The skills term *)

(** C8: for a non-empty list of required skills, when one record matches
    every required skill that another record matches, its skills term is
    at least the other's; this holds for the query scorer and for
    [MatchScore.calculate]. *)
Theorem C8_skills_term_monotone
    (r : requirements) (a b : CurriculumAnalysis.t)
    (sa sb : TechnicalSkillSet.t) :
  req_skills r <> [] ->
  ((forall skill, In skill (req_skills r) ->
      Spec.matched_by b skill = true -> Spec.matched_by a skill = true) ->
   (skills_term b r <= skills_term a r)%Q)
  /\ ((forall skill, In skill (req_skills r) ->
         TechnicalSkillSet.has_skill sb skill = true ->
         TechnicalSkillSet.has_skill sa skill = true) ->
      (MatchScore.skills_term (req_skills r) sb
       <= MatchScore.skills_term (req_skills r) sa)%Q).
Proof.
  intros Hne. pose proof (len_pos _ Hne) as Hlen.
  split; intros Hsub.
  - unfold skills_term. rewrite (nonempty_true _ Hne).
    apply Qmult_le_compat_r; [|discriminate].
    apply true_div_mono; [|exact Hlen].
    apply count_if_mono. exact Hsub.
  - unfold MatchScore.skills_term. rewrite (nonempty_true _ Hne).
    apply Qmult_le_compat_r; [|discriminate].
    apply true_div_mono; [|exact Hlen].
    apply count_if_mono. exact Hsub.
Qed.

Lemma C8_skills_term_monotone_witness :
  (skills_term (record_of_skills ["Python"] None) python_docker_requirements
   <= skills_term (record_of_skills ["Python"; "Docker"] None)
        python_docker_requirements)%Q
  /\ (MatchScore.skills_term ["python"; "docker"] (skill_set_of ["Python"])
      <= MatchScore.skills_term ["python"; "docker"]
           (skill_set_of ["Python"; "Docker"]))%Q.
Proof.
  destruct (C8_skills_term_monotone python_docker_requirements
              (record_of_skills ["Python"; "Docker"] None)
              (record_of_skills ["Python"] None)
              (skill_set_of ["Python"; "Docker"])
              (skill_set_of ["Python"])) as [H1 H2]; [discriminate|].
  split; [apply H1 | apply H2];
    intros skill [<-|[<-|[]]]; vm_compute; congruence.
Defined.

(** ** The experience term and the total *)

Lemma level_term_wellformed (a : CurriculumAnalysis.t) (r : requirements) :
  Spec.level_wellformed a = true ->
  exists level, level_term a r = Ok level
    /\ (level = 0%Q \/ level = (2 # 10)%Q).
Proof.
  unfold Spec.level_wellformed, level_term.
  destruct (CurriculumAnalysis.position_level a) as [s|]; [|eauto].
  intros H. destruct (Py.truthy s) eqn:Ht.
  - cbn [negb orb] in H. apply existsb_exists in H. destruct H as [l [_ Hl]].
    apply String.eqb_eq in Hl. subst s.
    destruct (negb _); simpl; [|eauto].
    rewrite of_value_value. simpl.
    destruct (ProfessionalLevel.eqb l (req_level r)); eauto.
  - rewrite andb_false_r. eauto.
Qed.

Lemma level_term_bounds (a : CurriculumAnalysis.t) (r : requirements) (level : Q) :
  level_term a r = Ok level -> (0 <= level /\ level <= 2 # 10)%Q.
Proof.
  unfold level_term.
  destruct (CurriculumAnalysis.position_level a) as [s|];
    [|intros [= <-]; split; discriminate].
  destruct (_ && _); [|intros [= <-]; split; discriminate].
  destruct (ProfessionalLevel.of_value s) as [l|]; simpl; [|discriminate].
  destruct (ProfessionalLevel.eqb l (req_level r));
    intros [= <-]; split; discriminate.
Qed.

Lemma experience_term_spec (a : CurriculumAnalysis.t) (r : requirements) :
  req_experience_years r > 0 ->
  (experience_term a r ==
   if Spec.record_years a >=? req_experience_years r then 3 # 10
   else (3 # 10) * true_div (Spec.record_years a) (req_experience_years r))%Q.
Proof.
  intros Hreq. unfold experience_term, Spec.record_years.
  assert (Hz : (0 >=? req_experience_years r) = false).
  { destruct (Z.geb_spec 0 (req_experience_years r)); [lia|reflexivity]. }
  destruct (CurriculumAnalysis.experience_years a) as [s|].
  - destruct (Z.gtb_spec (req_experience_years r) 0) as [_|?]; [|lia].
    destruct (Py.truthy s) eqn:Ht; simpl.
    + destruct (first_int s) as [y|]; simpl.
      * destruct (y >=? req_experience_years r); simpl;
          [reflexivity|apply Qmult_comm].
      * rewrite Hz, true_div_zero. symmetry. apply Qmult_0_r.
    + destruct s; [|discriminate]. simpl.
      rewrite Hz, true_div_zero. symmetry. apply Qmult_0_r.
  - rewrite Hz, true_div_zero. symmetry. apply Qmult_0_r.
Qed.

Lemma experience_term_bounds (a : CurriculumAnalysis.t) (r : requirements) :
  (0 <= experience_term a r /\ experience_term a r <= 3 # 10)%Q.
Proof.
  unfold experience_term.
  destruct (CurriculumAnalysis.experience_years a) as [s|];
    [|split; discriminate].
  destruct (Z.gtb_spec (req_experience_years r) 0) as [Hreq|?];
    [|split; discriminate].
  destruct (Py.truthy s); simpl; [|split; discriminate].
  destruct (first_int s) as [y|] eqn:Hy; simpl; [|split; discriminate].
  destruct (Z.geb_spec y (req_experience_years r)) as [?|Hlt]; simpl;
    [split; discriminate|].
  apply weighted_bounds; [| |discriminate].
  - apply true_div_nonneg; [apply (first_int_nonneg s y Hy)|lia].
  - apply true_div_le_1; lia.
Qed.



(** ** Bounds of the score *)

Lemma skills_term_nonneg (a : CurriculumAnalysis.t) (r : requirements) :
  (0 <= skills_term a r)%Q.
Proof.
  unfold skills_term. destruct (req_skills r) as [|s l] eqn:Hl; simpl nonempty;
    cbv iota; [discriminate|].
  apply Qmult_le_0_compat; [|discriminate].
  apply true_div_nonneg; [apply count_if_bounds|apply len_pos; discriminate].
Qed.

Lemma keyword_term_nonneg (a : CurriculumAnalysis.t) (r : requirements) :
  (0 <= keyword_term a r)%Q.
Proof.
  unfold keyword_term. destruct (_ && _); [|discriminate].
  destruct (Z.gtb_spec (len (req_keywords r)) 0) as [Hlen|_]; [|discriminate].
  apply Qmult_le_0_compat; [|discriminate].
  apply true_div_nonneg; [apply count_if_bounds|lia].
Qed.

Lemma score_bounds (a : CurriculumAnalysis.t) (r : requirements) (score : Q) :
  _calculate_match_score a r = Ok score -> (0 <= score /\ score <= 1)%Q.
Proof.
  unfold _calculate_match_score.
  destruct (level_term a r) as [level|] eqn:Hl; simpl; [|discriminate].
  intros [= <-]. split; [|apply fmin_le_r].
  apply fmin_nonneg; [|discriminate].
  destruct (level_term_bounds a r level Hl) as [H0 _].
  pose proof (skills_term_nonneg a r). pose proof (keyword_term_nonneg a r).
  destruct (experience_term_bounds a r) as [He _].
  lra.
Qed.

Lemma level_term_unknown (a : CurriculumAnalysis.t) (r : requirements) :
  req_level r = ProfessionalLevel.UNKNOWN -> level_term a r = Ok 0%Q.
Proof.
  intros H. unfold level_term. rewrite H. simpl.
  destruct (CurriculumAnalysis.position_level a); reflexivity.
Qed.

(** ** The stable descending sort *)

Section Sorting.

Context {A : Type} (key : A -> Q).

Lemma insert_desc_perm (x : A) (l : list A) :
  Permutation (insert_desc key x l) (x :: l).
Proof.
  induction l as [|y l IH]; simpl; [reflexivity|].
  destruct (Qle_bool (key y) (key x)); [reflexivity|].
  rewrite IH. apply perm_swap.
Qed.

Lemma sort_reverse_perm (l : list A) : Permutation (sort_reverse key l) l.
Proof.
  induction l as [|x l IH]; simpl; [reflexivity|].
  rewrite insert_desc_perm, IH. reflexivity.
Qed.

Lemma insert_desc_sorted (x : A) (l : list A) :
  StronglySorted (ge_key key) l ->
  StronglySorted (ge_key key) (insert_desc key x l).
Proof.
  induction 1 as [|y l Hs IH Hy]; simpl.
  - constructor; constructor.
  - destruct (Qle_bool (key y) (key x)) eqn:Hle.
    + apply Qle_bool_iff in Hle. constructor; [constructor; assumption|].
      constructor; [exact Hle|].
      eapply List.Forall_impl; [|exact Hy]. intros z Hz. unfold ge_key in *.
      eapply Qle_trans; eassumption.
    + constructor; [exact IH|].
      apply (Permutation_Forall (Permutation_sym (insert_desc_perm x l))).
      constructor; [|exact Hy].
      unfold ge_key. apply Qlt_le_weak. apply Qnot_le_lt. intros Hc.
      apply Qle_bool_iff in Hc. congruence.
Qed.

Lemma sort_reverse_sorted (l : list A) :
  StronglySorted (ge_key key) (sort_reverse key l).
Proof.
  induction l as [|x l IH]; simpl; [constructor|].
  apply insert_desc_sorted. exact IH.
Qed.

(** Inserting keeps the order among the elements of one key. *)
Lemma insert_desc_having (v : Q) (x : A) (l : list A) :
  having key v (insert_desc key x l) = having key v (x :: l).
Proof.
  induction l as [|y l IH]; [reflexivity|].
  simpl insert_desc. destruct (Qle_bool (key y) (key x)) eqn:Hle; [reflexivity|].
  unfold having in *. simpl in *. rewrite IH.
  destruct (Qeq_bool (key x) v) eqn:Hx; [|reflexivity].
  destruct (Qeq_bool (key y) v) eqn:Hy; [|reflexivity].
  apply Qeq_bool_iff in Hx. apply Qeq_bool_iff in Hy.
  assert (Hc : Qle_bool (key y) (key x) = true).
  { apply Qle_bool_iff. rewrite Hx, Hy. apply Qle_refl. }
  congruence.
Qed.

Lemma sort_reverse_having (v : Q) (l : list A) :
  having key v (sort_reverse key l) = having key v l.
Proof.
  induction l as [|x l IH]; [reflexivity|].
  simpl sort_reverse. rewrite insert_desc_having.
  unfold having in *. simpl. rewrite IH. reflexivity.
Qed.

Lemma having_key_eq (v w : Q) (l : list A) :
  (v == w)%Q -> having key v l = having key w l.
Proof.
  intros Hvw. unfold having. apply List.filter_ext. intros m.
  destruct (Qeq_bool (key m) w) eqn:Hw.
  - apply Qeq_bool_iff. apply Qeq_bool_iff in Hw. rewrite Hw, Hvw. reflexivity.
  - destruct (Qeq_bool (key m) v) eqn:Hv; [|reflexivity].
    apply Qeq_bool_iff in Hv.
    assert (Qeq_bool (key m) w = true)
      by (apply Qeq_bool_iff; rewrite Hv; exact Hvw).
    congruence.
Qed.

Lemma having_head (x : A) (l : list A) :
  having key (key x) (x :: l) = x :: having key (key x) l.
Proof.
  unfold having. simpl.
  assert (H : Qeq_bool (key x) (key x) = true)
    by (apply Qeq_bool_iff; reflexivity).
  rewrite H. reflexivity.
Qed.

Lemma having_In (v : Q) (z : A) (l : list A) :
  In z (having key v l) -> In z l /\ (key z == v)%Q.
Proof.
  unfold having. intros H. apply List.filter_In in H. destruct H as [H1 H2].
  split; [exact H1|]. apply Qeq_bool_iff. exact H2.
Qed.

(** The first element of a descending list is above the first element of
    any descending list with the same elements of every key. *)
Lemma head_key_le (x y : A) (l1 l2 : list A) :
  StronglySorted (ge_key key) (x :: l1) ->
  (forall v, having key v (x :: l1) = having key v (y :: l2)) ->
  (key y <= key x)%Q.
Proof.
  intros Hs Hv.
  assert (Hin : In y (having key (key y) (x :: l1))).
  { rewrite Hv, having_head. left. reflexivity. }
  apply having_In in Hin. destruct Hin as [[<-|Hin] Hk].
  - apply Qle_refl.
  - apply StronglySorted_inv in Hs. destruct Hs as [_ Hall].
    rewrite List.Forall_forall in Hall. exact (Hall y Hin).
Qed.

(** A descending list is determined by its elements of every key taken in
    order: the stable descending sort of a list is unique. *)
Lemma stable_sort_unique (l1 : list A) :
  forall l2,
    StronglySorted (ge_key key) l1 -> StronglySorted (ge_key key) l2 ->
    (forall v, having key v l1 = having key v l2) -> l1 = l2.
Proof.
  induction l1 as [|x l1 IH]; intros l2 Hs1 Hs2 Hv.
  - destruct l2 as [|y l2]; [reflexivity|].
    specialize (Hv (key y)). rewrite having_head in Hv. discriminate.
  - destruct l2 as [|y l2].
    { specialize (Hv (key x)). rewrite having_head in Hv. discriminate. }
    assert (Hxy : (key x == key y)%Q).
    { apply Qle_antisym.
      - apply (head_key_le y x l2 l1 Hs2). intros v. symmetry. apply Hv.
      - apply (head_key_le x y l1 l2 Hs1). exact Hv. }
    pose proof (Hv (key x)) as Hx.
    rewrite having_head, (having_key_eq (key x) (key y) (y :: l2) Hxy),
      having_head in Hx.
    injection Hx as Hhead Htail. subst y. f_equal.
    apply StronglySorted_inv in Hs1. apply StronglySorted_inv in Hs2.
    apply IH; [tauto|tauto|]. intros v.
    destruct (Qeq_bool (key x) v) eqn:Hk.
    + apply Qeq_bool_iff in Hk.
      rewrite <- (having_key_eq (key x) v l1 Hk),
        <- (having_key_eq (key x) v l2 Hk). exact Htail.
    + specialize (Hv v). unfold having in Hv. simpl in Hv.
      rewrite Hk in Hv. exact Hv.
Qed.

End Sorting.

(** ** Ranking *)

Lemma level_term_readable (a : CurriculumAnalysis.t) (r : requirements) :
  Spec.level_readable r a = true -> exists level, level_term a r = Ok level.
Proof.
  unfold Spec.level_readable. intros H. apply orb_prop in H.
  destruct H as [H|H].
  - apply level_eqb_eq in H. rewrite (level_term_unknown a r H). eauto.
  - destruct (level_term_wellformed a r H) as [level [Hl _]]. eauto.
Qed.

Lemma score_readable (a : CurriculumAnalysis.t) (r : requirements) :
  Spec.level_readable r a = true ->
  exists score, _calculate_match_score a r = Ok score.
Proof.
  intros H. destruct (level_term_readable a r H) as [level Hl].
  unfold _calculate_match_score. rewrite Hl. simpl. eauto.
Qed.

(** The loop gives one entry per record, in the order of the records. *)
Lemma match_loop_entries (r : requirements) (analyses : list CurriculumAnalysis.t) :
  forall entries, match_loop analyses r = Ok entries ->
                  List.Forall2 (Spec.entry_of r) analyses entries.
Proof.
  induction analyses as [|a l IH]; intros entries; simpl.
  - intros [= <-]. constructor.
  - destruct (_calculate_match_score a r) as [score|] eqn:Hs; simpl;
      [|discriminate].
    destruct (match_loop l r) as [ms|]; simpl; [|discriminate].
    intros [= <-]. constructor; [|apply IH; reflexivity].
    unfold Spec.entry_of. simpl. auto.
Qed.

Lemma match_loop_total (r : requirements) (analyses : list CurriculumAnalysis.t) :
  forallb (Spec.level_readable r) analyses = true ->
  exists entries, match_loop analyses r = Ok entries.
Proof.
  induction analyses as [|a l IH]; simpl; [eauto|].
  intros H. apply andb_prop in H. destruct H as [Ha Hl].
  destruct (score_readable a r Ha) as [score ->].
  destruct (IH Hl) as [ms ->]. simpl. eauto.
Qed.

Lemma entries_score_bounds (r : requirements)
    (analyses : list CurriculumAnalysis.t) (entries : list match_entry) :
  List.Forall2 (Spec.entry_of r) analyses entries ->
  List.Forall (fun m => (0 <= m_score m /\ m_score m <= 1)%Q) entries.
Proof.
  induction 1 as [|a m l ms Hm _ IH]; constructor; [|exact IH].
  destruct Hm as [_ [_ [Hs _]]]. apply (score_bounds a r _ Hs).
Qed.

Lemma analyze_query_match_Ok (format_2f : Q -> string)
    (analyses : list CurriculumAnalysis.t) (query : string)
    (entries : list match_entry) :
  match_loop analyses (_parse_query_requirements query) = Ok entries ->
  analyze_query_match format_2f analyses query
  = Ok {| r_query := query;
          best_matches := sort_reverse m_score entries;
          analysis_reasoning :=
            _generate_analysis_reasoning format_2f
              (sort_reverse m_score entries) query |}.
Proof. intros H. unfold analyze_query_match. rewrite H. reflexivity. Qed.

Lemma analyze_query_match_inv (format_2f : Q -> string)
    (analyses : list CurriculumAnalysis.t) (query : string)
    (out : match_result) :
  analyze_query_match format_2f analyses query = Ok out ->
  exists entries,
    match_loop analyses (_parse_query_requirements query) = Ok entries
    /\ best_matches out = sort_reverse m_score entries.
Proof.
  unfold analyze_query_match.
  destruct (match_loop analyses _) as [entries|]; simpl; [|discriminate].
  intros [= <-]. exists entries. split; reflexivity.
Qed.

(** C4: the ranked list that [analyze_query_match] produces is in
    descending order of score, and the results of any one score stand in
    the order in which their records stood in the input list; this order
    is the only one with these two properties, so that two executions on
    the same input give the same order.  (The list is produced whenever the
    level of every record can be read.) *)
Theorem C4_ranking_sorted_stable (format_2f : Q -> string)
    (analyses : list CurriculumAnalysis.t) (query : string) :
  (forall out, analyze_query_match format_2f analyses query = Ok out ->
     exists entries,
       List.Forall2 (Spec.entry_of (_parse_query_requirements query))
         analyses entries
       /\ Spec.descending (best_matches out)
       /\ (forall v, Spec.with_score v (best_matches out)
                     = Spec.with_score v entries)
       /\ (forall ranked, Spec.descending ranked ->
             (forall v, Spec.with_score v ranked = Spec.with_score v entries) ->
             ranked = best_matches out))
  /\ (forallb (Spec.level_readable (_parse_query_requirements query)) analyses
      = true ->
      exists out, analyze_query_match format_2f analyses query = Ok out).
Proof.
  split.
  - intros out Hout.
    destruct (analyze_query_match_inv _ _ _ _ Hout) as [entries [Hloop ->]].
    exists entries. split; [apply match_loop_entries; exact Hloop|].
    split; [apply (sort_reverse_sorted m_score)|].
    split; [intros v; apply (sort_reverse_having m_score)|].
    intros ranked Hsorted Hsame.
    apply (stable_sort_unique m_score); [exact Hsorted| |].
    + apply (sort_reverse_sorted m_score).
    + intros v. rewrite (sort_reverse_having m_score). apply Hsame.
  - intros H. destruct (match_loop_total _ _ H) as [entries Hloop].
    rewrite (analyze_query_match_Ok format_2f _ _ _ Hloop). eauto.
Qed.

(** Records [b] and [c] tie above [a] and [d], which tie as well: each
    pair keeps its input order. *)
Example ranking_keeps_input_order_of_ties :
  match analyze_query_match render_blank tied_records "python" with
  | Ok out => map m_document_id (best_matches out) = ["b"; "c"; "a"; "d"]
  | Raise _ => False
  end.
Proof. vm_compute. reflexivity. Qed.

Lemma C4_ranking_sorted_stable_witness :
  exists out entries,
    analyze_query_match render_blank tied_records "python" = Ok out
    /\ Spec.descending (best_matches out)
    /\ (forall v, Spec.with_score v (best_matches out)
                  = Spec.with_score v entries).
Proof.
  destruct (C4_ranking_sorted_stable render_blank tied_records "python")
    as [H1 H2].
  destruct (H2 eq_refl) as [out Hout]. exists out.
  destruct (H1 out Hout) as [entries [_ [Hd [Hs _]]]]. exists entries.
  split; [exact Hout|]. split; [exact Hd|exact Hs].
Defined.

Lemma experience_unreadable_zero (a : CurriculumAnalysis.t) (r : requirements) :
  Spec.experience_unreadable a -> experience_term a r = 0%Q.
Proof.
  unfold Spec.experience_unreadable, experience_term, first_int.
  destruct (CurriculumAnalysis.experience_years a) as [s|]; [|reflexivity].
  intros ->. destruct (_ && _); reflexivity.
Qed.




(** ** Experience extraction *)

Lemma patterns_capture_digits :
  forallb (captures_digits false) ExperienceYears.patterns = true.
Proof. vm_compute. reflexivity. Qed.

Lemma new_nonneg (y : Z) :
  0 <= y -> ExperienceYears.new y = Ok (ExperienceYears.Make y).
Proof.
  intros H. unfold ExperienceYears.new.
  destruct (Z.ltb_spec y 0); [lia|reflexivity].
Qed.

(** The loop returns the number of the first pattern of its list that
    matches. *)
Lemma scan_first (text : string) (ps : list (list Re.item)) :
  forall k pattern group1,
    nth_error ps k = Some pattern ->
    Re.search pattern (Py.lower text) = Some group1 ->
    (forall j earlier, (j < k)%nat -> nth_error ps j = Some earlier ->
                       Re.search earlier (Py.lower text) = None) ->
    ExperienceYears.scan ps text = ExperienceYears.new (Py.int group1).
Proof.
  induction ps as [|p ps IH]; intros k pattern group1 Hk Hm Hbefore.
  - destruct k; discriminate.
  - destruct k as [|k]; simpl in *.
    + injection Hk as ->. rewrite Hm. reflexivity.
    + rewrite (Hbefore 0%nat p); [|lia|reflexivity].
      apply (IH k pattern group1 Hk Hm).
      intros j earlier Hj He. apply (Hbefore (S j) earlier); [lia|exact He].
Qed.

Lemma scan_none (text : string) (ps : list (list Re.item)) :
  (forall pattern, In pattern ps -> Re.search pattern (Py.lower text) = None) ->
  ExperienceYears.scan ps text = ExperienceYears.new 0.
Proof.
  induction ps as [|p ps IH]; intros H; simpl; [reflexivity|].
  rewrite (H p); [|left; reflexivity].
  apply IH. intros q Hq. apply H. right. exact Hq.
Qed.

Lemma patterns_need_text (pattern : list Re.item) :
  In pattern ExperienceYears.patterns -> Re.search pattern EmptyString = None.
Proof.
  intros [<-|[<-|[<-|[<-|[]]]]]; vm_compute; reflexivity.
Qed.

Lemma lower_empty (text : string) : Py.truthy text = false -> text = EmptyString.
Proof. destruct text; [reflexivity|discriminate]. Qed.



(** ** Stripping and searching *)

Lemma isspace_lower_char (c : ascii) :
  Py.isspace (Py.lower_char c) = Py.isspace c.
Proof. destruct c as [[] [] [] [] [] [] [] []]; reflexivity. Qed.

Lemma lower_lstrip (s : string) : Py.lower (Py.lstrip s) = Py.lstrip (Py.lower s).
Proof.
  induction s as [|c s IH]; [reflexivity|].
  simpl. rewrite isspace_lower_char.
  destruct (Py.isspace c); [exact IH|reflexivity].
Qed.

Lemma lower_rstrip (s : string) : Py.lower (Py.rstrip s) = Py.rstrip (Py.lower s).
Proof.
  induction s as [|c s IH]; [reflexivity|].
  simpl. rewrite <- IH, isspace_lower_char.
  destruct (Py.rstrip s); simpl; [destruct (Py.isspace c)|]; reflexivity.
Qed.

Lemma lower_strip (s : string) : Py.lower (Py.strip s) = Py.strip (Py.lower s).
Proof. unfold Py.strip. rewrite lower_rstrip, lower_lstrip. reflexivity. Qed.

Lemma rstrip_idem (s : string) : Py.rstrip (Py.rstrip s) = Py.rstrip s.
Proof.
  induction s as [|c s IH]; [reflexivity|].
  simpl. destruct (Py.rstrip s) as [|d t] eqn:Hr.
  - destruct (Py.isspace c) eqn:Hc; [reflexivity|]. simpl. rewrite Hc. reflexivity.
  - change (Py.rstrip (String c (String d t)))
      with (match Py.rstrip (String d t) with
            | EmptyString =>
                if Py.isspace c then EmptyString else String c EmptyString
            | String d' t' => String c (String d' t')
            end).
    rewrite IH. reflexivity.
Qed.

Lemma lstrip_clean (s : string) : starts_clean (Py.lstrip s) = true.
Proof.
  induction s as [|c s IH]; [reflexivity|].
  simpl. destruct (Py.isspace c) eqn:Hc; [exact IH|]. simpl. rewrite Hc. reflexivity.
Qed.

Lemma rstrip_clean (s : string) :
  starts_clean s = true -> starts_clean (Py.rstrip s) = true.
Proof.
  destruct s as [|c s]; [reflexivity|]. simpl. intros Hc.
  destruct (Py.rstrip s); [|exact Hc].
  destruct (Py.isspace c) eqn:E; [reflexivity|]. simpl. rewrite E. reflexivity.
Qed.

Lemma lstrip_of_clean (s : string) : starts_clean s = true -> Py.lstrip s = s.
Proof.
  destruct s as [|c s]; [reflexivity|]. simpl.
  destruct (Py.isspace c); [discriminate|reflexivity].
Qed.

Lemma strip_idem (s : string) : Py.strip (Py.strip s) = Py.strip s.
Proof.
  unfold Py.strip.
  rewrite (lstrip_of_clean (Py.rstrip (Py.lstrip s))).
  - apply rstrip_idem.
  - apply rstrip_clean. apply lstrip_clean.
Qed.

Lemma rstrip_empty (s : string) : Py.rstrip s = EmptyString -> all_space s = true.
Proof.
  induction s as [|c s IH]; [reflexivity|]. simpl.
  destruct (Py.rstrip s); [|discriminate].
  destruct (Py.isspace c); [|discriminate]. intros _. apply IH. reflexivity.
Qed.

Lemma startswith_all_space (p s : string) :
  ends_clean p = true -> all_space s = true -> Py.startswith p s = false.
Proof.
  revert s. induction p as [|a p IH]; intros s Hp Hs; [discriminate|].
  destruct s as [|b s]; [reflexivity|]. simpl in Hs.
  apply andb_prop in Hs. destruct Hs as [Hb Hs]. simpl.
  destruct (Ascii.eqb a b) eqn:Hab; [|reflexivity]. simpl.
  apply Ascii.eqb_eq in Hab. subst b.
  destruct p as [|a' p'].
  - simpl in Hp. rewrite Hb in Hp. discriminate.
  - apply IH; [exact Hp|exact Hs].
Qed.

Lemma str_in_all_space (p s : string) :
  ends_clean p = true -> all_space s = true -> Py.str_in p s = false.
Proof.
  intros Hp. induction s as [|c s IH]; intros Hs.
  - destruct p; [discriminate|reflexivity].
  - simpl Py.str_in. rewrite (startswith_all_space p _ Hp Hs).
    simpl in Hs. apply andb_prop in Hs. destruct Hs as [_ Hs].
    simpl. apply IH. exact Hs.
Qed.

Lemma startswith_rstrip (p : string) :
  forall s, ends_clean p = true ->
            Py.startswith p (Py.rstrip s) = Py.startswith p s.
Proof.
  induction p as [|a p IH]; intros s Hp; [discriminate|].
  destruct s as [|c s]; [reflexivity|].
  destruct p as [|a' p'].
  - (* a single character *)
    simpl in Hp. simpl. destruct (Py.rstrip s) as [|d t].
    + destruct (Py.isspace c) eqn:Hc; simpl.
      * destruct (Ascii.eqb a c) eqn:Hac; [|reflexivity].
        apply Ascii.eqb_eq in Hac. subst c. rewrite Hc in Hp. discriminate.
      * rewrite !andb_true_r. reflexivity.
    + simpl. rewrite !andb_true_r. reflexivity.
  - assert (Hp' : ends_clean (String a' p') = true) by exact Hp.
    specialize (IH s Hp').
    change (Py.startswith (String a (String a' p')) (String c s))
      with (Ascii.eqb a c && Py.startswith (String a' p') s).
    rewrite <- IH. simpl Py.rstrip.
    destruct (Py.rstrip s) as [|d t]; [|reflexivity].
    destruct (Py.isspace c); simpl; [rewrite andb_false_r|]; reflexivity.
Qed.

Lemma str_in_rstrip (p s : string) :
  ends_clean p = true -> Py.str_in p (Py.rstrip s) = Py.str_in p s.
Proof.
  intros Hp. induction s as [|c s IH]; [reflexivity|].
  change (Py.str_in p (String c s))
    with (Py.startswith p (String c s) || Py.str_in p s).
  rewrite <- (startswith_rstrip p (String c s) Hp), <- IH.
  simpl Py.rstrip. destruct (Py.rstrip s) as [|d t] eqn:Hr.
  - destruct (Py.isspace c); [|reflexivity].
    destruct p; [discriminate|reflexivity].
  - reflexivity.
Qed.

Lemma str_in_lstrip (p s : string) :
  token p = true -> Py.str_in p (Py.lstrip s) = Py.str_in p s.
Proof.
  intros Hp. apply andb_prop in Hp. destruct Hp as [Hs He].
  induction s as [|c s IH]; [reflexivity|].
  simpl Py.lstrip. destruct (Py.isspace c) eqn:Hc; [|reflexivity].
  rewrite IH. simpl Py.str_in.
  destruct p as [|a p]; [discriminate|]. simpl.
  destruct (Ascii.eqb a c) eqn:Hac; [|reflexivity].
  apply Ascii.eqb_eq in Hac. subst c. simpl in Hs. rewrite Hc in Hs. discriminate.
Qed.

(** A token occurs in a string exactly when it occurs in the stripped
    string. *)
Lemma str_in_strip (p s : string) :
  token p = true -> Py.str_in p (Py.strip s) = Py.str_in p s.
Proof.
  intros Hp. unfold Py.strip. rewrite str_in_rstrip.
  - apply str_in_lstrip. exact Hp.
  - apply andb_prop in Hp. tauto.
Qed.

(** ** The skill set *)

Lemma existsb_str_in_strip (tokens : list string) (s : string) :
  forallb token tokens = true ->
  existsb (fun t => Py.str_in t (Py.strip s)) tokens
  = existsb (fun t => Py.str_in t s) tokens.
Proof.
  induction tokens as [|t l IH]; [reflexivity|]. simpl. intros H.
  apply andb_prop in H. destruct H as [Ht Hl].
  rewrite (str_in_strip t s Ht), (IH Hl). reflexivity.
Qed.

(** The category of a skill is that of its stripped name. *)
Lemma categorize_strip (s : string) :
  TechnicalSkillSet._categorize_skill (Py.strip s)
  = TechnicalSkillSet._categorize_skill s.
Proof.
  unfold TechnicalSkillSet._categorize_skill. cbv zeta.
  rewrite lower_strip.
  rewrite !existsb_str_in_strip by reflexivity. reflexivity.
Qed.

Lemma kept_strip (raw : string) : kept raw = Py.truthy (Py.strip raw).
Proof.
  unfold kept. destruct raw as [|c r]; [reflexivity|reflexivity].
Qed.

Lemma init_loop_members (raw_skills : list string) :
  forall skill_objects,
    TechnicalSkillSet.init_loop raw_skills skill_objects
    = Ok (members_of raw_skills ∪ skill_objects).
Proof.
  induction raw_skills as [|raw l IH]; intros acc.
  - simpl. f_equal. unfold members_of. simpl. symmetry. apply union_empty_l_L.
  - unfold members_of. simpl TechnicalSkillSet.init_loop. simpl List.filter.
    fold (kept raw). destruct (kept raw) eqn:Hk.
    + rewrite kept_strip in Hk. unfold TechnicalSkill.new.
      rewrite strip_idem, Hk. simpl rbind. rewrite IH. f_equal.
      unfold members_of. simpl. fold (member_of raw).
      apply set_eq. intros x. rewrite !elem_of_union. tauto.
    + rewrite IH. reflexivity.
Qed.

Lemma init_members (raw_skills : list string) :
  TechnicalSkillSet.init raw_skills
  = Ok (TechnicalSkillSet.Make (members_of raw_skills)).
Proof.
  unfold TechnicalSkillSet.init. rewrite init_loop_members. simpl.
  do 2 f_equal. apply union_empty_r_L.
Qed.

Lemma elem_of_members_of (raw_skills : list string) (sk : TechnicalSkill.t) :
  sk ∈ members_of raw_skills
  <-> exists raw, In raw raw_skills /\ Py.truthy (Py.strip raw) = true
                  /\ sk = member_of raw.
Proof.
  unfold members_of. rewrite elem_of_list_to_set, list_elem_of_In, in_map_iff.
  split.
  - intros [raw [<- Hin]]. apply List.filter_In in Hin. destruct Hin as [Hin Hk].
    rewrite kept_strip in Hk. eauto.
  - intros [raw [Hin [Hk ->]]]. exists raw. split; [reflexivity|].
    apply List.filter_In. rewrite kept_strip. auto.
Qed.

Lemma members_of_perm (l l' : list string) :
  Permutation l l' -> members_of l = members_of l'.
Proof.
  intros Hp. apply set_eq. intros sk. rewrite !elem_of_members_of.
  split; intros [raw [Hin H]]; exists raw; split; try exact H.
  - apply (Permutation_in raw Hp Hin).
  - apply (Permutation_in raw (Permutation_sym Hp) Hin).
Qed.

(** C2 (as amended): for every list of raw skill strings, constructing a
    [TechnicalSkillSet] succeeds; its members are the kept entries,
    stripped, each with its category; empty and blank entries are dropped,
    so no member has a blank name; no two members have the same name
    (compared exactly, case included); and constructing it again from any
    reordering of the list gives the same set. *)
Theorem C2_skill_set_distinct_names (raw_skills : list string) :
  exists set,
    TechnicalSkillSet.init raw_skills = Ok set
    /\ (forall sk, sk ∈ TechnicalSkillSet.skills set
          <-> exists raw, In raw raw_skills
                /\ Py.truthy (Py.strip raw) = true
                /\ sk = TechnicalSkill.Make (Py.strip raw)
                          (TechnicalSkillSet._categorize_skill raw))
    /\ (forall sk, sk ∈ TechnicalSkillSet.skills set ->
          Py.truthy (Py.strip (TechnicalSkill.name sk)) = true)
    /\ (forall a b, a ∈ TechnicalSkillSet.skills set ->
          b ∈ TechnicalSkillSet.skills set ->
          TechnicalSkill.name a = TechnicalSkill.name b -> a = b)
    /\ (forall again, Permutation raw_skills again ->
          TechnicalSkillSet.init again = Ok set).
Proof.
  exists (TechnicalSkillSet.Make (members_of raw_skills)).
  split; [apply init_members|]. simpl.
  split; [apply elem_of_members_of|]. split; [|split].
  - intros sk Hsk. apply elem_of_members_of in Hsk.
    destruct Hsk as [raw [_ [Hk ->]]]. simpl. rewrite strip_idem. exact Hk.
  - intros a b Ha Hb Hname.
    apply elem_of_members_of in Ha. destruct Ha as [ra [_ [_ ->]]].
    apply elem_of_members_of in Hb. destruct Hb as [rb [_ [_ ->]]].
    unfold member_of in *. simpl in Hname. f_equal; [exact Hname|].
    rewrite <- (categorize_strip ra), <- (categorize_strip rb), Hname.
    reflexivity.
  - intros again Hp. rewrite init_members, (members_of_perm _ _ Hp).
    reflexivity.
Qed.

(** C2 fails as stated: "Python" and "python" both become members, two
    members with the same case-insensitive name. *)
Lemma C2_counterexample :
  exists set a b,
    TechnicalSkillSet.init ["Python"; "python"] = Ok set
    /\ a ∈ TechnicalSkillSet.skills set
    /\ b ∈ TechnicalSkillSet.skills set
    /\ Py.lower (TechnicalSkill.name a) = Py.lower (TechnicalSkill.name b)
    /\ a <> b.
Proof.
  exists (TechnicalSkillSet.Make (members_of ["Python"; "python"])),
    (member_of "Python"), (member_of "python").
  split; [apply init_members|]. simpl.
  split; [apply elem_of_members_of; exists "Python"; simpl; auto|].
  split; [apply elem_of_members_of; exists "python"; simpl; auto|].
  split; [vm_compute; reflexivity|]. vm_compute. discriminate.
Qed.

Lemma C2_skill_set_distinct_names_witness :
  exists set,
    TechnicalSkillSet.init [" Python "; ""; "  "; "python"; "Python"] = Ok set
    /\ (forall a b, a ∈ TechnicalSkillSet.skills set ->
          b ∈ TechnicalSkillSet.skills set ->
          TechnicalSkill.name a = TechnicalSkill.name b -> a = b).
Proof.
  destruct (C2_skill_set_distinct_names
              [" Python "; ""; "  "; "python"; "Python"])
    as [set [Hinit [_ [_ [Hnames _]]]]].
  exists set. split; [exact Hinit|exact Hnames].
Defined.

(** ** Skill extraction *)

Lemma run_lit (tok : string) (q : list Re.item) :
  forall st,
    Re.run (Re.lit tok ++ q) st
    = if Py.startswith tok (Re.rest st) then Re.run q (after_lit tok st)
      else None.
Proof.
  induction tok as [|c t IH]; intros st; [reflexivity|].
  simpl. destruct (Re.rest st) as [|d r]; [reflexivity|].
  destruct (Ascii.eqb c d) eqn:Hcd; [|reflexivity].
  simpl. rewrite IH. reflexivity.
Qed.

Lemma after_lit_prev (tok : string) :
  forall st, Py.startswith tok (Re.rest st) = true ->
             Re.prev (after_lit tok st) = last_char (Re.prev st) tok
             /\ Re.head (Re.rest (after_lit tok st))
                = Spec.char_after tok (Re.rest st).
Proof.
  induction tok as [|c t IH]; intros st Hs; [split; reflexivity|].
  simpl in *. destruct (Re.rest st) as [|d r] eqn:Hr; [discriminate|].
  apply andb_prop in Hs. destruct Hs as [Hcd Hs].
  apply Ascii.eqb_eq in Hcd. subst d.
  destruct (IH (Re.eat c r st) Hs) as [H1 H2]. split; assumption.
Qed.

(** The pattern of a skill matches at a position when the token is there
    with a word boundary on either side. *)
Lemma run_word_pattern (tok : string) (before : option ascii) (s : string) :
  Re.found (Re.run (word_pattern tok) (Re.start before s))
  = xorb (Re.word_opt before) (Re.word_opt (Re.head s))
    && Py.startswith tok s
    && xorb (Re.word_opt (last_char before tok))
            (Re.word_opt (Spec.char_after tok s)).
Proof.
  unfold word_pattern. simpl Re.run. unfold Re.at_boundary at 1. simpl.
  destruct (xorb _ _); [|reflexivity]. simpl.
  rewrite run_lit. simpl Re.rest.
  destruct (Py.startswith tok s) eqn:Hs; [|reflexivity].
  simpl Re.run. unfold Re.at_boundary.
  destruct (after_lit_prev tok (Re.start before s) Hs) as [-> ->]. simpl.
  destruct (xorb _ _); reflexivity.
Qed.

Lemma found_search_from (p : list Re.item) (before : option ascii) (s : string) :
  Re.found (Re.search_from p before s)
  = Re.found (Re.run p (Re.start before s))
    || match s with
       | EmptyString => false
       | String c r => Re.found (Re.search_from p (Some c) r)
       end.
Proof.
  destruct s as [|c r]; simpl;
    destruct (Re.run p (Re.start before _)); simpl;
    rewrite ?orb_false_r; reflexivity.
Qed.

Lemma last_char_nonempty (tok : string) (b b' : option ascii) :
  Py.truthy tok = true -> last_char b tok = last_char b' tok.
Proof. destruct tok; [discriminate|reflexivity]. Qed.

Lemma startswith_head (tok s : string) :
  Py.truthy tok = true -> Py.startswith tok s = true ->
  Re.head s = Re.head tok.
Proof.
  destruct tok as [|c t]; [discriminate|]. intros _.
  destruct s as [|d r]; [discriminate|]. simpl. intros H.
  apply andb_prop in H. destruct H as [H _]. apply Ascii.eqb_eq in H.
  congruence.
Qed.

(** For a token that begins and ends with a word character, the search
    of its pattern finds exactly the whole-word occurrences. *)
Lemma search_wordy (tok : string) :
  wordy tok = true ->
  forall s before,
    Re.found (Re.search_from (word_pattern tok) before s)
    = Spec.whole_word_from before tok s.
Proof.
  intros Hw. unfold wordy in Hw. apply andb_prop in Hw. destruct Hw as [Hh Hl].
  assert (Ht : Py.truthy tok = true) by (destruct tok; [discriminate|reflexivity]).
  induction s as [|c r IH]; intros before.
  - rewrite found_search_from, run_word_pattern. simpl Spec.whole_word_from.
    destruct tok; [discriminate|]. simpl. rewrite !andb_false_r. reflexivity.
  - rewrite found_search_from, run_word_pattern, IH.
    simpl Spec.whole_word_from. f_equal.
    destruct (Py.startswith tok (String c r)) eqn:Hs;
      [|rewrite !andb_false_r; reflexivity].
    rewrite (startswith_head tok _ Ht Hs), Hh.
    rewrite (last_char_nonempty tok before None Ht), Hl.
    rewrite !xorb_true_r. simpl. rewrite !andb_true_r. reflexivity.
Qed.

Lemma whole_word_str_in (tok : string) :
  forall s before, Spec.whole_word_from before tok s = true ->
                   Py.str_in tok s = true.
Proof.
  induction s as [|c r IH]; intros before; simpl.
  - rewrite orb_false_r. intros H. rewrite orb_false_r.
    apply andb_prop in H. destruct H as [H _].
    apply andb_prop in H. tauto.
  - intros H. apply orb_prop in H. destruct H as [H|H].
    + apply andb_prop in H. destruct H as [H _].
      apply andb_prop in H. destruct H as [_ H].
      simpl in H. rewrite H. reflexivity.
    + rewrite (IH _ H). apply orb_true_r.
Qed.

(** For a token that begins and ends with a word character, the two tests
    of the extraction loop say that the token is a whole word of the
    text. *)
Lemma skill_hit_wordy (tok text_lower : string) :
  wordy tok = true ->
  skill_hit tok text_lower = Spec.whole_word tok text_lower.
Proof.
  intros Hw. unfold skill_hit, Re.search, Spec.whole_word.
  rewrite (search_wordy tok Hw).
  destruct (Spec.whole_word_from None tok text_lower) eqn:H.
  - rewrite (whole_word_str_in tok _ _ H). reflexivity.
  - apply andb_false_r.
Qed.

Lemma found_skills_In (todo : list string) (text_lower x : string) :
  In x (found_skills todo text_lower)
  <-> exists tok, In tok todo /\ skill_hit tok text_lower = true
                  /\ x = Py.title tok.
Proof.
  induction todo as [|t l IH]; simpl.
  - split; [tauto|]. intros [tok [[] _]].
  - destruct (skill_hit t text_lower) eqn:Ht; simpl; rewrite IH; split.
    + intros [<-|[tok [Hin H]]]; [exists t; auto|exists tok; tauto].
    + intros [tok [[<-|Hin] [Hh ->]]]; [left; reflexivity|right; eauto].
    + intros [tok [Hin H]]. exists tok. tauto.
    + intros [tok [[<-|Hin] [Hh ->]]]; [congruence|eauto].
Qed.

(** The skill set of a text: the members of the title-cased hits. *)
Lemma extract_skills_members (text : string) :
  extract_skills text
  = Ok (TechnicalSkillSet.Make
          (members_of (found_skills technical_skills_patterns (Py.lower text)))).
Proof.
  unfold extract_skills. destruct text as [|c r]; simpl negb; cbv iota.
  - rewrite init_members. reflexivity.
  - apply init_members.
Qed.

Lemma distinct_inj (f : string -> string) (l : list string) :
  distinct (map f l) = true ->
  forall a b, In a l -> In b l -> f a = f b -> a = b.
Proof.
  induction l as [|x l IH]; simpl; [tauto|]. intros H.
  apply andb_prop in H. destruct H as [Hx Hl].
  assert (Hnot : forall y, In y l -> f x <> f y).
  { intros y Hy Heq. apply negb_true_iff in Hx.
    assert (Py.list_in (f x) (map f l) = true).
    { apply existsb_exists. exists (f y). split; [apply in_map; exact Hy|].
      apply String.eqb_eq. exact Heq. }
    congruence. }
  intros a b [<-|Ha] [<-|Hb] Hab; auto.
  - exfalso. exact (Hnot b Hb Hab).
  - exfalso. exact (Hnot a Ha (eq_sym Hab)).
Qed.

(** Facts of the taxonomy, by evaluation. *)
Lemma taxonomy_titles_distinct :
  distinct (map title_name technical_skills_patterns) = true.
Proof. vm_compute. reflexivity. Qed.

Lemma taxonomy_titles_clean :
  forallb (fun tok => String.eqb (title_name tok) (Py.title tok)
                      && Py.truthy (title_name tok))
          technical_skills_patterns = true.
Proof. vm_compute. reflexivity. Qed.

Lemma taxonomy_wordy :
  List.filter (fun tok => negb (wordy tok)) technical_skills_patterns
  = ["c++"; "c#"].
Proof. vm_compute. reflexivity. Qed.

(** A taxonomy token has its title-cased member in the skill set of a
    text exactly when the two tests of the loop hold for it; every member
    of the set comes from such a token, and from one only. *)
Lemma extract_skills_hit (text tok : string) :
  In tok technical_skills_patterns ->
  exists set,
    extract_skills text = Ok set
    /\ (TechnicalSkill.Make (Py.title tok)
          (TechnicalSkillSet._categorize_skill (Py.title tok))
        ∈ TechnicalSkillSet.skills set
        <-> skill_hit tok (Py.lower text) = true)
    /\ (forall sk, sk ∈ TechnicalSkillSet.skills set ->
          exists tok', In tok' technical_skills_patterns
            /\ skill_hit tok' (Py.lower text) = true
            /\ TechnicalSkill.name sk = Py.title tok'
            /\ forall tok'', In tok'' technical_skills_patterns ->
                 TechnicalSkill.name sk = Py.title tok'' -> tok'' = tok').
Proof.
  intros Hin. eexists. split; [apply extract_skills_members|].
  cbn [TechnicalSkillSet.skills].
  pose proof taxonomy_titles_clean as Hclean.
  rewrite forallb_forall in Hclean.
  assert (Hc : forall t, In t technical_skills_patterns ->
                 title_name t = Py.title t /\ Py.truthy (title_name t) = true).
  { intros t Ht. specialize (Hclean t Ht). apply andb_prop in Hclean.
    destruct Hclean as [H1 H2]. apply String.eqb_eq in H1. auto. }
  pose proof (distinct_inj title_name _ taxonomy_titles_distinct) as Hinj.
  split; [split|].
  - intros Hm. apply elem_of_members_of in Hm.
    destruct Hm as [raw [Hraw [_ Heq]]].
    apply found_skills_In in Hraw. destruct Hraw as [tok' [Hin' [Hhit ->]]].
    unfold member_of in Heq. injection Heq as Hname _.
    fold (title_name tok') in Hname.
    destruct (Hc tok Hin) as [Ht _]. rewrite <- Ht in Hname.
    rewrite (Hinj tok tok' Hin Hin' Hname). exact Hhit.
  - intros Hhit. apply elem_of_members_of. exists (Py.title tok).
    destruct (Hc tok Hin) as [Ht Htr]. unfold title_name in *.
    split; [apply found_skills_In; eauto|]. split; [exact Htr|].
    unfold member_of. rewrite Ht. reflexivity.
  - intros sk Hm. apply elem_of_members_of in Hm.
    destruct Hm as [raw [Hraw [_ ->]]].
    apply found_skills_In in Hraw. destruct Hraw as [tok' [Hin' [Hhit ->]]].
    exists tok'. destruct (Hc tok' Hin') as [Ht _].
    split; [exact Hin'|]. split; [exact Hhit|].
    unfold member_of. cbn [TechnicalSkill.name].
    fold (title_name tok'). split; [exact Ht|].
    intros tok'' Hin'' Hname. apply (Hinj tok'' tok' Hin'' Hin').
    destruct (Hc tok'' Hin'') as [Ht'' _]. congruence.
Qed.

(** For every taxonomy token that begins and ends with a word character
    (every token but "c++" and "c#"), the title-cased token is in the
    skill set of a text exactly when the token is a whole word of the
    lower-cased text. *)
Lemma extract_skills_whole_word (text tok : string) :
  In tok technical_skills_patterns ->
  wordy tok = true ->
  exists set,
    extract_skills text = Ok set
    /\ (TechnicalSkill.Make (Py.title tok)
          (TechnicalSkillSet._categorize_skill (Py.title tok))
        ∈ TechnicalSkillSet.skills set
        <-> Spec.whole_word tok (Py.lower text) = true).
Proof.
  intros Hin Hw. destruct (extract_skills_hit text tok Hin) as [set [Hs [Hm _]]].
  exists set. split; [exact Hs|].
  rewrite <- (skill_hit_wordy tok (Py.lower text) Hw). exact Hm.
Qed.

Lemma members_of_single (raw : string) (sk : TechnicalSkill.t) :
  kept raw = true -> member_of raw = sk -> members_of [raw] = {[ sk ]}.
Proof.
  intros Hk <-. unfold members_of. cbn [List.filter]. rewrite Hk.
  cbn [map list_to_set]. apply union_empty_r_L.
Qed.

(** C3, at an input where the code departs from it: "c++" and "c#" are
    tokens of the taxonomy and whole words of the lower-cased text
    "python, c++, c#", yet the extracted set holds Python alone; and in
    "c++11", where "c++" is only a part of a longer token, it is
    extracted.  The word boundary asked after the last character of the
    token needs a word character on one side, which "+" and "#" are not. *)
Theorem C3_cpp_and_csharp_missed :
  In "c++" technical_skills_patterns
  /\ In "c#" technical_skills_patterns
  /\ Spec.whole_word "c++" (Py.lower "Python, C++, C#") = true
  /\ Spec.whole_word "c#" (Py.lower "Python, C++, C#") = true
  /\ extract_skills "Python, C++, C#"
     = Ok (TechnicalSkillSet.Make
             {[ TechnicalSkill.Make "Python"
                  ("Linguagem de Programa" +:+ c_cedil +:+ a_tilde +:+ "o") ]})
  /\ Spec.whole_word "c++" (Py.lower "C++11") = false
  /\ extract_skills "C++11"
     = Ok (TechnicalSkillSet.Make
             {[ TechnicalSkill.Make "C++"
                  ("Linguagem de Programa" +:+ c_cedil +:+ a_tilde +:+ "o") ]}).
Proof.
  split; [vm_compute; tauto|]. split; [vm_compute; tauto|].
  split; [vm_compute; reflexivity|]. split; [vm_compute; reflexivity|].
  split; [|split; [vm_compute; reflexivity|]].
  - assert (H : found_skills technical_skills_patterns
                  (Py.lower "Python, C++, C#") = ["Python"])
      by (vm_compute; reflexivity).
    rewrite extract_skills_members, H.
    rewrite (members_of_single "Python"
               (TechnicalSkill.Make "Python"
                  ("Linguagem de Programa" +:+ c_cedil +:+ a_tilde +:+ "o")));
      [reflexivity | vm_compute; reflexivity | vm_compute; reflexivity].
  - assert (H : found_skills technical_skills_patterns (Py.lower "C++11")
                = ["C++"])
      by (vm_compute; reflexivity).
    rewrite extract_skills_members, H.
    rewrite (members_of_single "C++"
               (TechnicalSkill.Make "C++"
                  ("Linguagem de Programa" +:+ c_cedil +:+ a_tilde +:+ "o")));
      [reflexivity | vm_compute; reflexivity | vm_compute; reflexivity].
Qed.

(** ** The records of [analyze_curriculum]

    The hypotheses made on records above hold of every record that
    [analyze_curriculum] builds: its level string is well formed and reads
    back as the level, and its experience string reads back as the
    years. *)

Lemma digit_char_spec (d : Z) :
  0 <= d <= 9 ->
  Py.isdecimal (Py.digit_char d) = true /\ Py.digit_value (Py.digit_char d) = d.
Proof.
  intros H.
  assert (Hd : d = 0 \/ d = 1 \/ d = 2 \/ d = 3 \/ d = 4 \/ d = 5 \/ d = 6
               \/ d = 7 \/ d = 8 \/ d = 9) by lia.
  repeat (destruct Hd as [->|Hd]; [split; reflexivity|]).
  subst d. split; reflexivity.
Qed.

Lemma append_snoc (s t : string) (c : ascii) :
  (s +:+ String c EmptyString) +:+ t = s +:+ String c t.
Proof.
  induction s as [|d s IH]; [reflexivity|].
  change (String d ((s +:+ String c EmptyString) +:+ t)
          = String d (s +:+ String c t)).
  f_equal. exact IH.
Qed.

Lemma append_empty (s : string) : s +:+ EmptyString = s.
Proof.
  induction s as [|d s IH]; [reflexivity|].
  change (String d (s +:+ EmptyString) = String d s). f_equal. exact IH.
Qed.

Lemma int_from_snoc (s : string) (c : ascii) :
  forall acc, Py.int_from acc (s +:+ String c EmptyString)
              = Py.int_from acc s * 10 + Py.digit_value c.
Proof. induction s as [|d s IH]; intros acc; simpl; [reflexivity|apply IH]. Qed.

Lemma length_snoc (s : string) (c : ascii) :
  String.length (s +:+ String c EmptyString) = S (String.length s).
Proof.
  induction s as [|d s IH]; [reflexivity|].
  change (S (String.length (s +:+ String c EmptyString))
          = S (S (String.length s))).
  f_equal. exact IH.
Qed.

(** With enough fuel, the digits written before [acc] are decimal digits,
    at least one, and read back as the number. *)
Lemma digits_of_spec (fuel : nat) :
  forall n acc,
    0 <= n < 10 ^ Z.of_nat (S fuel) ->
    exists digits,
      Py.digits_of (S fuel) n acc = digits +:+ acc
      /\ all_digits digits = true
      /\ Py.truthy digits = true
      /\ forall a, Py.int_from a digits
                   = a * 10 ^ Z.of_nat (String.length digits) + n.
Proof.
  induction fuel as [|fuel IH]; intros n acc Hn.
  - assert (H10 : n < 10) by (change (10 ^ Z.of_nat 1) with 10 in Hn; lia).
    assert (Hmod : n mod 10 = n) by (apply Z.mod_small; lia).
    destruct (digit_char_spec n) as [Hd Hv]; [lia|].
    exists (String (Py.digit_char n) EmptyString).
    simpl Py.digits_of. rewrite Hmod.
    destruct (Z.ltb_spec n 10); [|lia].
    repeat split; [simpl; rewrite Hd; reflexivity|].
    intros a. simpl. rewrite Hv. lia.
  - assert (Hm : 0 <= n mod 10 <= 9) by (pose proof (Z.mod_pos_bound n 10); lia).
    destruct (digit_char_spec (n mod 10) Hm) as [Hd Hv].
    change (Py.digits_of (S (S fuel)) n acc)
      with (if n <? 10 then String (Py.digit_char (n mod 10)) acc
            else Py.digits_of (S fuel) (n / 10)
                   (String (Py.digit_char (n mod 10)) acc)).
    destruct (Z.ltb_spec n 10) as [H10|H10].
    + assert (Hmod : n mod 10 = n) by (apply Z.mod_small; lia).
      rewrite Hmod in *.
      exists (String (Py.digit_char n) EmptyString).
      repeat split; [simpl; rewrite Hd; reflexivity|].
      intros a. simpl. rewrite Hv. lia.
    + assert (Hq : 0 <= n / 10 < 10 ^ Z.of_nat (S fuel)).
      { split; [apply Z.div_pos; lia|].
        apply Z.div_lt_upper_bound; [lia|].
        rewrite <- Z.pow_succ_r by lia. rewrite <- Nat2Z.inj_succ. lia. }
      destruct (IH (n / 10) (String (Py.digit_char (n mod 10)) acc) Hq)
        as [digits [Heq [Hall [Htr Hval]]]].
      exists (digits +:+ String (Py.digit_char (n mod 10)) EmptyString).
      split; [rewrite Heq, append_snoc; reflexivity|].
      split; [rewrite all_digits_snoc, Hall, Hd; reflexivity|].
      split; [destruct digits; [discriminate|reflexivity]|].
      intros a. rewrite int_from_snoc, Hval, Hv, length_snoc, Nat2Z.inj_succ.
      rewrite Z.pow_succ_r by lia. pose proof (Z.div_mod n 10). lia.
Qed.

Lemma digits_fuel_enough (n : Z) :
  0 <= n -> n < 10 ^ Z.of_nat (Py.digits_fuel n).
Proof.
  intros Hn. unfold Py.digits_fuel.
  rewrite Nat2Z.inj_succ, Z2Nat.id by apply Z.log2_nonneg.
  destruct (Z.eq_dec n 0) as [->|Hz]; [reflexivity|].
  assert (H2 : n < 2 ^ Z.succ (Z.log2 n)) by (apply Z.log2_spec; lia).
  assert (H10 : 2 ^ Z.succ (Z.log2 n) <= 10 ^ Z.succ (Z.log2 n)).
  { apply Z.pow_le_mono_l. lia. }
  lia.
Qed.

(** [int(str(n))] is [n], for a non-negative [n]. *)
Lemma str_int_spec (n : Z) :
  0 <= n ->
  all_digits (Py.str_int n) = true
  /\ Py.truthy (Py.str_int n) = true
  /\ Py.int (Py.str_int n) = n.
Proof.
  intros Hn. unfold Py.str_int. destruct (Z.ltb_spec n 0); [lia|].
  destruct (digits_of_spec (Z.to_nat (Z.log2 n)) n EmptyString)
    as [digits [Heq [Hall [Htr Hval]]]].
  { split; [exact Hn|]. apply (digits_fuel_enough n Hn). }
  unfold Py.digits_fuel. rewrite Heq, append_empty.
  repeat split; [exact Hall|exact Htr|].
  unfold Py.int. rewrite Hval. lia.
Qed.

Lemma star_step (a : Re.atom) (k : Re.mstate -> option string) (c : ascii)
    (r : string) (st : Re.mstate) :
  Re.star a k (String c r) st
  = if Re.atom_ok a c then
      match Re.star a k r (Re.eat c r st) with
      | Some m => Some m
      | None => k st
      end
    else k st.
Proof. reflexivity. Qed.

Lemma search_from_step (p : list Re.item) (before : option ascii) (s : string) :
  Re.search_from p before s
  = match Re.run p (Re.start before s) with
    | Some m => Some m
    | None =>
        match s with
        | String c r => Re.search_from p (Some c) r
        | EmptyString => None
        end
    end.
Proof. destruct s; reflexivity. Qed.

Lemma star_takes_digits (after : string) :
  digit_head after = false ->
  forall digits st,
    all_digits digits = true ->
    Re.inside st = true ->
    Re.star Re.Digit (Re.run [Re.Close]) (digits +:+ after) st
    = Some (Re.buf st +:+ digits).
Proof.
  intros Hafter. induction digits as [|c digits IH]; intros st Hall Hin.
  - change (EmptyString +:+ after) with after. rewrite append_empty.
    destruct after as [|d r]; [reflexivity|].
    rewrite star_step. simpl in Hafter. simpl Re.atom_ok. rewrite Hafter.
    reflexivity.
  - simpl in Hall. apply andb_prop in Hall. destruct Hall as [Hc Hall].
    change (String c digits +:+ after) with (String c (digits +:+ after)).
    rewrite star_step. simpl Re.atom_ok. rewrite Hc.
    rewrite (IH (Re.eat c (digits +:+ after) st) Hall Hin).
    unfold Re.eat. simpl Re.buf. rewrite Hin, append_snoc. reflexivity.
Qed.

(** The first integer of a text that begins with a number is that
    number. *)
Lemma first_int_prefix (digits after : string) :
  all_digits digits = true -> Py.truthy digits = true ->
  digit_head after = false ->
  first_int (digits +:+ after) = Ok (Py.int digits).
Proof.
  intros Hall Htr Hafter. unfold first_int, Re.search.
  destruct digits as [|c digits]; [discriminate|].
  simpl in Hall. apply andb_prop in Hall. destruct Hall as [Hc Hall].
  change (String c digits +:+ after) with (String c (digits +:+ after)).
  assert (Hrun : Re.run [Re.Open; Re.Plus Re.Digit; Re.Close]
                   (Re.start None (String c (digits +:+ after)))
                 = Some (String c digits)).
  { simpl Re.run. simpl Re.atom_ok. rewrite Hc.
    apply (star_takes_digits after Hafter digits); [exact Hall|reflexivity]. }
  rewrite search_from_step, Hrun. reflexivity.
Qed.

Lemma first_int_str (e : ExperienceYears.t) :
  0 <= ExperienceYears.years e ->
  first_int (ExperienceYears.str e) = Ok (ExperienceYears.years e).
Proof.
  intros Hy. destruct (str_int_spec _ Hy) as [Hall [Htr Hint]].
  unfold ExperienceYears.str.
  rewrite (first_int_prefix _ " anos" Hall Htr eq_refl), Hint. reflexivity.
Qed.

(** The years of a record of [analyze_curriculum] are the extracted years. *)
Lemma analysis_record_years (document_id summary : string)
    (skills : TechnicalSkillSet.t) (experience : ExperienceYears.t)
    (level : ProfessionalLevel.t) (education : option string) :
  0 <= ExperienceYears.years experience ->
  Spec.record_years
    (analysis_record document_id summary skills experience level education)
  = ExperienceYears.years experience.
Proof.
  intros Hy. unfold Spec.record_years, analysis_record. simpl.
  destruct (Z.gtb_spec (ExperienceYears.years experience) 0); [|lia].
  rewrite (first_int_str experience Hy). reflexivity.
Qed.

(** The level of a record of [analyze_curriculum] is well formed, and is
    the determined level. *)
Lemma analysis_record_level (document_id summary : string)
    (skills : TechnicalSkillSet.t) (experience : ExperienceYears.t)
    (level : ProfessionalLevel.t) (education : option string) :
  Spec.level_wellformed
    (analysis_record document_id summary skills experience level education)
  = true
  /\ Spec.record_level
       (analysis_record document_id summary skills experience level education)
     = level.
Proof.
  unfold Spec.level_wellformed, Spec.record_level, analysis_record. simpl.
  destruct level; split; vm_compute; reflexivity.
Qed.

(** * Further properties of the code *)

(** ** [MatchScore] *)

Lemma general_skills_term_bounds (required : list string)
    (candidate : TechnicalSkillSet.t) :
  (0 <= MatchScore.skills_term required candidate
   /\ MatchScore.skills_term required candidate <= 5 # 10)%Q.
Proof.
  unfold MatchScore.skills_term.
  destruct required as [|s l]; [split; discriminate|].
  cbn [nonempty]. apply weighted_bounds; [| |discriminate].
  - apply true_div_nonneg; [apply count_if_bounds|apply len_pos; discriminate].
  - apply true_div_le_1; [apply count_if_bounds|apply len_pos; discriminate].
Qed.

Lemma general_experience_term_bounds (required : Z)
    (candidate : ExperienceYears.t) :
  0 <= ExperienceYears.years candidate ->
  (0 <= MatchScore.experience_term required candidate
   /\ MatchScore.experience_term required candidate <= 3 # 10)%Q.
Proof.
  intros Hy. unfold MatchScore.experience_term.
  destruct (Z.gtb_spec required 0); [|split; discriminate].
  destruct (Z.geb_spec (ExperienceYears.years candidate) required);
    [split; discriminate|].
  apply weighted_bounds; [| |discriminate].
  - apply true_div_nonneg; lia.
  - apply true_div_le_1; lia.
Qed.

Lemma general_level_term_bounds (required candidate : ProfessionalLevel.t) :
  (0 <= MatchScore.level_term required candidate
   /\ MatchScore.level_term required candidate <= 2 # 10)%Q.
Proof. destruct required, candidate; split; discriminate. Qed.

Lemma fmin_below (a b : Q) : (a <= b)%Q -> fmin a b = a.
Proof.
  intros H. unfold fmin. apply Qle_bool_iff in H. rewrite H. reflexivity.
Qed.

Lemma calculate_sum_bounds (required_skills : list string)
    (candidate_skills : TechnicalSkillSet.t) (required_experience : Z)
    (candidate_experience : ExperienceYears.t)
    (required_level candidate_level : ProfessionalLevel.t) :
  0 <= ExperienceYears.years candidate_experience ->
  (0 <= 0 + MatchScore.skills_term required_skills candidate_skills
          + MatchScore.experience_term required_experience candidate_experience
          + MatchScore.level_term required_level candidate_level <= 1)%Q.
Proof.
  intros Hy.
  pose proof (general_skills_term_bounds required_skills candidate_skills).
  pose proof (general_experience_term_bounds required_experience
                candidate_experience Hy).
  pose proof (general_level_term_bounds required_level candidate_level).
  lra.
Qed.

Lemma new_in_range (v : Q) :
  (0 <= v <= 1)%Q -> MatchScore.new v = Ok (MatchScore.Make v).
Proof.
  intros [Hlo Hhi]. unfold MatchScore.new.
  apply Qle_bool_iff in Hlo. apply Qle_bool_iff in Hhi.
  rewrite Hlo, Hhi. reflexivity.
Qed.

Lemma calculate_in_range (required_skills : list string)
    (candidate_skills : TechnicalSkillSet.t) (required_experience : Z)
    (candidate_experience : ExperienceYears.t)
    (required_level candidate_level : ProfessionalLevel.t) :
  0 <= ExperienceYears.years candidate_experience ->
  MatchScore.calculate required_skills candidate_skills required_experience
    candidate_experience required_level candidate_level
  = Ok (MatchScore.Make
          (0 + MatchScore.skills_term required_skills candidate_skills
             + MatchScore.experience_term required_experience
                 candidate_experience
             + MatchScore.level_term required_level candidate_level)%Q).
Proof.
  intros Hy.
  pose proof (calculate_sum_bounds required_skills candidate_skills
                required_experience candidate_experience required_level
                candidate_level Hy) as Hsum.
  unfold MatchScore.calculate. cbv zeta.
  rewrite (fmin_below _ 1) by tauto.
  apply new_in_range. exact Hsum.
Qed.

(** [MatchScore.calculate] never fails on a candidate whose years are not
    negative: the sum of its three terms lies in [0, 1], so that the clamp
    leaves it as it is and the constructor accepts it. *)
Theorem calculate_is_the_sum (required_skills : list string)
    (candidate_skills : TechnicalSkillSet.t) (required_experience : Z)
    (candidate_experience : ExperienceYears.t)
    (required_level candidate_level : ProfessionalLevel.t) :
  0 <= ExperienceYears.years candidate_experience ->
  let sum :=
    (0 + MatchScore.skills_term required_skills candidate_skills
       + MatchScore.experience_term required_experience candidate_experience
       + MatchScore.level_term required_level candidate_level)%Q in
  MatchScore.calculate required_skills candidate_skills required_experience
    candidate_experience required_level candidate_level
  = Ok (MatchScore.Make sum)
  /\ (0 <= sum /\ sum <= 1)%Q.
Proof.
  intros Hy sum. subst sum. split.
  - apply calculate_in_range. exact Hy.
  - apply calculate_sum_bounds. exact Hy.
Qed.

Lemma calculate_is_the_sum_witness :
  MatchScore.calculate ["python"; "docker"] (skill_set_of ["Python"]) 3
    (ExperienceYears.Make 2) ProfessionalLevel.SENIOR ProfessionalLevel.PLENO
  = Ok (MatchScore.Make
          (0 + MatchScore.skills_term ["python"; "docker"]
                 (skill_set_of ["Python"])
             + MatchScore.experience_term 3 (ExperienceYears.Make 2)
             + MatchScore.level_term ProfessionalLevel.SENIOR
                 ProfessionalLevel.PLENO)%Q).
Proof.
  apply (calculate_is_the_sum ["python"; "docker"] (skill_set_of ["Python"]) 3
           (ExperienceYears.Make 2) ProfessionalLevel.SENIOR
           ProfessionalLevel.PLENO).
  simpl. lia.
Defined.

Lemma fmin_mono (a b c : Q) : (a <= b)%Q -> (fmin a c <= fmin b c)%Q.
Proof.
  intros H. unfold fmin.
  destruct (Qle_bool a c) eqn:Ha, (Qle_bool b c) eqn:Hb.
  - exact H.
  - apply Qle_bool_iff. exact Ha.
  - apply Qle_bool_iff in Hb.
    assert (Qle_bool a c = true) by (apply Qle_bool_iff; lra). congruence.
  - apply Qle_refl.
Qed.

(** With the same requirements and skills, a candidate who has at least
    the years and at least the level of another never gets a lower score
    from [MatchScore.calculate]. *)
Theorem calculate_monotone (required_skills : list string)
    (candidate_skills : TechnicalSkillSet.t) (required_experience : Z)
    (e e' : ExperienceYears.t)
    (required_level l l' : ProfessionalLevel.t) (m m' : MatchScore.t) :
  0 <= ExperienceYears.years e <= ExperienceYears.years e' ->
  MatchScore.level_scores l <= MatchScore.level_scores l' ->
  MatchScore.calculate required_skills candidate_skills required_experience
    e required_level l = Ok m ->
  MatchScore.calculate required_skills candidate_skills required_experience
    e' required_level l' = Ok m' ->
  (MatchScore.value m <= MatchScore.value m')%Q.
Proof.
  intros Hy Hl Hm Hm'.
  rewrite (calculate_in_range required_skills candidate_skills
             required_experience e required_level l (proj1 Hy)) in Hm.
  rewrite (calculate_in_range required_skills candidate_skills
             required_experience e' required_level l' ltac:(lia)) in Hm'.
  injection Hm as <-. injection Hm' as <-. simpl.
  assert (He : (MatchScore.experience_term required_experience e
                <= MatchScore.experience_term required_experience e')%Q).
  { unfold MatchScore.experience_term.
    destruct (Z.gtb_spec required_experience 0); [|apply Qle_refl].
    destruct (Z.geb_spec (ExperienceYears.years e) required_experience),
             (Z.geb_spec (ExperienceYears.years e') required_experience);
      try lia; try apply Qle_refl.
    - apply (weighted_bounds (true_div _ _) (3 # 10));
        [apply true_div_nonneg; lia|apply true_div_le_1; lia|discriminate].
    - apply Qmult_le_compat_r; [|discriminate]. apply true_div_mono; lia. }
  assert (Hlev : (MatchScore.level_term required_level l
                  <= MatchScore.level_term required_level l')%Q).
  { destruct required_level, l, l'; simpl in Hl; try lia;
      vm_compute; discriminate. }
  lra.
Qed.

Lemma calculate_monotone_witness :
  (MatchScore.value
     (MatchScore.Make
        (0 + MatchScore.skills_term ["python"] (skill_set_of ["Python"])
           + MatchScore.experience_term 4 (ExperienceYears.Make 1)
           + MatchScore.level_term ProfessionalLevel.SENIOR
               ProfessionalLevel.PLENO))
   <= MatchScore.value
        (MatchScore.Make
           (0 + MatchScore.skills_term ["python"] (skill_set_of ["Python"])
              + MatchScore.experience_term 4 (ExperienceYears.Make 3)
              + MatchScore.level_term ProfessionalLevel.SENIOR
                  ProfessionalLevel.SENIOR)))%Q.
Proof.
  apply (calculate_monotone ["python"] (skill_set_of ["Python"]) 4
           (ExperienceYears.Make 1) (ExperienceYears.Make 3)
           ProfessionalLevel.SENIOR ProfessionalLevel.PLENO
           ProfessionalLevel.SENIOR).
  - simpl. lia.
  - simpl. lia.
  - apply calculate_in_range. simpl. lia.
  - apply calculate_in_range. simpl. lia.
Defined.


(** ** [TechnicalSkillSet] *)

Lemma has_skill_elem (set : TechnicalSkillSet.t) (skill_name : string) :
  TechnicalSkillSet.has_skill set skill_name = true
  <-> exists sk, sk ∈ TechnicalSkillSet.skills set
                 /\ Py.lower (TechnicalSkill.name sk) = Py.lower skill_name.
Proof.
  unfold TechnicalSkillSet.has_skill. rewrite existsb_exists. split.
  - intros [sk [Hin Hm]]. exists sk. split.
    + apply elem_of_elements. apply list_elem_of_In. exact Hin.
    + apply String.eqb_eq. exact Hm.
  - intros [sk [Hin Hm]]. exists sk. split.
    + apply list_elem_of_In. apply elem_of_elements. exact Hin.
    + apply String.eqb_eq. exact Hm.
Qed.

(** Looking a name up in a constructed skill set: [has_skill] holds
    exactly for the names that are, case apart, a kept entry of the list
    once stripped. *)
Theorem has_skill_after_init (raw_skills : list string)
    (set : TechnicalSkillSet.t) (skill_name : string) :
  TechnicalSkillSet.init raw_skills = Ok set ->
  (TechnicalSkillSet.has_skill set skill_name = true
   <-> exists raw, In raw raw_skills
         /\ Py.truthy (Py.strip raw) = true
         /\ Py.lower (Py.strip raw) = Py.lower skill_name).
Proof.
  rewrite init_members. intros [= <-]. rewrite has_skill_elem. simpl. split.
  - intros [sk [Hin Hl]]. apply elem_of_members_of in Hin.
    destruct Hin as [raw [Hraw [Hk ->]]]. exists raw. auto.
  - intros [raw [Hraw [Hk Hl]]]. exists (member_of raw). split; [|exact Hl].
    apply elem_of_members_of. exists raw. auto.
Qed.

Lemma has_skill_after_init_witness :
  TechnicalSkillSet.has_skill
    (TechnicalSkillSet.Make (members_of [" Python "; ""; "docker"])) "PYTHON"
  = true.
Proof.
  apply (proj2 (has_skill_after_init [" Python "; ""; "docker"]
                  (TechnicalSkillSet.Make
                     (members_of [" Python "; ""; "docker"]))
                  "PYTHON" eq_refl)).
  exists " Python ". repeat split. left. reflexivity.
Defined.

(** Two members of a constructed set with the same name are the same. *)
Lemma members_name_inj (raw_skills : list string) (a b : TechnicalSkill.t) :
  a ∈ members_of raw_skills -> b ∈ members_of raw_skills ->
  TechnicalSkill.name a = TechnicalSkill.name b -> a = b.
Proof.
  intros Ha Hb Hname.
  apply elem_of_members_of in Ha. destruct Ha as [ra [_ [_ ->]]].
  apply elem_of_members_of in Hb. destruct Hb as [rb [_ [_ ->]]].
  unfold member_of in *. simpl in Hname. f_equal; [exact Hname|].
  rewrite <- (categorize_strip ra), <- (categorize_strip rb), Hname.
  reflexivity.
Qed.

Lemma NoDup_map_inj {A B : Type} (f : A -> B) (l : list A) :
  (forall x y, In x l -> In y l -> f x = f y -> x = y) ->
  List.NoDup l -> List.NoDup (map f l).
Proof.
  intros Hinj Hnd. induction Hnd as [|x l Hx Hnd IH]; simpl; constructor.
  - intros Hin. apply in_map_iff in Hin. destruct Hin as [y [Hy Hin]].
    apply Hx.
    rewrite (Hinj x y); [exact Hin|left; reflexivity| |congruence].
    right. exact Hin.
  - apply IH. intros a b Ha Hb. apply Hinj; right; assumption.
Qed.

Lemma elements_NoDup (set : gset TechnicalSkill.t) : List.NoDup (elements set).
Proof. apply NoDup_ListNoDup. apply NoDup_elements. Qed.

Lemma elements_members_length (raw_skills : list string) :
  (length (elements (members_of raw_skills)) <= length raw_skills)%nat.
Proof.
  transitivity (length (map member_of (List.filter kept raw_skills))).
  - apply List.NoDup_incl_length; [apply elements_NoDup|].
    intros sk Hsk. apply list_elem_of_In in Hsk. apply elem_of_elements in Hsk.
    unfold members_of in Hsk. apply elem_of_list_to_set in Hsk.
    apply list_elem_of_In. exact Hsk.
  - rewrite length_map. apply List.filter_length_le.
Qed.

(** The names a constructed skill set lists are pairwise distinct and not
    blank, there are [count] of them, and never more than the list had
    entries. *)
Theorem to_list_distinct_names (raw_skills : list string)
    (set : TechnicalSkillSet.t) :
  TechnicalSkillSet.init raw_skills = Ok set ->
  List.NoDup (TechnicalSkillSet.to_list set)
  /\ len (TechnicalSkillSet.to_list set) = TechnicalSkillSet.count set
  /\ TechnicalSkillSet.count set <= len raw_skills
  /\ (forall name, In name (TechnicalSkillSet.to_list set) ->
        Py.truthy name = true /\ Py.strip name = name).
Proof.
  rewrite init_members. intros [= <-].
  unfold TechnicalSkillSet.to_list, TechnicalSkillSet.count, len. simpl.
  split; [|split; [|split]].
  - apply NoDup_map_inj; [|apply elements_NoDup].
    intros a b Ha Hb. apply (members_name_inj raw_skills);
      apply elem_of_elements, list_elem_of_In; assumption.
  - rewrite length_map. reflexivity.
  - apply inj_le. apply elements_members_length.
  - intros name Hin. apply in_map_iff in Hin. destruct Hin as [sk [<- Hsk]].
    apply list_elem_of_In, elem_of_elements, elem_of_members_of in Hsk.
    destruct Hsk as [raw [_ [Hk ->]]]. simpl. split; [exact Hk|apply strip_idem].
Qed.

Lemma to_list_distinct_names_witness :
  List.NoDup
    (TechnicalSkillSet.to_list
       (TechnicalSkillSet.Make
          (members_of ["Python"; "Python "; " "; "Docker"])))
  /\ TechnicalSkillSet.count
       (TechnicalSkillSet.Make
          (members_of ["Python"; "Python "; " "; "Docker"])) <= 4.
Proof.
  destruct (to_list_distinct_names ["Python"; "Python "; " "; "Docker"]
              (TechnicalSkillSet.Make
                 (members_of ["Python"; "Python "; " "; "Docker"]))
              eq_refl) as [Hnd [_ [Hle _]]].
  split; [exact Hnd|exact Hle].
Defined.

Lemma categorize_cases (skill : string) :
  In (TechnicalSkillSet._categorize_skill skill) categories.
Proof.
  unfold TechnicalSkillSet._categorize_skill, categories, linguagem. cbv zeta.
  repeat (destruct (existsb _ _); [simpl; tauto|]). simpl. tauto.
Qed.

Ltac eval_string_eqb :=
  repeat match goal with
         | |- context [String.eqb ?a ?b] =>
             let v := eval vm_compute in (String.eqb a b) in
             change (String.eqb a b) with v
         end.

Lemma in_category_total (l : list TechnicalSkill.t) :
  (forall sk, In sk l -> In (TechnicalSkill.category sk) categories) ->
  len l = in_category linguagem l + in_category "Framework" l
          + in_category "Banco de Dados" l + in_category "DevOps" l
          + in_category "Geral" l.
Proof.
  unfold in_category, len. induction l as [|sk l IH]; intros Hall;
    [reflexivity|].
  assert (IH' := IH (fun x Hx => Hall x (or_intror Hx))). clear IH.
  pose proof (Hall sk (or_introl eq_refl)) as Hc.
  cbn [List.filter length] in *.
  destruct Hc as [Hc|[Hc|[Hc|[Hc|[Hc|[]]]]]]; rewrite <- Hc;
    eval_string_eqb; cbn [length]; lia.
Qed.

(** The category lists partition a constructed skill set: every member
    has one of the five categories, that of its name, and the five lists
    of [get_skills_by_category] have [count] members together. *)
Theorem categories_partition (raw_skills : list string)
    (set : TechnicalSkillSet.t) :
  TechnicalSkillSet.init raw_skills = Ok set ->
  (forall sk, sk ∈ TechnicalSkillSet.skills set ->
     TechnicalSkill.category sk
     = TechnicalSkillSet._categorize_skill (TechnicalSkill.name sk)
     /\ In (TechnicalSkill.category sk) categories)
  /\ TechnicalSkillSet.count set
     = len (TechnicalSkillSet.get_skills_by_category set linguagem)
       + len (TechnicalSkillSet.get_skills_by_category set "Framework")
       + len (TechnicalSkillSet.get_skills_by_category set "Banco de Dados")
       + len (TechnicalSkillSet.get_skills_by_category set "DevOps")
       + len (TechnicalSkillSet.get_skills_by_category set "Geral").
Proof.
  rewrite init_members. intros [= <-]. cbn [TechnicalSkillSet.skills].
  assert (Hcat : forall sk, sk ∈ members_of raw_skills ->
            TechnicalSkill.category sk
            = TechnicalSkillSet._categorize_skill (TechnicalSkill.name sk)
            /\ In (TechnicalSkill.category sk) categories).
  { intros sk Hsk. apply elem_of_members_of in Hsk.
    destruct Hsk as [raw [_ [_ ->]]]. unfold member_of.
    cbn [TechnicalSkill.category TechnicalSkill.name].
    rewrite categorize_strip. split; [reflexivity|apply categorize_cases]. }
  split; [exact Hcat|].
  unfold TechnicalSkillSet.count, TechnicalSkillSet.get_skills_by_category.
  cbn [TechnicalSkillSet.skills].
  change (Z.of_nat (size (members_of raw_skills)))
    with (len (elements (members_of raw_skills))).
  apply (in_category_total (elements (members_of raw_skills))).
  intros sk Hsk. apply Hcat. apply elem_of_elements, list_elem_of_In. exact Hsk.
Qed.

Lemma categories_partition_witness :
  TechnicalSkillSet.count
    (TechnicalSkillSet.Make (members_of ["Python"; "Docker"; "Scrum"]))
  = len (TechnicalSkillSet.get_skills_by_category
           (TechnicalSkillSet.Make (members_of ["Python"; "Docker"; "Scrum"]))
           linguagem)
    + len (TechnicalSkillSet.get_skills_by_category
             (TechnicalSkillSet.Make (members_of ["Python"; "Docker"; "Scrum"]))
             "Framework")
    + len (TechnicalSkillSet.get_skills_by_category
             (TechnicalSkillSet.Make (members_of ["Python"; "Docker"; "Scrum"]))
             "Banco de Dados")
    + len (TechnicalSkillSet.get_skills_by_category
             (TechnicalSkillSet.Make (members_of ["Python"; "Docker"; "Scrum"]))
             "DevOps")
    + len (TechnicalSkillSet.get_skills_by_category
             (TechnicalSkillSet.Make (members_of ["Python"; "Docker"; "Scrum"]))
             "Geral").
Proof.
  apply (proj2 (categories_partition ["Python"; "Docker"; "Scrum"]
                  (TechnicalSkillSet.Make
                     (members_of ["Python"; "Docker"; "Scrum"])) eq_refl)).
Defined.

(** ** Extraction and letter case *)

Lemma truthy_lower (text : string) : Py.truthy (Py.lower text) = Py.truthy text.
Proof. destruct text; reflexivity. Qed.

Lemma same_lower_truthy (t1 t2 : string) :
  Py.lower t1 = Py.lower t2 -> Py.truthy t1 = Py.truthy t2.
Proof. intros H. rewrite <- (truthy_lower t1), <- (truthy_lower t2), H. reflexivity. Qed.

Lemma scan_same_lower (ps : list (list Re.item)) (t1 t2 : string) :
  Py.lower t1 = Py.lower t2 ->
  ExperienceYears.scan ps t1 = ExperienceYears.scan ps t2.
Proof.
  intros H. induction ps as [|p ps IH]; simpl; [reflexivity|].
  rewrite H, IH. reflexivity.
Qed.

(** Extraction does not see letter case: two texts with the same
    lower-case form give the same skills, years, level, work area and
    education. *)
Theorem extraction_ignores_case (set_order : list string -> list string)
    (t1 t2 : string) :
  Py.lower t1 = Py.lower t2 ->
  extract_skills t1 = extract_skills t2
  /\ ExperienceYears.from_text t1 = ExperienceYears.from_text t2
  /\ ProfessionalLevel.from_text t1 = ProfessionalLevel.from_text t2
  /\ _identify_work_area t1 = _identify_work_area t2
  /\ _extract_education set_order t1 = _extract_education set_order t2.
Proof.
  intros H. pose proof (same_lower_truthy t1 t2 H) as Ht.
  repeat split.
  - unfold extract_skills. rewrite Ht. cbv zeta. rewrite H. reflexivity.
  - unfold ExperienceYears.from_text.
    rewrite Ht, (scan_same_lower _ t1 t2 H). reflexivity.
  - unfold ProfessionalLevel.from_text. rewrite Ht. cbv zeta. rewrite H.
    reflexivity.
  - unfold _identify_work_area. cbv zeta. rewrite H. reflexivity.
  - unfold _extract_education. cbv zeta. rewrite H. reflexivity.
Qed.

Lemma extraction_ignores_case_witness :
  extract_skills "PYTHON Senior, 5 Anos de Experiencia"
  = extract_skills "python SENIOR, 5 anos DE experiencia"
  /\ ProfessionalLevel.from_text "PYTHON Senior, 5 Anos de Experiencia"
     = ProfessionalLevel.from_text "python SENIOR, 5 anos DE experiencia".
Proof.
  destruct (extraction_ignores_case (fun l => l)
              "PYTHON Senior, 5 Anos de Experiencia"
              "python SENIOR, 5 anos DE experiencia") as [H1 [_ [H3 _]]];
    [reflexivity|].
  split; [exact H1|exact H3].
Defined.

(** ** [determine_level] *)

Lemma count_nonneg (skills : TechnicalSkillSet.t) :
  0 <= TechnicalSkillSet.count skills.
Proof. unfold TechnicalSkillSet.count. lia. Qed.



(** ** [_parse_query_requirements] *)

Lemma any_char_snoc (f : ascii -> bool) (s : string) (c : ascii) :
  Py.any_char f (s +:+ String c EmptyString) = Py.any_char f s || f c.
Proof.
  induction s as [|d s IH].
  - simpl. apply orb_false_r.
  - change (f d || Py.any_char f (s +:+ String c EmptyString)
            = f d || Py.any_char f s || f c).
    rewrite IH. apply orb_assoc.
Qed.

(** The pieces of [split()] are not empty and hold no space. *)
Lemma split_from_pieces (s : string) :
  forall cur kw,
    Py.any_char Py.isspace cur = false ->
    In kw (Py.split_from cur s) ->
    Py.truthy kw = true /\ Py.any_char Py.isspace kw = false.
Proof.
  induction s as [|c s IH]; intros cur kw Hcur; simpl.
  - destruct (Py.truthy cur) eqn:Ht; [|intros []].
    intros [<-|[]]. auto.
  - destruct (Py.isspace c) eqn:Hc.
    + destruct (Py.truthy cur) eqn:Ht.
      * intros [<-|Hin]; [auto|]. apply (IH EmptyString kw eq_refl Hin).
      * apply (IH EmptyString kw eq_refl).
    + apply IH. rewrite any_char_snoc, Hcur, Hc. reflexivity.
Qed.

Lemma distinct_NoDup (l : list string) : distinct l = true -> List.NoDup l.
Proof.
  induction l as [|x l IH]; simpl; intros H; constructor.
  - apply andb_prop in H. destruct H as [Hx _]. apply negb_true_iff in Hx.
    intros Hin.
    assert (Py.list_in x l = true).
    { apply existsb_exists. exists x. split; [exact Hin|apply String.eqb_refl]. }
    congruence.
  - apply IH. apply andb_prop in H. tauto.
Qed.

Lemma taxonomy_distinct : distinct technical_skills_patterns = true.
Proof. vm_compute. reflexivity. Qed.

(** What a parsed query asks is well formed: its skills are distinct
    tokens of the taxonomy, each one occurring in the lower-cased query;
    its years are not negative; its level is never Specialist; and its
    keywords are the words of the query, none empty, none with a space. *)
Theorem parsed_requirements_wellformed (query : string) :
  let r := _parse_query_requirements query in
  List.NoDup (req_skills r)
  /\ (forall skill, In skill (req_skills r)
        <-> In skill technical_skills_patterns
            /\ Py.str_in skill (Py.lower query) = true)
  /\ 0 <= req_experience_years r
  /\ req_level r <> ProfessionalLevel.ESPECIALISTA
  /\ (forall kw, In kw (req_keywords r) ->
        Py.truthy kw = true /\ Py.any_char Py.isspace kw = false).
Proof.
  cbv zeta. unfold _parse_query_requirements.
  cbn [req_skills req_experience_years req_level req_keywords].
  split; [|split; [|split; [|split]]].
  - apply List.NoDup_filter. apply distinct_NoDup. apply taxonomy_distinct.
  - intros skill.
    exact (List.filter_In (fun sk => Py.str_in sk (Py.lower query)) skill
             technical_skills_patterns).
  - destruct (Re.search exp_pattern (Py.lower query)) as [g|] eqn:Hs; [|lia].
    apply int_nonneg. apply (search_digits exp_pattern (Py.lower query) g);
      [reflexivity|exact Hs].
  - repeat (destruct (existsb _ _); [discriminate|]).
    destruct (Py.str_in _ _); discriminate.
  - intros kw. apply split_from_pieces. reflexivity.
Qed.

(** ** The query score and the top of the ranking *)

Lemma skills_term_le (a : CurriculumAnalysis.t) (r : requirements) :
  (skills_term a r <= 4 # 10)%Q.
Proof.
  unfold skills_term. destruct (req_skills r) as [|s l] eqn:Hl;
    cbn [nonempty]; [discriminate|].
  apply (weighted_bounds (true_div _ _) (4 # 10)); [| |discriminate].
  - apply true_div_nonneg; [apply count_if_bounds|apply len_pos; discriminate].
  - apply true_div_le_1; [apply count_if_bounds|apply len_pos; discriminate].
Qed.

Lemma keyword_term_le (a : CurriculumAnalysis.t) (r : requirements) :
  (keyword_term a r <= 1 # 10)%Q.
Proof.
  unfold keyword_term. destruct (_ && _); [|discriminate].
  destruct (Z.gtb_spec (len (req_keywords r)) 0) as [Hlen|_]; [|discriminate].
  apply (weighted_bounds (true_div _ _) (1 # 10)); [| |discriminate].
  - apply true_div_nonneg; [apply count_if_bounds|lia].
  - apply true_div_le_1; [apply count_if_bounds|lia].
Qed.

(** The clamp of the query scorer never acts: the four terms stay within
    their weights 0.4, 0.3, 0.2 and 0.1, so that the score returned is
    their plain sum. *)
Theorem query_score_is_the_sum (a : CurriculumAnalysis.t) (r : requirements)
    (score : Q) :
  _calculate_match_score a r = Ok score ->
  exists level,
    level_term a r = Ok level
    /\ score = (0 + skills_term a r + experience_term a r + level
                + keyword_term a r)%Q
    /\ (0 <= skills_term a r /\ skills_term a r <= 4 # 10)%Q
    /\ (0 <= experience_term a r /\ experience_term a r <= 3 # 10)%Q
    /\ (0 <= level /\ level <= 2 # 10)%Q
    /\ (0 <= keyword_term a r /\ keyword_term a r <= 1 # 10)%Q.
Proof.
  unfold _calculate_match_score.
  destruct (level_term a r) as [level|] eqn:Hl; simpl; [|discriminate].
  intros [= <-]. exists level.
  pose proof (skills_term_nonneg a r). pose proof (skills_term_le a r).
  pose proof (experience_term_bounds a r).
  pose proof (level_term_bounds a r level Hl).
  pose proof (keyword_term_nonneg a r). pose proof (keyword_term_le a r).
  split; [reflexivity|]. split; [|tauto].
  apply fmin_below. lra.
Qed.

Lemma query_score_is_the_sum_witness :
  exists score level,
    _calculate_match_score (record_of_skills ["Python"] (Some "2 anos"))
      python_docker_requirements = Ok score
    /\ level_term (record_of_skills ["Python"] (Some "2 anos"))
         python_docker_requirements = Ok level
    /\ score
       = (0 + skills_term (record_of_skills ["Python"] (Some "2 anos"))
                python_docker_requirements
          + experience_term (record_of_skills ["Python"] (Some "2 anos"))
              python_docker_requirements
          + level
          + keyword_term (record_of_skills ["Python"] (Some "2 anos"))
              python_docker_requirements)%Q.
Proof.
  destruct (_calculate_match_score
              (record_of_skills ["Python"] (Some "2 anos"))
              python_docker_requirements) as [score|] eqn:Hscore;
    [|discriminate].
  destruct (query_score_is_the_sum
              (record_of_skills ["Python"] (Some "2 anos"))
              python_docker_requirements score Hscore)
    as [level [Hl [Hs _]]].
  exists score, level. auto.
Defined.

(** The first element that a filter keeps, and what stands before it. *)
Lemma filter_head_split {A : Type} (f : A -> bool) (l : list A) :
  forall m t, List.filter f l = m :: t ->
  exists before after,
    l = before ++ m :: after
    /\ forallb (fun b => negb (f b)) before = true.
Proof.
  induction l as [|x l IH]; intros m t; simpl; [discriminate|].
  destruct (f x) eqn:Hx.
  - intros [= <- <-]. exists [], l. split; reflexivity.
  - intros H. destruct (IH m t H) as [before [after [-> Hb]]].
    exists (x :: before), after. split; [reflexivity|]. simpl.
    rewrite Hx, Hb. reflexivity.
Qed.

(** The top of the ranking is the best record, and among the records
    that share the best score the one that came first in the input: every
    entry scores at most as much, and every entry before it in the input
    order scores strictly less. *)
Theorem top_match_is_first_best (format_2f : Q -> string)
    (analyses : list CurriculumAnalysis.t) (query : string)
    (out : match_result) (top : match_entry) (others : list match_entry) :
  analyze_query_match format_2f analyses query = Ok out ->
  best_matches out = top :: others ->
  exists before after,
    List.Forall2 (Spec.entry_of (_parse_query_requirements query))
      analyses (before ++ top :: after)
    /\ (forall m, In m (before ++ top :: after) ->
          (m_score m <= m_score top)%Q)
    /\ (forall m, In m before -> (m_score m < m_score top)%Q).
Proof.
  intros Hout Htop.
  destruct (analyze_query_match_inv _ _ _ _ Hout) as [entries [Hloop Hbest]].
  rewrite Htop in Hbest.
  pose proof (sort_reverse_sorted m_score entries) as Hsorted.
  pose proof (sort_reverse_perm m_score entries) as Hperm.
  pose proof (sort_reverse_having m_score (m_score top) entries) as Hsame.
  rewrite <- Hbest in Hsorted, Hperm, Hsame.
  assert (Hmax : forall m, In m entries -> (m_score m <= m_score top)%Q).
  { intros m Hm.
    apply (Permutation_in m (Permutation_sym Hperm)) in Hm.
    destruct Hm as [<-|Hm]; [apply Qle_refl|].
    apply StronglySorted_inv in Hsorted. destruct Hsorted as [_ Hall].
    rewrite List.Forall_forall in Hall. exact (Hall m Hm). }
  rewrite (having_head m_score top others) in Hsame.
  symmetry in Hsame. unfold having in Hsame.
  destruct (filter_head_split _ _ _ _ Hsame) as [before [after [-> Hb]]].
  exists before, after.
  split; [apply match_loop_entries; exact Hloop|]. split; [exact Hmax|].
  intros m Hm. rewrite forallb_forall in Hb. specialize (Hb m Hm).
  apply negb_true_iff in Hb.
  assert (Hle : (m_score m <= m_score top)%Q).
  { apply Hmax. apply in_or_app. left. exact Hm. }
  apply Qle_lt_or_eq in Hle. destruct Hle as [Hlt|Heq]; [exact Hlt|].
  apply Qeq_bool_iff in Heq. congruence.
Qed.

Lemma top_match_is_first_best_witness :
  exists top others before after out,
    analyze_query_match render_blank tied_records "python" = Ok out
    /\ best_matches out = top :: others
    /\ List.Forall2 (Spec.entry_of (_parse_query_requirements "python"))
         tied_records (before ++ top :: after)
    /\ (forall m, In m before -> (m_score m < m_score top)%Q).
Proof.
  destruct (analyze_query_match render_blank tied_records "python")
    as [out|] eqn:Hout; [|discriminate].
  destruct (best_matches out) as [|top others] eqn:Hbest;
    [vm_compute in Hout; injection Hout as <-; discriminate|].
  destruct (top_match_is_first_best render_blank tied_records "python" out
              top others Hout Hbest) as [before [after [H1 [_ H3]]]].
  exists top, others, before, after, out. auto.
Defined.

(** ** [AnalysisResult.get_best_match] *)

Section BestMatch.

Context {A : Type} (key : A -> Q).

Lemma head_insert_desc (x : A) (l : list A) :
  List.head (insert_desc key x l)
  = Some match l with
         | [] => x
         | y :: _ => if Qle_bool (key y) (key x) then x else y
         end.
Proof.
  destruct l as [|y l]; [reflexivity|]. simpl.
  destruct (Qle_bool (key y) (key x)); reflexivity.
Qed.

Lemma head_sort_reverse_cons (x : A) (l : list A) :
  List.head (sort_reverse key (x :: l))
  = Some match List.head (sort_reverse key l) with
         | None => x
         | Some y => if Qle_bool (key y) (key x) then x else y
         end.
Proof.
  simpl sort_reverse. rewrite head_insert_desc.
  destruct (sort_reverse key l); reflexivity.
Qed.

Lemma Qle_bool_trans (a b c : Q) :
  Qle_bool a b = true -> Qle_bool b c = true -> Qle_bool a c = true.
Proof.
  intros H1 H2. apply Qle_bool_iff in H1. apply Qle_bool_iff in H2.
  apply Qle_bool_iff. lra.
Qed.

Lemma Qle_bool_total (a b : Q) :
  Qle_bool a b = false -> Qle_bool b a = true.
Proof.
  intros H. apply Qle_bool_iff. apply Qlt_le_weak. apply Qnot_le_lt.
  intros Hc. apply Qle_bool_iff in Hc. congruence.
Qed.

(** [max] keeps its first element unless the rest holds a greater one,
    and then gives the head of the sorted rest. *)
Lemma max_from_head (l : list A) :
  forall best,
    max_from key best l
    = match List.head (sort_reverse key l) with
      | None => best
      | Some y => if Qle_bool (key y) (key best) then best else y
      end.
Proof.
  induction l as [|x l IH]; intros best; [reflexivity|].
  rewrite head_sort_reverse_cons. simpl max_from. rewrite !IH.
  destruct (List.head (sort_reverse key l)) as [y|].
  - destruct (Qle_bool (key x) (key best)) eqn:Hxb,
             (Qle_bool (key y) (key best)) eqn:Hyb,
             (Qle_bool (key y) (key x)) eqn:Hyx;
      try rewrite Hxb; try rewrite Hyb; try reflexivity.
    + pose proof (Qle_bool_trans _ _ _ Hyx Hxb). congruence.
    + pose proof (Qle_bool_total _ _ Hyx) as Hxy.
      pose proof (Qle_bool_trans _ _ _ Hxy Hyb). congruence.
  - destruct (Qle_bool (key x) (key best)); reflexivity.
Qed.

End BestMatch.

(** The best match of a result is the head of the stable descending sort
    of its matches by score: the first of the matches with the greatest
    score, as at the top of the ranking of [analyze_query_match]; there
    is none exactly when there is no match. *)
Theorem get_best_match_is_sort_head (result : AnalysisResult.t) :
  AnalysisResult.get_best_match result
  = List.head (sort_reverse QueryMatch.score
                 (AnalysisResult.query_matches result))
  /\ (AnalysisResult.get_best_match result = None
      <-> AnalysisResult.query_matches result = []).
Proof.
  unfold AnalysisResult.get_best_match.
  destruct (AnalysisResult.query_matches result) as [|m others].
  - split; [reflexivity|tauto].
  - split; [|split; discriminate].
    rewrite head_sort_reverse_cons, max_from_head. reflexivity.
Qed.

(** ** Entities *)

Lemma list_in_In (x : string) (l : list string) :
  Py.list_in x l = true <-> In x l.
Proof.
  unfold Py.list_in. rewrite existsb_exists. split.
  - intros [y [Hy He]]. apply String.eqb_eq in He. congruence.
  - intros H. exists x. split; [exact H|apply String.eqb_refl].
Qed.

(** [add_skill] keeps the skill list free of repetitions and of the empty
    string; a skill that is not empty is in the list afterwards and is
    found by [has_skill]; every skill that was found still is; adding the
    same skill again changes nothing. *)
Theorem add_skill_keeps_distinct (a : CurriculumAnalysis.t) (skill : string) :
  (List.NoDup (CurriculumAnalysis.skills a) ->
   List.NoDup (CurriculumAnalysis.skills (CurriculumAnalysis.add_skill a skill)))
  /\ (~ In EmptyString (CurriculumAnalysis.skills a) ->
      ~ In EmptyString
          (CurriculumAnalysis.skills (CurriculumAnalysis.add_skill a skill)))
  /\ (Py.truthy skill = true ->
      In skill (CurriculumAnalysis.skills (CurriculumAnalysis.add_skill a skill))
      /\ CurriculumAnalysis.has_skill (CurriculumAnalysis.add_skill a skill)
           skill = true)
  /\ (forall other, CurriculumAnalysis.has_skill a other = true ->
        CurriculumAnalysis.has_skill (CurriculumAnalysis.add_skill a skill)
          other = true)
  /\ CurriculumAnalysis.add_skill (CurriculumAnalysis.add_skill a skill) skill
     = CurriculumAnalysis.add_skill a skill.
Proof.
  unfold CurriculumAnalysis.add_skill, CurriculumAnalysis.has_skill.
  destruct (Py.truthy skill) eqn:Ht;
    destruct (Py.list_in skill (CurriculumAnalysis.skills a)) eqn:Hin;
    cbn [andb negb CurriculumAnalysis.skills].
  - (* already there *)
    rewrite Hin. cbn [andb negb].
    split; [auto|]. split; [auto|]. split; [|split; [auto|reflexivity]].
    intros _. split.
    + apply list_in_In. exact Hin.
    + apply list_in_In. apply in_map. apply list_in_In. exact Hin.
  - (* appended *)
    assert (Hin' : Py.list_in skill (CurriculumAnalysis.skills a ++ [skill])
                   = true).
    { apply list_in_In. apply in_or_app. right. left. reflexivity. }
    rewrite Hin'. cbn [andb negb].
    split; [|split; [|split; [|split; [|reflexivity]]]].
    + intros Hnd. apply NoDup_rev in Hnd.
      rewrite <- (rev_involutive (CurriculumAnalysis.skills a ++ [skill])).
      apply NoDup_rev. rewrite rev_app_distr. cbn [rev app].
      constructor; [|exact Hnd].
      intros Hc. apply in_rev in Hc. apply list_in_In in Hc. congruence.
    + intros Hno Hc. apply in_app_or in Hc. destruct Hc as [Hc|[Hc|[]]];
        [exact (Hno Hc)|]. subst skill. discriminate.
    + intros _. split.
      * apply in_or_app. right. left. reflexivity.
      * apply list_in_In. apply in_map. apply in_or_app. right. left.
        reflexivity.
    + intros other Ho. apply list_in_In. apply list_in_In in Ho.
      rewrite map_app. apply in_or_app. left. exact Ho.
  - split; [auto|]. split; [auto|]. split; [discriminate|]. split; auto.
  - split; [auto|]. split; [auto|]. split; [discriminate|]. split; auto.
Qed.

Lemma split_on_nonempty (sep : ascii) (s : string) :
  forall cur, Py.split_on sep cur s <> [].
Proof.
  induction s as [|c s IH]; intros cur; simpl.
  - discriminate.
  - destruct (Ascii.eqb c sep); [discriminate|apply IH].
Qed.

Lemma last_cons_nonempty {A : Type} (x d : A) (l : list A) :
  l <> [] -> List.last (x :: l) d = List.last l d.
Proof. destruct l; [congruence|reflexivity]. Qed.

Lemma split_on_last_app (sep : ascii) (s1 s2 : string) :
  forall cur,
    List.last (Py.split_on sep cur (s1 +:+ String sep s2)) EmptyString
    = List.last (Py.split_on sep EmptyString s2) EmptyString.
Proof.
  induction s1 as [|c s1 IH]; intros cur.
  - change (EmptyString +:+ String sep s2) with (String sep s2).
    cbn [Py.split_on]. rewrite Ascii.eqb_refl.
    apply last_cons_nonempty. apply split_on_nonempty.
  - change (String c s1 +:+ String sep s2)
      with (String c (s1 +:+ String sep s2)).
    cbn [Py.split_on]. destruct (Ascii.eqb c sep).
    + rewrite last_cons_nonempty by apply split_on_nonempty. apply IH.
    + apply IH.
Qed.

Lemma str_in_char (c : ascii) (s : string) :
  Py.str_in (String c EmptyString) s = Py.any_char (Ascii.eqb c) s.
Proof.
  induction s as [|b s IH]; [reflexivity|].
  cbn [Py.str_in Py.startswith Py.any_char]. rewrite IH.
  rewrite andb_true_r. reflexivity.
Qed.

Lemma split_on_no_sep (sep : ascii) (s : string) :
  forall cur,
    Py.any_char (Ascii.eqb sep) s = false ->
    Py.split_on sep cur s = [cur +:+ s].
Proof.
  induction s as [|c s IH]; intros cur H.
  - rewrite append_empty. reflexivity.
  - cbn [Py.any_char] in H. apply orb_false_elim in H. destruct H as [Hc Hs].
    cbn [Py.split_on]. rewrite Ascii.eqb_sym, Hc.
    rewrite (IH _ Hs). rewrite append_snoc. reflexivity.
Qed.

Lemma any_char_app (f : ascii -> bool) (s t : string) :
  Py.any_char f (s +:+ t) = Py.any_char f s || Py.any_char f t.
Proof.
  induction s as [|c s IH]; [reflexivity|].
  change (String c s +:+ t) with (String c (s +:+ t)).
  cbn [Py.any_char]. rewrite IH. apply orb_assoc.
Qed.

Lemma extension_map_get_known (extension : string) :
  FileType.is_supported (FileType.extension_map_get extension) = true
  <-> In extension (map fst FileType.extension_map).
Proof.
  unfold FileType.extension_map_get, FileType.extension_map.
  cbn [find fst snd map In].
  repeat match goal with
         | |- context [String.eqb ?a extension] =>
             destruct (String.eqb_spec a extension)
         end;
    try (split; [intros _; tauto|intros _; reflexivity]).
  split; [discriminate|intuition congruence].
Qed.

(** The type of a file is decided by what follows the last dot of its
    name, read without regard to case: it is the entry of the extension
    map for that text, and a supported type exactly when the text is one of
    the eight extensions of the map.  The part before the last dot, dots
    included, plays no role. *)
Theorem from_filename_by_last_extension (stem ext : string) :
  Py.str_in "." ext = false ->
  FileType.from_filename (stem +:+ "." +:+ ext)
  = FileType.extension_map_get (Py.lower ext)
  /\ (FileType.is_supported (FileType.from_filename (stem +:+ "." +:+ ext))
      = true
      <-> In (Py.lower ext)
            ["pdf"; "jpg"; "jpeg"; "png"; "bmp"; "tiff"; "gif"; "webp"]).
Proof.
  intros Hext. rewrite str_in_char in Hext.
  assert (E : FileType.from_filename (stem +:+ "." +:+ ext)
              = FileType.extension_map_get (Py.lower ext)).
  { unfold FileType.from_filename.
    change ("." +:+ ext) with (String "." ext).
    assert (Hin : Py.str_in "." (stem +:+ String "." ext) = true).
    { rewrite str_in_char, any_char_app. cbn [Py.any_char].
      rewrite Ascii.eqb_refl. cbn [orb]. apply orb_true_r. }
    assert (Ht : Py.truthy (stem +:+ String "." ext) = true).
    { destruct stem; reflexivity. }
    rewrite Hin, Ht. cbn [negb orb].
    rewrite split_on_last_app, (split_on_no_sep _ _ _ Hext).
    reflexivity. }
  split; [exact E|]. rewrite E. apply extension_map_get_known.
Qed.

Lemma from_filename_by_last_extension_witness :
  FileType.from_filename "cv.final.v2.PDF" = FileType.PDF
  /\ FileType.is_supported (FileType.from_filename "cv.final.v2.PDF") = true.
Proof.
  destruct (from_filename_by_last_extension "cv.final.v2" "PDF" eq_refl)
    as [E S].
  split.
  - exact E.
  - apply S. vm_compute. tauto.
Defined.

(** A document's type and its extension agree: [FileType.from_filename]
    of any file name is the extension-map entry of the document's
    [get_file_extension], which is why a name without a dot, and the empty
    name, have type [UNKNOWN].  A type is supported exactly when it is an
    image or the PDF type, never both, and the text extractor supports
    exactly the supported types. *)
Theorem file_type_consistency :
  (forall doc : CurriculumDocument.t,
     FileType.from_filename (CurriculumDocument.file_name doc)
     = FileType.extension_map_get (CurriculumDocument.get_file_extension doc))
  /\ (forall name, Py.str_in "." name = false ->
        FileType.from_filename name = FileType.UNKNOWN)
  /\ (forall ft : FileType.t,
        FileType.is_supported ft
        = xorb (FileType.is_image ft) (FileType.is_pdf ft)
        /\ TesseractTextExtractor.is_supported_type ft
           = FileType.is_supported ft).
Proof.
  split; [|split].
  - intros doc. unfold FileType.from_filename,
      CurriculumDocument.get_file_extension.
    destruct (CurriculumDocument.file_name doc) as [|c name] eqn:E.
    + reflexivity.
    + cbn [Py.truthy negb orb].
      destruct (Py.str_in "." (String c name)); reflexivity.
  - intros name H. unfold FileType.from_filename. rewrite H.
    cbn [negb]. rewrite orb_true_r. reflexivity.
  - intros ft. destruct ft; split; reflexivity.
Qed.


(** [add_document] keeps the invariant that every document of a request
    is valid (a non-empty name, a positive size, a known type): a valid
    document is appended and counted, any other leaves the request as it
    was. *)
Theorem add_document_keeps_valid
    (request : AnalysisRequest.t) (document : CurriculumDocument.t) :
  let after := AnalysisRequest.add_document request document in
  (Forall (fun d => CurriculumDocument.is_valid d = true)
     (AnalysisRequest.documents request) ->
   Forall (fun d => Py.truthy (CurriculumDocument.file_name d) = true
                    /\ (0 < CurriculumDocument.file_size d)%Z
                    /\ CurriculumDocument.file_type d <> FileType.UNKNOWN)
     (AnalysisRequest.documents after))
  /\ (CurriculumDocument.is_valid document = true ->
      AnalysisRequest.documents after
      = AnalysisRequest.documents request ++ [document]
      /\ AnalysisRequest.get_document_count after
         = (AnalysisRequest.get_document_count request + 1)%Z)
  /\ (CurriculumDocument.is_valid document = false -> after = request)
  /\ AnalysisRequest.has_query after = AnalysisRequest.has_query request.
Proof.
  intros after. subst after.
  assert (V : forall d, CurriculumDocument.is_valid d = true ->
                Py.truthy (CurriculumDocument.file_name d) = true
                /\ (0 < CurriculumDocument.file_size d)%Z
                /\ CurriculumDocument.file_type d <> FileType.UNKNOWN).
  { intros d Hd. unfold CurriculumDocument.is_valid in Hd.
    apply andb_prop in Hd. destruct Hd as [Hd Ht].
    apply andb_prop in Hd. destruct Hd as [Hn Hs].
    split; [exact Hn|]. split; [lia|].
    intros E. rewrite E in Ht. discriminate. }
  unfold AnalysisRequest.add_document, AnalysisRequest.get_document_count,
    AnalysisRequest.has_query.
  destruct (CurriculumDocument.is_valid document) eqn:Hv;
    cbn [AnalysisRequest.documents AnalysisRequest.query].
  - split; [|split; [|split; [discriminate|reflexivity]]].
    + intros Hall. apply Forall_app. split.
      * eapply List.Forall_impl; [|exact Hall]. exact V.
      * constructor; [apply V; exact Hv|constructor].
    + intros _. split; [reflexivity|].
      unfold len. rewrite length_app. cbn [length]. lia.
  - split; [|split; [discriminate|split; reflexivity]].
    intros Hall. eapply List.Forall_impl; [|exact Hall]. exact V.
Qed.

(** ** Building and matching the analysis of a document *)

Lemma scan_total (text : string) (ps : list (list Re.item)) :
  forallb (captures_digits false) ps = true ->
  exists y, 0 <= y /\ ExperienceYears.scan ps text = Ok (ExperienceYears.Make y).
Proof.
  induction ps as [|p ps IH]; intros Hps.
  - exists 0. split; [lia|reflexivity].
  - cbn [forallb] in Hps. apply andb_prop in Hps. destruct Hps as [Hp Hps].
    cbn [ExperienceYears.scan].
    destruct (Re.search p (Py.lower text)) as [g|] eqn:Hs; [|apply IH; exact Hps].
    assert (Hg : 0 <= Py.int g).
    { apply int_nonneg. apply (search_digits p (Py.lower text) g Hp Hs). }
    exists (Py.int g). split; [exact Hg|apply new_nonneg; exact Hg].
Qed.

Lemma from_text_total (text : string) :
  exists y, 0 <= y
            /\ ExperienceYears.from_text text = Ok (ExperienceYears.Make y).
Proof.
  unfold ExperienceYears.from_text. destruct (Py.truthy text); cbn [negb].
  - apply scan_total. apply patterns_capture_digits.
  - exists 0. split; [lia|reflexivity].
Qed.

Lemma determine_level_unknown (text : string) (skills : TechnicalSkillSet.t)
    (experience : ExperienceYears.t) :
  determine_level text skills experience = ProfessionalLevel.UNKNOWN ->
  ProfessionalLevel.from_text text = ProfessionalLevel.UNKNOWN
  /\ ExperienceYears.years experience <= 0
  /\ TechnicalSkillSet.count skills = 0.
Proof.
  pose proof (count_nonneg skills) as Hc.
  unfold determine_level, ExperienceYears.get_level_suggestion. cbv zeta.
  destruct (ProfessionalLevel.from_text text) eqn:Hl;
    cbn [ProfessionalLevel.eqb negb]; try discriminate.
  destruct (Z.geb_spec (ExperienceYears.years experience) 5);
    cbn [ProfessionalLevel.eqb negb]; [discriminate|].
  destruct (Z.geb_spec (ExperienceYears.years experience) 2);
    cbn [ProfessionalLevel.eqb negb]; [discriminate|].
  destruct (Z.gtb_spec (ExperienceYears.years experience) 0);
    cbn [ProfessionalLevel.eqb negb]; [discriminate|].
  destruct (Z.geb_spec (TechnicalSkillSet.count skills) 10); [discriminate|].
  destruct (Z.geb_spec (TechnicalSkillSet.count skills) 5); [discriminate|].
  destruct (Z.gtb_spec (TechnicalSkillSet.count skills) 0); [discriminate|].
  intros _. split; [reflexivity|]. split; lia.
Qed.

Lemma count_zero_to_list (skills : TechnicalSkillSet.t) :
  TechnicalSkillSet.count skills = 0 -> TechnicalSkillSet.to_list skills = [].
Proof.
  unfold TechnicalSkillSet.count, TechnicalSkillSet.to_list. intros H.
  assert (Hlen : length (elements (TechnicalSkillSet.skills skills)) = 0%nat).
  { change (size (TechnicalSkillSet.skills skills) = 0%nat). lia. }
  destruct (elements (TechnicalSkillSet.skills skills)); [reflexivity|].
  discriminate.
Qed.

Lemma extracted_names (text name : string) :
  In name
    (TechnicalSkillSet.to_list
       (TechnicalSkillSet.Make
          (members_of (found_skills technical_skills_patterns (Py.lower text)))))
  <-> exists tok, In tok technical_skills_patterns
                  /\ skill_hit tok (Py.lower text) = true
                  /\ name = Py.title tok.
Proof.
  pose proof taxonomy_titles_clean as Hclean.
  rewrite forallb_forall in Hclean.
  assert (Hc : forall t, In t technical_skills_patterns ->
                 Py.strip (Py.title t) = Py.title t
                 /\ Py.truthy (Py.strip (Py.title t)) = true).
  { intros t Ht. specialize (Hclean t Ht). apply andb_prop in Hclean.
    destruct Hclean as [H1 H2]. apply String.eqb_eq in H1. auto. }
  unfold TechnicalSkillSet.to_list. cbn [TechnicalSkillSet.skills].
  rewrite in_map_iff. split.
  - intros [sk [<- Hsk]].
    apply list_elem_of_In, elem_of_elements, elem_of_members_of in Hsk.
    destruct Hsk as [raw [Hraw [_ ->]]].
    apply found_skills_In in Hraw. destruct Hraw as [tok [Hin [Hhit ->]]].
    exists tok. split; [exact Hin|]. split; [exact Hhit|].
    unfold member_of. cbn [TechnicalSkill.name]. apply (Hc tok Hin).
  - intros [tok [Hin [Hhit ->]]]. destruct (Hc tok Hin) as [Hs Ht].
    exists (member_of (Py.title tok)). split.
    + unfold member_of. cbn [TechnicalSkill.name]. exact Hs.
    + apply list_elem_of_In, elem_of_elements, elem_of_members_of.
      exists (Py.title tok). split; [|split; [exact Ht|reflexivity]].
      apply found_skills_In. exists tok. auto.
Qed.

Lemma generate_summary_total (set_order : list string -> list string)
    (text file_name : string) :
  exists summary, generate_summary set_order text file_name = Ok summary.
Proof.
  unfold generate_summary.
  destruct (negb (Py.truthy (Py.strip text))); [eauto|].
  rewrite extract_skills_members. unfold extract_experience.
  destruct (from_text_total text) as [y [_ ->]].
  cbn [rbind]. eauto.
Qed.

Lemma analyze_curriculum_Ok (set_order : list string -> list string)
    (document : CurriculumDocument.t) :
  let text := CurriculumDocument.extracted_text document in
  exists y summary,
    0 <= y
    /\ ExperienceYears.from_text text = Ok (ExperienceYears.Make y)
    /\ analyze_curriculum set_order document
       = Ok (analysis_record (CurriculumDocument.id document) summary
               (TechnicalSkillSet.Make
                  (members_of (found_skills technical_skills_patterns
                                 (Py.lower text))))
               (ExperienceYears.Make y)
               (determine_level text
                  (TechnicalSkillSet.Make
                     (members_of (found_skills technical_skills_patterns
                                    (Py.lower text))))
                  (ExperienceYears.Make y))
               (_extract_education set_order text)).
Proof.
  intros text. unfold analyze_curriculum. fold text.
  rewrite extract_skills_members. unfold extract_experience.
  destruct (from_text_total text) as [y [Hy Hexp]].
  destruct (generate_summary_total set_order text
              (CurriculumDocument.file_name document)) as [summary Hsum].
  exists y, summary. split; [exact Hy|]. split; [exact Hexp|].
  rewrite Hexp. cbn [rbind]. rewrite Hsum. reflexivity.
Qed.

(** [analyze_curriculum] never raises, whatever the document.  Its record
    carries the document's id; its skills are the title-cased taxonomy
    tokens that pass the two tests of [extract_skills]; its experience
    string is absent exactly for zero years and is otherwise read back by
    the scorer as the years extracted; its level string is absent exactly
    for the unknown level and is otherwise the value of the level
    determined, which the enum call reads back; and a record without a
    level has neither skills nor experience. *)
Theorem analyze_curriculum_record (set_order : list string -> list string)
    (document : CurriculumDocument.t) :
  let text := CurriculumDocument.extracted_text document in
  exists analysis skills experience,
    analyze_curriculum set_order document = Ok analysis
    /\ extract_skills text = Ok skills
    /\ extract_experience text = Ok experience
    /\ CurriculumAnalysis.document_id analysis = CurriculumDocument.id document
    /\ (forall name, In name (CurriculumAnalysis.skills analysis)
          <-> exists tok, In tok technical_skills_patterns
                /\ skill_hit tok (Py.lower text) = true
                /\ name = Py.title tok)
    /\ match CurriculumAnalysis.experience_years analysis with
       | Some s => 0 < ExperienceYears.years experience
                   /\ first_int s = Ok (ExperienceYears.years experience)
       | None => ExperienceYears.years experience = 0
       end
    /\ match CurriculumAnalysis.position_level analysis with
       | Some s =>
           ProfessionalLevel.of_value s
           = Ok (determine_level text skills experience)
           /\ determine_level text skills experience
              <> ProfessionalLevel.UNKNOWN
       | None =>
           determine_level text skills experience = ProfessionalLevel.UNKNOWN
           /\ CurriculumAnalysis.skills analysis = []
           /\ CurriculumAnalysis.experience_years analysis = None
       end
    /\ CurriculumAnalysis.education analysis = _extract_education set_order text.
Proof.
  intros text.
  destruct (analyze_curriculum_Ok set_order document)
    as [y [summary [Hy [Hexp Han]]]]. fold text in Hexp, Han.
  eexists. eexists. eexists.
  split; [exact Han|]. split; [apply extract_skills_members|].
  split; [exact Hexp|].
  unfold analysis_record.
  cbn [CurriculumAnalysis.document_id CurriculumAnalysis.skills
       CurriculumAnalysis.experience_years CurriculumAnalysis.position_level
       CurriculumAnalysis.education ExperienceYears.years].
  split; [reflexivity|]. split; [intros name; apply extracted_names|].
  split; [|split; [|reflexivity]].
  - destruct (Z.gtb_spec y 0) as [Hpos|Hzero].
    + split; [lia|]. apply (first_int_str (ExperienceYears.Make y)). exact Hy.
    + lia.
  - set (skills := TechnicalSkillSet.Make _).
    destruct (determine_level text skills (ExperienceYears.Make y)) eqn:Hl;
      cbn [ProfessionalLevel.eqb negb];
      try (split; [apply of_value_value|discriminate]).
    split; [reflexivity|].
    apply determine_level_unknown in Hl. destruct Hl as [_ [Hyears Hcount]].
    cbn [ExperienceYears.years] in Hyears.
    split; [apply count_zero_to_list; exact Hcount|].
    destruct (Z.gtb_spec y 0); [lia|reflexivity].
Qed.

Lemma analysis_record_readable (r : requirements) (document_id summary : string)
    (skills : TechnicalSkillSet.t) (experience : ExperienceYears.t)
    (level : ProfessionalLevel.t) (education : option string) :
  Spec.level_readable r
    (analysis_record document_id summary skills experience level education)
  = true.
Proof.
  unfold Spec.level_readable.
  rewrite (proj1 (analysis_record_level document_id summary skills experience
                    level education)).
  apply orb_true_r.
Qed.

Lemma analyze_all (set_order : list string -> list string)
    (documents : list CurriculumDocument.t) :
  exists analyses,
    List.Forall2 (fun d a => analyze_curriculum set_order d = Ok a)
      documents analyses
    /\ map CurriculumAnalysis.document_id analyses
       = map CurriculumDocument.id documents
    /\ forall r, forallb (Spec.level_readable r) analyses = true.
Proof.
  induction documents as [|d documents IH].
  - exists []. split; [constructor|]. split; reflexivity.
  - destruct IH as [analyses [Hall [Hids Hread]]].
    destruct (analyze_curriculum_Ok set_order d) as [y [summary [_ [_ Han]]]].
    eexists (_ :: analyses). split; [constructor; [exact Han|exact Hall]|].
    split.
    + cbn [map]. rewrite Hids. reflexivity.
    + intros r. cbn [forallb]. rewrite analysis_record_readable, Hread.
      reflexivity.
Qed.

Lemma match_loop_ids (r : requirements) (analyses : list CurriculumAnalysis.t)
    (entries : list match_entry) :
  List.Forall2 (Spec.entry_of r) analyses entries ->
  map m_document_id entries = map CurriculumAnalysis.document_id analyses.
Proof.
  induction 1 as [|a m l ms Hm _ IH]; [reflexivity|].
  cbn [map]. destruct Hm as [Hid _]. rewrite Hid, IH. reflexivity.
Qed.

(** The records that [analyze_curriculum] builds never make the matching
    raise: whatever the documents and the query, analysing every document
    and matching the analyses against the query returns a ranking with
    exactly one entry per document, under the ids of the documents, every
    score between 0 and 1, in descending order of score. *)
Theorem analysis_then_matching (set_order : list string -> list string)
    (format_2f : Q -> string) (documents : list CurriculumDocument.t)
    (query : string) :
  exists analyses out,
    List.Forall2 (fun d a => analyze_curriculum set_order d = Ok a)
      documents analyses
    /\ analyze_query_match format_2f analyses query = Ok out
    /\ length (best_matches out) = length documents
    /\ Permutation (map m_document_id (best_matches out))
         (map CurriculumDocument.id documents)
    /\ List.Forall (fun m => (0 <= m_score m /\ m_score m <= 1)%Q)
         (best_matches out)
    /\ StronglySorted (fun m1 m2 => (m_score m2 <= m_score m1)%Q)
         (best_matches out).
Proof.
  destruct (analyze_all set_order documents) as [analyses [Hall [Hids Hread]]].
  destruct (match_loop_total _ _ (Hread (_parse_query_requirements query)))
    as [entries Hloop].
  pose proof (match_loop_entries _ _ _ Hloop) as Hentries.
  pose proof (sort_reverse_perm m_score entries) as Hperm.
  exists analyses. eexists. split; [exact Hall|].
  split; [apply (analyze_query_match_Ok format_2f _ _ _ Hloop)|].
  cbn [best_matches]. split; [|split; [|split]].
  - rewrite (Permutation_length Hperm).
    rewrite <- (List.Forall2_length Hentries).
    symmetry. apply (List.Forall2_length Hall).
  - rewrite <- Hids, <- (match_loop_ids _ _ _ Hentries).
    apply Permutation_map. exact Hperm.
  - apply (Permutation_Forall (Permutation_sym Hperm)).
    apply (entries_score_bounds _ _ _ Hentries).
  - exact (sort_reverse_sorted m_score entries).
Qed.

(** ** Blank text *)

Lemma atom_solid_space (a : Re.atom) (c : ascii) :
  atom_solid a = true -> Py.isspace c = true -> Re.atom_ok a c = false.
Proof.
  destruct a as [d| |]; cbn [atom_solid Re.atom_ok]; intros Ha Hc.
  - destruct (Ascii.eqb_spec d c) as [->|]; [|reflexivity].
    rewrite Hc in Ha. discriminate.
  - revert Hc. destruct c as [[] [] [] [] [] [] [] []]; vm_compute; congruence.
  - discriminate.
Qed.

Lemma star_all_space (a : Re.atom) (k : Re.mstate -> option string) :
  (forall st, all_space (Re.rest st) = true -> k st = None) ->
  forall s st,
    all_space s = true -> all_space (Re.rest st) = true ->
    Re.star a k s st = None.
Proof.
  intros Hk. induction s as [|c r IH]; intros st Hs Hst; cbn [Re.star].
  - apply Hk. exact Hst.
  - cbn [all_space] in Hs. apply andb_prop in Hs. destruct Hs as [_ Hr].
    destruct (Re.atom_ok a c); [|apply Hk; exact Hst].
    rewrite (IH (Re.eat c r st) Hr Hr). apply Hk. exact Hst.
Qed.

Lemma run_all_space (p : list Re.item) :
  solid p = true ->
  forall st, all_space (Re.rest st) = true -> Re.run p st = None.
Proof.
  induction p as [|i p IH]; [discriminate|].
  destruct i as [a|a|a|a| | |]; cbn [solid Re.run]; intros Hp st Hst.
  - destruct (Re.rest st) as [|c r] eqn:Hrest; [reflexivity|].
    cbn [all_space] in Hst. apply andb_prop in Hst. destruct Hst as [Hc Hr].
    destruct (atom_solid a) eqn:Ha.
    + rewrite (atom_solid_space a c Ha Hc). reflexivity.
    + destruct (Re.atom_ok a c); [|reflexivity]. apply (IH Hp). exact Hr.
  - destruct (Re.rest st) as [|c r] eqn:Hrest.
    + apply (IH Hp). rewrite Hrest. reflexivity.
    + assert (Hst' : all_space (Re.rest st) = true) by (rewrite Hrest; exact Hst).
      cbn [all_space] in Hst. apply andb_prop in Hst. destruct Hst as [Hc Hr].
      destruct (Re.atom_ok a c); [|apply (IH Hp); exact Hst'].
      rewrite (IH Hp (Re.eat c r st) Hr). apply (IH Hp). exact Hst'.
  - apply star_all_space; [apply (IH Hp)|exact Hst|exact Hst].
  - destruct (Re.rest st) as [|c r] eqn:Hrest; [reflexivity|].
    cbn [all_space] in Hst. apply andb_prop in Hst. destruct Hst as [Hc Hr].
    destruct (atom_solid a) eqn:Ha.
    + rewrite (atom_solid_space a c Ha Hc). reflexivity.
    + destruct (Re.atom_ok a c); [|reflexivity].
      apply star_all_space; [apply (IH Hp)|exact Hr|exact Hr].
  - destruct (Re.at_boundary st); [|reflexivity]. apply (IH Hp). exact Hst.
  - apply (IH Hp). exact Hst.
  - apply (IH Hp). exact Hst.
Qed.

Lemma search_from_all_space (p : list Re.item) :
  solid p = true ->
  forall s before, all_space s = true -> Re.search_from p before s = None.
Proof.
  intros Hp. induction s as [|c r IH]; intros before Hs; cbn [Re.search_from].
  - rewrite (run_all_space p Hp); reflexivity.
  - rewrite (run_all_space p Hp) by exact Hs.
    cbn [all_space] in Hs. apply andb_prop in Hs. destruct Hs as [_ Hr].
    apply IH. exact Hr.
Qed.

Lemma all_space_lower (s : string) : all_space (Py.lower s) = all_space s.
Proof.
  induction s as [|c s IH]; [reflexivity|].
  simpl. rewrite isspace_lower_char, IH. reflexivity.
Qed.

Lemma all_space_lstrip (s : string) : all_space (Py.lstrip s) = all_space s.
Proof.
  induction s as [|c s IH]; [reflexivity|].
  simpl. destruct (Py.isspace c) eqn:Hc; [exact IH|].
  simpl. rewrite Hc. reflexivity.
Qed.

Lemma blank_all_space (s : string) :
  Py.truthy (Py.strip s) = false -> all_space s = true.
Proof.
  intros H. apply lower_empty in H. unfold Py.strip in H.
  apply rstrip_empty in H. rewrite all_space_lstrip in H. exact H.
Qed.

Lemma found_skills_blank (text_lower : string) (todo : list string) :
  all_space text_lower = true ->
  forallb ends_clean todo = true ->
  found_skills todo text_lower = [].
Proof.
  intros Hs. induction todo as [|tok todo IH]; [reflexivity|].
  cbn [forallb found_skills]. intros H. apply andb_prop in H.
  destruct H as [Htok Htodo]. unfold skill_hit.
  rewrite (str_in_all_space tok text_lower Htok Hs). cbn [andb].
  apply IH. exact Htodo.
Qed.

Lemma found_education_blank (text_lower : string) (todo : list string) :
  all_space text_lower = true ->
  forallb ends_clean todo = true ->
  found_education todo text_lower = [].
Proof.
  intros Hs. induction todo as [|kw todo IH]; [reflexivity|].
  cbn [forallb found_education]. intros H. apply andb_prop in H.
  destruct H as [Hkw Htodo].
  rewrite (str_in_all_space kw text_lower Hkw Hs). apply IH. exact Htodo.
Qed.

Lemma existsb_str_in_blank (text_lower : string) (words : list string) :
  all_space text_lower = true ->
  forallb ends_clean words = true ->
  existsb (fun word => Py.str_in word text_lower) words = false.
Proof.
  intros Hs. induction words as [|w words IH]; [reflexivity|].
  cbn [forallb existsb]. intros H. apply andb_prop in H.
  destruct H as [Hw Hwords].
  rewrite (str_in_all_space w text_lower Hw Hs). apply IH. exact Hwords.
Qed.

Lemma level_from_text_blank (text : string) :
  all_space text = true ->
  ProfessionalLevel.from_text text = ProfessionalLevel.UNKNOWN.
Proof.
  intros Hs. rewrite <- all_space_lower in Hs.
  unfold ProfessionalLevel.from_text.
  destruct (negb (Py.truthy text)); [reflexivity|]. cbv zeta.
  rewrite !(existsb_str_in_blank _ _ Hs) by reflexivity.
  rewrite (str_in_all_space "pleno" _ eq_refl Hs).
  rewrite (str_in_all_space "especialista" _ eq_refl Hs). reflexivity.
Qed.

Lemma experience_from_text_blank (text : string) :
  all_space text = true ->
  ExperienceYears.from_text text = Ok (ExperienceYears.Make 0).
Proof.
  intros Hs. rewrite <- all_space_lower in Hs.
  unfold ExperienceYears.from_text.
  destruct (negb (Py.truthy text)); [reflexivity|].
  rewrite scan_none; [reflexivity|].
  intros pattern Hin. apply search_from_all_space; [|exact Hs].
  revert pattern Hin. apply forallb_forall. vm_compute. reflexivity.
Qed.

(** A document whose text is empty or made of white space only is
    analysed without any finding: the summary says that no meaningful text
    could be extracted and names the file, and the record has no skills,
    no experience, no level and no education. *)
Theorem blank_text_analysis (set_order : list string -> list string)
    (document : CurriculumDocument.t) :
  Py.truthy (Py.strip (CurriculumDocument.extracted_text document)) = false ->
  analyze_curriculum set_order document
  = Ok {| CurriculumAnalysis.document_id := CurriculumDocument.id document;
          CurriculumAnalysis.summary :=
            no_text +:+ CurriculumDocument.file_name document;
          CurriculumAnalysis.skills := [];
          CurriculumAnalysis.experience_years := None;
          CurriculumAnalysis.position_level := None;
          CurriculumAnalysis.education := None |}.
Proof.
  intros Hblank. pose proof (blank_all_space _ Hblank) as Hs.
  assert (Hl : all_space (Py.lower (CurriculumDocument.extracted_text document))
               = true) by (rewrite all_space_lower; exact Hs).
  unfold analyze_curriculum, generate_summary, _extract_education.
  rewrite Hblank. cbn [negb].
  rewrite extract_skills_members. unfold extract_experience.
  rewrite (experience_from_text_blank _ Hs).
  rewrite (found_skills_blank _ _ Hl) by reflexivity.
  rewrite (found_education_blank _ _ Hl) by reflexivity.
  cbn [rbind nonempty]. unfold determine_level.
  rewrite (level_from_text_blank _ Hs). reflexivity.
Qed.

Lemma blank_text_analysis_witness :
  analyze_curriculum (fun found => found) (document_of "doc-7" "   ")
  = Ok {| CurriculumAnalysis.document_id := "doc-7";
          CurriculumAnalysis.summary := no_text +:+ "cv.pdf";
          CurriculumAnalysis.skills := [];
          CurriculumAnalysis.experience_years := None;
          CurriculumAnalysis.position_level := None;
          CurriculumAnalysis.education := None |}.
Proof.
  apply (blank_text_analysis (fun found => found) (document_of "doc-7" "   ")).
  reflexivity.
Defined.

(** ** The candidate's name and the education line *)

Lemma nth_error_firstn_Some {A : Type} (n : nat) (l : list A) (i : nat) (x : A) :
  nth_error (firstn n l) i = Some x <-> (i < n)%nat /\ nth_error l i = Some x.
Proof.
  rewrite List.nth_error_firstn. destruct (Nat.ltb_spec i n).
  - tauto.
  - split; [discriminate|lia].
Qed.

Lemma In_firstn_In {A : Type} (n : nat) (l : list A) (x : A) :
  In x (firstn n l) -> In x l.
Proof.
  intros H. rewrite <- (firstn_skipn n l). apply in_or_app. left. exact H.
Qed.

Lemma first_name_like_spec (lines : list string) :
  match first_name_like lines with
  | Some name =>
      exists k line,
        nth_error lines k = Some line
        /\ name = Py.strip line
        /\ name_like name = true
        /\ forall j earlier, (j < k)%nat -> nth_error lines j = Some earlier ->
             name_like (Py.strip earlier) = false
  | None => forall line, In line lines -> name_like (Py.strip line) = false
  end.
Proof.
  induction lines as [|line lines IH]; cbn [first_name_like].
  - intros line [].
  - destruct (name_like (Py.strip line)) eqn:Hn.
    + exists 0%nat, line. repeat split; [exact Hn|]. intros j earlier Hj. lia.
    + destruct (first_name_like lines) as [name|].
      * destruct IH as [k [l [Hk [Hname [Hlike Hbefore]]]]].
        exists (S k), l. split; [exact Hk|]. split; [exact Hname|].
        split; [exact Hlike|]. intros [|j] earlier Hj Hnth.
        -- injection Hnth as <-. exact Hn.
        -- apply (Hbefore j earlier); [lia|exact Hnth].
      * intros l [<-|Hl]; [exact Hn|apply IH; exact Hl].
Qed.

Lemma name_like_truthy (line : string) :
  name_like line = true -> Py.truthy line = true.
Proof. destruct line; [vm_compute; discriminate|reflexivity]. Qed.

(** The candidate's name is the first of the first five lines of the
    text that, once stripped, has two to four words, fewer than fifty
    characters, no digit and none of the words that mark a heading or an
    address; lines after the fifth are never looked at.  The name returned
    is stripped and not empty; without such a line there is no name. *)
Theorem candidate_name_first_of_five (text : string) :
  let lines := Py.split_on "010" EmptyString text in
  match _extract_candidate_name text with
  | Some name =>
      (exists k line,
         (k < 5)%nat
         /\ nth_error lines k = Some line
         /\ name = Py.strip line
         /\ forall j earlier, (j < k)%nat -> nth_error lines j = Some earlier ->
              name_like (Py.strip earlier) = false)
      /\ name_like name = true
      /\ Py.truthy name = true
      /\ Py.strip name = name
      /\ (2 <= len (Py.split name) <= 4)
      /\ (String.length name < 50)%nat
      /\ Py.any_char Py.isdigit name = false
  | None =>
      forall k line, (k < 5)%nat -> nth_error lines k = Some line ->
        name_like (Py.strip line) = false
  end.
Proof.
  intros lines. unfold _extract_candidate_name. fold lines.
  pose proof (first_name_like_spec (firstn 5 lines)) as H.
  destruct (first_name_like (firstn 5 lines)) as [name|].
  - destruct H as [k [line [Hk [Hname [Hlike Hbefore]]]]].
    apply nth_error_firstn_Some in Hk. destruct Hk as [Hk5 Hk].
    split; [|split; [exact Hlike|split; [apply name_like_truthy; exact Hlike|]]].
    + exists k, line. split; [exact Hk5|]. split; [exact Hk|].
      split; [exact Hname|]. intros j earlier Hj Hnth.
      apply (Hbefore j earlier Hj).
      apply nth_error_firstn_Some. split; [lia|exact Hnth].
    + split; [subst name; apply strip_idem|].
      unfold name_like in Hlike.
      apply andb_prop in Hlike. destruct Hlike as [Hlike _].
      apply andb_prop in Hlike. destruct Hlike as [Hlike Hdigit].
      apply andb_prop in Hlike. destruct Hlike as [Hlike Hlen].
      apply andb_prop in Hlike. destruct Hlike as [Hlo Hhi].
      apply negb_true_iff in Hdigit.
      split; [lia|]. split; [lia|exact Hdigit].
  - intros k line Hk Hnth. apply H.
    apply (nth_error_In _ k).
    apply nth_error_firstn_Some. split; [exact Hk|exact Hnth].
Qed.

Lemma found_education_filter (todo : list string) (text_lower : string) :
  found_education todo text_lower
  = map Py.title (List.filter (fun kw => Py.str_in kw text_lower) todo).
Proof.
  induction todo as [|kw todo IH]; [reflexivity|].
  cbn [found_education List.filter].
  destruct (Py.str_in kw text_lower); cbn [map]; rewrite IH; reflexivity.
Qed.

Lemma NoDup_map_filter {A B : Type} (f : A -> B) (g : A -> bool) (l : list A) :
  List.NoDup (map f l) -> List.NoDup (map f (List.filter g l)).
Proof.
  induction l as [|x l IH]; cbn [map List.filter]; intros H; [constructor|].
  apply List.NoDup_cons_iff in H. destruct H as [Hx Hl].
  destruct (g x); cbn [map]; [|apply IH; exact Hl].
  constructor; [|apply IH; exact Hl].
  intros Hin. apply Hx. apply in_map_iff in Hin.
  destruct Hin as [y [Hy Hin]]. apply List.filter_In in Hin.
  apply in_map_iff. exists y. tauto.
Qed.

Lemma education_titles_distinct :
  distinct (map Py.title education_keywords) = true.
Proof. vm_compute. reflexivity. Qed.



(** ** Reading the experience phrase back *)

Lemma str_append_assoc (s t u : string) : (s +:+ t) +:+ u = s +:+ (t +:+ u).
Proof.
  induction s as [|c s IH]; [reflexivity|].
  change (String c ((s +:+ t) +:+ u) = String c (s +:+ (t +:+ u))).
  f_equal. exact IH.
Qed.

Lemma lower_append (s t : string) :
  Py.lower (s +:+ t) = Py.lower s +:+ Py.lower t.
Proof.
  induction s as [|c s IH]; [reflexivity|].
  change (String (Py.lower_char c) (Py.lower (s +:+ t))
          = String (Py.lower_char c) (Py.lower s +:+ Py.lower t)).
  f_equal. exact IH.
Qed.

Lemma isdecimal_lower_char (c : ascii) :
  Py.isdecimal (Py.lower_char c) = Py.isdecimal c.
Proof. destruct c as [[] [] [] [] [] [] [] []]; reflexivity. Qed.

Lemma lower_char_digit (c : ascii) :
  Py.isdecimal c = true -> Py.lower_char c = c.
Proof. destruct c as [[] [] [] [] [] [] [] []]; vm_compute; congruence. Qed.

Lemma lower_digits (s : string) : all_digits s = true -> Py.lower s = s.
Proof.
  induction s as [|c s IH]; [reflexivity|]. cbn [all_digits Py.lower].
  intros H. apply andb_prop in H. destruct H as [Hc Hs].
  rewrite (lower_char_digit c Hc), (IH Hs). reflexivity.
Qed.

Lemma any_decimal_lower (s : string) :
  Py.any_char Py.isdecimal (Py.lower s) = Py.any_char Py.isdecimal s.
Proof.
  induction s as [|c s IH]; [reflexivity|].
  cbn [Py.lower Py.any_char]. rewrite isdecimal_lower_char, IH. reflexivity.
Qed.

(** A greedy quantifier that can take all of [taken] and no more, and
    whose continuation then matches, gives that match. *)
Lemma star_greedy (k : Re.mstate -> option string) (after : string) :
  digit_head after = false ->
  forall taken st m,
    all_digits taken = true ->
    Re.rest st = taken +:+ after ->
    (forall before,
       k {| Re.prev := before; Re.rest := after; Re.inside := Re.inside st;
            Re.buf := if Re.inside st then Re.buf st +:+ taken
                      else Re.buf st |} = Some m) ->
    Re.star Re.Digit k (taken +:+ after) st = Some m.
Proof.
  intros Hafter. induction taken as [|c taken IH]; intros st m Hall Hrest Hk.
  - change (EmptyString +:+ after) with after in *.
    specialize (Hk (Re.prev st)). rewrite append_empty in Hk.
    assert (Hst : k st = Some m).
    { destruct st as [pv rs ins bf]. cbn [Re.rest Re.inside Re.buf Re.prev] in *.
      subst rs. destruct ins; exact Hk. }
    destruct after as [|d r]; [exact Hst|].
    rewrite star_step. cbn [digit_head] in Hafter. cbn [Re.atom_ok].
    rewrite Hafter. exact Hst.
  - cbn [all_digits] in Hall. apply andb_prop in Hall. destruct Hall as [Hc Hall].
    change (String c taken +:+ after) with (String c (taken +:+ after)) in *.
    rewrite star_step. cbn [Re.atom_ok]. rewrite Hc.
    rewrite (IH (Re.eat c (taken +:+ after) st) m Hall eq_refl); [reflexivity|].
    intros before. unfold Re.eat. cbn [Re.inside Re.buf].
    specialize (Hk before). destruct (Re.inside st); [|exact Hk].
    rewrite append_snoc. exact Hk.
Qed.

Lemma experience_phrase_run (digits after : string) (before : option ascii) :
  all_digits digits = true -> Py.truthy digits = true ->
  Re.run (nth 0 ExperienceYears.patterns [])
    (Re.start before
       (digits +:+ " anos de " +:+ ExperienceYears.experiencia +:+ after))
  = Some digits.
Proof.
  intros Hall Htr. destruct digits as [|c digits]; [discriminate|].
  cbn [all_digits] in Hall. apply andb_prop in Hall. destruct Hall as [Hc Hall].
  set (tail := " anos de " +:+ ExperienceYears.experiencia +:+ after).
  change (String c digits +:+ tail) with (String c (digits +:+ tail)).
  change (nth 0 ExperienceYears.patterns [])
    with (Re.Open :: Re.Plus Re.Digit
          :: tl (tl (nth 0 ExperienceYears.patterns []))).
  cbn [Re.run Re.start Re.rest Re.prev Re.atom_ok]. rewrite Hc.
  apply star_greedy; [reflexivity|exact Hall|reflexivity|].
  intros before'. unfold Re.eat. cbn [Re.inside Re.buf].
  subst tail. vm_compute. reflexivity.
Qed.

Lemma search_skips_no_digit (p : list Re.item) (s m : string) :
  (forall before, Re.run (Re.Open :: Re.Plus Re.Digit :: p) (Re.start before s)
                  = Some m) ->
  forall skipped before,
    Py.any_char Py.isdecimal skipped = false ->
    Re.search_from (Re.Open :: Re.Plus Re.Digit :: p) before (skipped +:+ s)
    = Some m.
Proof.
  intros Hrun. induction skipped as [|c skipped IH]; intros before Hno.
  - change (EmptyString +:+ s) with s. rewrite search_from_step, Hrun.
    reflexivity.
  - cbn [Py.any_char] in Hno. apply orb_false_elim in Hno.
    destruct Hno as [Hc Hno].
    change (String c skipped +:+ s) with (String c (skipped +:+ s)).
    rewrite search_from_step.
    cbn [Re.run Re.start Re.rest Re.prev Re.atom_ok]. rewrite Hc.
    apply IH. exact Hno.
Qed.

Lemma experience_phrase_read (n : Z) (skipped rest : string) :
  0 <= n ->
  Py.any_char Py.isdecimal skipped = false ->
  ExperienceYears.from_text
    (skipped +:+ Py.str_int n +:+ " anos de " +:+ ExperienceYears.experiencia
     +:+ rest)
  = Ok (ExperienceYears.Make n).
Proof.
  intros Hn Hno. destruct (str_int_spec n Hn) as [Hall [Htr Hint]].
  unfold ExperienceYears.from_text.
  assert (Ht : Py.truthy (skipped +:+ Py.str_int n +:+ " anos de "
                          +:+ ExperienceYears.experiencia +:+ rest) = true).
  { destruct skipped; [|reflexivity].
    change (EmptyString +:+ ?x) with x.
    destruct (Py.str_int n); [discriminate|reflexivity]. }
  rewrite Ht. cbn [negb].
  rewrite (scan_first _ _ 0%nat (nth 0 ExperienceYears.patterns [])
             (Py.str_int n)).
  - rewrite Hint. apply new_nonneg. exact Hn.
  - reflexivity.
  - rewrite !lower_append, (lower_digits _ Hall).
    change (Py.lower " anos de ") with " anos de ".
    change (Py.lower ExperienceYears.experiencia)
      with ExperienceYears.experiencia.
    unfold Re.search.
    change (nth 0 ExperienceYears.patterns [])
      with (Re.Open :: Re.Plus Re.Digit
            :: tl (tl (nth 0 ExperienceYears.patterns []))).
    apply search_skips_no_digit.
    + intros pv. apply (experience_phrase_run _ _ pv Hall Htr).
    + rewrite any_decimal_lower. exact Hno.
  - intros j earlier Hj. lia.
Qed.

(** The phrase that the summary writes for the experience is read back as
    the same years: a text made of any part without a digit, a
    non-negative number in decimal, the words " anos de experiência" and
    anything after them gives exactly that number of years; so does the
    clause "(N anos de experiência)" built from the display string of an
    [ExperienceYears]. *)
Theorem experience_phrase_round_trip (n : Z) (before after : string) :
  0 <= n ->
  Py.any_char Py.isdecimal before = false ->
  ExperienceYears.from_text
    (before +:+ Py.str_int n +:+ " anos de " +:+ ExperienceYears.experiencia
     +:+ after)
  = Ok (ExperienceYears.Make n)
  /\ ExperienceYears.from_text
       ("(" +:+ ExperienceYears.str (ExperienceYears.Make n) +:+ " de "
        +:+ ExperienceYears.experiencia +:+ ")")
     = Ok (ExperienceYears.Make n).
Proof.
  intros Hn Hbefore.
  split; [apply experience_phrase_read; assumption|].
  unfold ExperienceYears.str. cbn [ExperienceYears.years].
  rewrite (str_append_assoc (Py.str_int n) " anos").
  apply (experience_phrase_read n "(" ")" Hn). reflexivity.
Qed.

Lemma experience_phrase_round_trip_witness :
  ExperienceYears.from_text
    ("Maria Silva, " +:+ Py.str_int 12 +:+ " anos de "
     +:+ ExperienceYears.experiencia +:+ " em Java")
  = Ok (ExperienceYears.Make 12).
Proof.
  apply (proj1 (experience_phrase_round_trip 12 "Maria Silva, " " em Java"
                  ltac:(lia) eq_refl)).
Defined.

(** ** Reasons and score *)

Lemma true_div_pos (m n : Z) : 0 < m -> 0 < n -> (0 < true_div m n)%Q.
Proof.
  intros Hm Hn. unfold true_div. destruct n as [|p|p]; try lia.
  unfold Qlt, Qdiv, Qmult, Qinv, inject_Z. simpl. lia.
Qed.

(** The reasons follow the record, and only the first one the query: the
    reason that names skills is given exactly when the skills term of the
    score is positive, and it lists the required skills the record has;
    the experience, level and education of a record are given as reasons
    whenever the record has them, whatever the query asks; there are never
    more than four reasons. *)
Theorem reasons_follow_the_record (a : CurriculumAnalysis.t) (r : requirements) :
  let matched :=
    List.filter
      (fun skill => Py.list_in skill (map Py.lower (CurriculumAnalysis.skills a)))
      (req_skills r) in
  let reasons := _generate_match_reasons a r in
  ((0 < skills_term a r)%Q <-> matched <> [])
  /\ (In ("Dom" +:+ i_acute +:+ "nio em: " +:+ Py.join ", " matched) reasons
      <-> matched <> [])
  /\ (forall s, Py.truthy s = true ->
        (CurriculumAnalysis.experience_years a = Some s ->
         In ("Experi" +:+ e_circ +:+ "ncia: " +:+ s) reasons)
        /\ (CurriculumAnalysis.position_level a = Some s ->
            In ("N" +:+ i_acute +:+ "vel: " +:+ s) reasons)
        /\ (CurriculumAnalysis.education a = Some s ->
            In ("Forma" +:+ c_cedil +:+ a_tilde +:+ "o: " +:+ s) reasons))
  /\ (length reasons <= 4)%nat.
Proof.
  intros matched reasons. subst reasons. unfold _generate_match_reasons.
  cbv zeta. fold matched.
  assert (Hm : matched <> [] -> nonempty (req_skills r) = true).
  { subst matched. destruct (req_skills r); [intros H; contradiction|reflexivity]. }
  split; [|split; [|split]].
  - unfold skills_term. cbv zeta.
    change (count_if (fun skill => Py.list_in skill
                        (map Py.lower (CurriculumAnalysis.skills a)))
              (req_skills r)) with (len matched).
    destruct (req_skills r) as [|q qs] eqn:Hreq; cbn [nonempty].
    + subst matched. cbn [List.filter]. split.
      * intros H. inversion H.
      * intros H. contradiction.
    + destruct matched as [|x xs].
      * split; [|intros H; contradiction].
        intros H. exfalso. change (len (@nil string)) with 0 in H.
        rewrite true_div_zero in H. inversion H.
      * split; [discriminate|]. intros _.
        apply Qmult_lt_0_compat; [|reflexivity].
        apply true_div_pos; unfold len; cbn [length]; lia.
  - split.
    + intros Hin Hnil. rewrite Hnil in Hin.
      destruct (nonempty (req_skills r)); cbn [nonempty app] in Hin;
        destruct (CurriculumAnalysis.experience_years a) as [e|];
        try destruct (Py.truthy e);
        destruct (CurriculumAnalysis.position_level a) as [l|];
        try destruct (Py.truthy l);
        destruct (CurriculumAnalysis.education a) as [d|];
        try destruct (Py.truthy d);
        cbn [app In] in Hin;
        repeat (destruct Hin as [Hin|Hin]; [discriminate|]);
        exact Hin.
    + intros Hne. rewrite (Hm Hne).
      rewrite (nonempty_true matched Hne). left. reflexivity.
  - intros s Hs. split; [|split]; intros E; rewrite E, Hs.
    + apply in_or_app. right. apply in_or_app. left. left. reflexivity.
    + apply in_or_app. right. apply in_or_app. right.
      apply in_or_app. left. left. reflexivity.
    + apply in_or_app. right. apply in_or_app. right.
      apply in_or_app. right. left. reflexivity.
  - destruct (nonempty (req_skills r)); [destruct (nonempty matched)|];
      destruct (CurriculumAnalysis.experience_years a) as [e|];
      try destruct (Py.truthy e);
      destruct (CurriculumAnalysis.position_level a) as [l|];
      try destruct (Py.truthy l);
      destruct (CurriculumAnalysis.education a) as [d|];
      try destruct (Py.truthy d);
      cbn [app length]; lia.
Qed.

(** ** Stated and required experience *)

Lemma query_years_run (digits tail : string) (before : option ascii) :
  all_digits digits = true -> Py.truthy digits = true ->
  (exists after, tail = " anos" +:+ after \/ tail = "+ anos" +:+ after) ->
  Re.run exp_pattern (Re.start before (digits +:+ tail)) = Some digits.
Proof.
  intros Hall Htr [after Htail]. destruct digits as [|c digits]; [discriminate|].
  cbn [all_digits] in Hall. apply andb_prop in Hall. destruct Hall as [Hc Hall].
  change (String c digits +:+ tail) with (String c (digits +:+ tail)).
  change exp_pattern
    with (Re.Open :: Re.Plus Re.Digit :: tl (tl exp_pattern)).
  cbn [Re.run Re.start Re.rest Re.prev Re.atom_ok]. rewrite Hc.
  apply star_greedy; [|exact Hall|reflexivity|].
  - destruct Htail as [->| ->]; reflexivity.
  - intros before'. unfold Re.eat. cbn [Re.inside Re.buf].
    destruct Htail as [->| ->]; vm_compute; reflexivity.
Qed.

Lemma query_years_parsed (n : Z) (before tail : string) :
  0 <= n ->
  Py.any_char Py.isdecimal before = false ->
  (exists after, tail = " anos" +:+ after \/ tail = "+ anos" +:+ after) ->
  req_experience_years
    (_parse_query_requirements (before +:+ Py.str_int n +:+ tail))
  = n.
Proof.
  intros Hn Hbefore [after Htail].
  destruct (str_int_spec n Hn) as [Hall [Htr Hint]].
  unfold _parse_query_requirements. cbn [req_experience_years].
  rewrite !lower_append, (lower_digits _ Hall). unfold Re.search.
  change exp_pattern
    with (Re.Open :: Re.Plus Re.Digit :: tl (tl exp_pattern)).
  rewrite (search_skips_no_digit _ (Py.str_int n +:+ Py.lower tail)
             (Py.str_int n)).
  - exact Hint.
  - intros pv. apply (query_years_run _ _ pv Hall Htr).
    exists (Py.lower after).
    destruct Htail as [->| ->]; rewrite lower_append; [left|right]; reflexivity.
  - rewrite any_decimal_lower. exact Hbefore.
Qed.



(** ** Extracted and required skills *)

Lemma taxonomy_lower_title :
  forallb (fun tok => String.eqb (Py.lower (Py.title tok)) tok)
          technical_skills_patterns = true.
Proof. vm_compute. reflexivity. Qed.

Lemma count_if_pos {A : Type} (f : A -> bool) (l : list A) (x : A) :
  In x l -> f x = true -> 0 < count_if f l.
Proof.
  intros Hin Hf. unfold count_if.
  assert (H : In x (List.filter f l)) by (apply List.filter_In; auto).
  destruct (List.filter f l); [destruct H|]. cbn [length]. lia.
Qed.

(** From the texts to the skills term: a taxonomy token that passes the
    two tests of [extract_skills] on the text of a document and occurs in
    the lower-cased query is a skill of the record (title-cased) and a
    required skill of the query, and the two meet: the skills term of the
    score is positive and the reasons begin with the skills reason. *)
Theorem extracted_skill_meets_required
    (set_order : list string -> list string) (document : CurriculumDocument.t)
    (query tok : string) :
  In tok technical_skills_patterns ->
  skill_hit tok (Py.lower (CurriculumDocument.extracted_text document)) = true ->
  Py.str_in tok (Py.lower query) = true ->
  let requirements := _parse_query_requirements query in
  exists analysis,
    analyze_curriculum set_order document = Ok analysis
    /\ In (Py.title tok) (CurriculumAnalysis.skills analysis)
    /\ In tok (req_skills requirements)
    /\ (0 < skills_term analysis requirements)%Q
    /\ exists listed others,
         _generate_match_reasons analysis requirements
         = ("Dom" +:+ i_acute +:+ "nio em: " +:+ Py.join ", " listed) :: others
         /\ In tok listed.
Proof.
  intros Htok Hhit Hquery requirements.
  destruct (analyze_curriculum_Ok set_order document)
    as [y [summary [_ [_ Han]]]]. cbv zeta in Han.
  eexists. split; [exact Han|].
  unfold analysis_record.
  set (names := TechnicalSkillSet.to_list _).
  assert (Hname : In (Py.title tok) names).
  { apply extracted_names. exists tok. auto. }
  assert (Hreq : In tok (req_skills requirements)).
  { subst requirements. unfold _parse_query_requirements.
    cbn [req_skills]. apply List.filter_In. auto. }
  assert (Hlow : Py.lower (Py.title tok) = tok).
  { pose proof taxonomy_lower_title as H. rewrite forallb_forall in H.
    apply String.eqb_eq. apply H. exact Htok. }
  assert (Hhas : Py.list_in tok (map Py.lower names) = true).
  { apply list_in_In. rewrite <- Hlow. apply in_map. exact Hname. }
  assert (Hne : req_skills requirements <> []).
  { intros E. rewrite E in Hreq. destruct Hreq. }
  split; [exact Hname|]. split; [exact Hreq|]. split.
  - unfold skills_term. cbn [CurriculumAnalysis.skills].
    rewrite (nonempty_true _ Hne).
    apply Qmult_lt_0_compat; [|reflexivity].
    apply true_div_pos; [|apply len_pos; exact Hne].
    apply (count_if_pos _ _ tok Hreq Hhas).
  - unfold _generate_match_reasons. cbn [CurriculumAnalysis.skills].
    rewrite (nonempty_true _ Hne).
    assert (Hin : In tok (List.filter
                            (fun skill => Py.list_in skill (map Py.lower names))
                            (req_skills requirements)))
      by (apply List.filter_In; auto).
    rewrite (nonempty_true (List.filter _ _)).
    + eexists. eexists. split; [reflexivity|exact Hin].
    + intros E. rewrite E in Hin. destruct Hin.
Qed.

Lemma extracted_skill_meets_required_witness :
  exists analysis,
    analyze_curriculum (fun found => found)
      (document_of "doc-5" "Desenvolvedora Python e Docker")
    = Ok analysis
    /\ In "Docker" (CurriculumAnalysis.skills analysis)
    /\ (0 < skills_term analysis
              (_parse_query_requirements "Vaga com docker e aws"))%Q.
Proof.
  destruct (extracted_skill_meets_required (fun found => found)
              (document_of "doc-5" "Desenvolvedora Python e Docker")
              "Vaga com docker e aws" "docker")
    as [analysis [Han [Hin [_ [Hpos _]]]]].
  - vm_compute. tauto.
  - vm_compute. reflexivity.
  - vm_compute. reflexivity.
  - exists analysis. split; [exact Han|]. split; [exact Hin|exact Hpos].
Defined.

(** ** Determined and required level *)

Lemma analysis_record_level_term (r : requirements)
    (document_id summary : string) (skills : TechnicalSkillSet.t)
    (experience : ExperienceYears.t) (level : ProfessionalLevel.t)
    (education : option string) :
  level_term
    (analysis_record document_id summary skills experience level education) r
  = Ok (if negb (ProfessionalLevel.eqb (req_level r) ProfessionalLevel.UNKNOWN)
           && ProfessionalLevel.eqb level (req_level r)
        then (2 # 10)%Q else 0%Q).
Proof.
  unfold level_term, analysis_record. cbn [CurriculumAnalysis.position_level].
  destruct (ProfessionalLevel.eqb level ProfessionalLevel.UNKNOWN) eqn:Hl;
    cbn [negb].
  - apply level_eqb_eq in Hl. subst level.
    destruct (req_level r); reflexivity.
  - rewrite value_truthy, andb_true_r.
    destruct (negb (ProfessionalLevel.eqb (req_level r)
                      ProfessionalLevel.UNKNOWN)); cbn [andb]; [|reflexivity].
    rewrite of_value_value. cbn [rbind].
    destruct (ProfessionalLevel.eqb level (req_level r)); reflexivity.
Qed.

(** From the texts to the level term: for the record that
    [analyze_curriculum] builds, the level term of the score is the full
    0.2 exactly when the query names a level and the level determined for
    the document is that very level, and 0 in every other case, a level
    above the one asked for included. *)
Theorem determined_level_meets_required
    (set_order : list string -> list string) (document : CurriculumDocument.t)
    (query : string) :
  let text := CurriculumDocument.extracted_text document in
  let requirements := _parse_query_requirements query in
  exists analysis skills experience,
    analyze_curriculum set_order document = Ok analysis
    /\ extract_skills text = Ok skills
    /\ extract_experience text = Ok experience
    /\ level_term analysis requirements
       = Ok (if negb (ProfessionalLevel.eqb (req_level requirements)
                        ProfessionalLevel.UNKNOWN)
                && ProfessionalLevel.eqb
                     (determine_level text skills experience)
                     (req_level requirements)
             then (2 # 10)%Q else 0%Q).
Proof.
  intros text requirements.
  destruct (analyze_curriculum_Ok set_order document)
    as [y [summary [_ [Hexp Han]]]]. fold text in Hexp, Han.
  eexists. eexists. eexists.
  split; [exact Han|]. split; [apply extract_skills_members|].
  split; [exact Hexp|]. apply analysis_record_level_term.
Qed.
